(** * learnworlds-js: the OAuth2 token authority and the API gateway

    A shallow embedding of [src/oauth.ts] (class [OAuth2Client]) and of the
    request pipeline of [src/client.ts] (class [LearnWorldsClient]), with
    the data types of [src/types.ts].

    Conventions of the embedding.
    - A JavaScript string is the [string] of its UTF-8 bytes.  An optional
      string ([x?: string]) is an [option string]; JavaScript's truthiness
      test on it is [truthy]: [undefined] and the empty string are falsy.
    - A [Date] is its time value: a [Z] number of milliseconds since the
      epoch, or [InvalidDate] where JavaScript has NaN.  The calendar
      arithmetic of [Date] follows ECMA-262; the time zone of the host is
      part of the [Platform].  Numbers that the code only handles as
      integers are [Z]: a lifetime [expires_in] is a whole number of
      seconds.
    - Everything outside the client (the OAuth server, the resource API,
      the clock, whatever the [onTokenRefresh] callback writes to) is a
      world of an arbitrary type [W], reached only through the functions of
      a [Platform] and through the callback of the configuration.
    - An [async] function is a computation in the monad [M]: it transforms
      the system state and either returns a value or throws.  State changes
      made before a [throw] persist, as they do in JavaScript.  One call
      runs at a time: calls that interleave at their [await]s are not
      modelled.
    - The system state carries a ghost log, the wire: every POST of the
      OAuth client, every request handed to the transport of the gateway
      and every call of the callback, in order. *)

From Stdlib Require Import String Ascii List ZArith NArith Bool Lia.
Import ListNotations.
Local Open Scope string_scope.

(* ================================================================== *)
(** * JavaScript values *)

(** [!!s] for an optional string. *)
Definition truthy (s : option string) : bool :=
  match s with
  | Some s => negb (s =? "")
  | None => false
  end.

(** [a || b] where [b] is a string: [a] if it is truthy, otherwise [b]. *)
Definition or_else (a : option string) (b : string) : string :=
  match a with
  | Some s => if s =? "" then b else s
  | None => b
  end.

(** [a || b] where [b] is itself optional. *)
Definition or_opt (a b : option string) : option string :=
  if truthy a then a else b.

(** [a === b] on optional strings. *)
Definition strict_eq (a b : option string) : bool :=
  match a, b with
  | Some x, Some y => x =? y
  | None, None => true
  | _, _ => false
  end.

(** [s.startsWith(p)]. *)
Fixpoint starts_with (p s : string) : bool :=
  match p, s with
  | EmptyString, _ => true
  | String _ _, EmptyString => false
  | String a p', String b s' => (a =? b)%char && starts_with p' s'
  end.

(** [s.includes(p)]: [p] starts at some position of [s]. *)
Fixpoint includes (p s : string) : bool :=
  starts_with p s ||
  match s with
  | EmptyString => false
  | String _ s' => includes p s'
  end.

(** [s.endsWith(p)]: [p] is one of the suffixes of [s]. *)
Fixpoint ends_with (p s : string) : bool :=
  (p =? s) ||
  match s with
  | EmptyString => false
  | String _ s' => ends_with p s'
  end.

(** [c] occurs in [s]. *)
Fixpoint occurs (c : ascii) (s : string) : bool :=
  match s with
  | EmptyString => false
  | String a s' => (a =? c)%char || occurs c s'
  end.

(* ================================================================== *)
(** * URLSearchParams

    [new URLSearchParams({...})] is the list of its name/value pairs in
    insertion order, [append] adds a pair at the end, and [toString()] is
    the application/x-www-form-urlencoded serializer of the URL Standard:
    every byte of a name or value is kept if it is an ASCII letter or digit
    or one of [*-._], a space becomes [+], any other byte becomes [%XX] in
    upper-case hexadecimal; a pair is [name=value] and pairs are joined by
    [&].  [parse] is the parser of the same standard. *)

Definition URLSearchParams := list (string * string).

Definition append_param (ps : URLSearchParams) (name value : string)
  : URLSearchParams := (ps ++ [(name, value)])%list.

Definition unreserved (a : ascii) : bool :=
  let n := N_of_ascii a in
  ((48 <=? n) && (n <=? 57) || (65 <=? n) && (n <=? 90)
   || (97 <=? n) && (n <=? 122)
   || (n =? 42) || (n =? 45) || (n =? 46) || (n =? 95))%N.

Definition hex_digit (n : N) : ascii :=
  if (n <? 10)%N then ascii_of_N (48 + n) else ascii_of_N (55 + n).

Definition encode_byte (a : ascii) : string :=
  if unreserved a then String a ""
  else if (a =? " ")%char then "+"
  else String "%" (String (hex_digit (N_of_ascii a / 16))
                  (String (hex_digit (N_of_ascii a mod 16)) "")).

Fixpoint urlencode (s : string) : string :=
  match s with
  | EmptyString => ""
  | String a s' => encode_byte a ++ urlencode s'
  end.

Definition serialize_pair (nv : string * string) : string :=
  urlencode (fst nv) ++ "=" ++ urlencode (snd nv).

Fixpoint toString (ps : URLSearchParams) : string :=
  match ps with
  | [] => ""
  | nv :: rest =>
      match rest with
      | [] => serialize_pair nv
      | _ :: _ => serialize_pair nv ++ "&" ++ toString rest
      end
  end.

Definition hex_value (a : ascii) : option N :=
  let n := N_of_ascii a in
  if ((48 <=? n) && (n <=? 57))%N then Some (n - 48)%N
  else if ((65 <=? n) && (n <=? 70))%N then Some (n - 55)%N
  else if ((97 <=? n) && (n <=? 102))%N then Some (n - 87)%N
  else None.

(** Percent-decoding, after [+] has been read as a space. *)
Fixpoint urldecode (s : string) : string :=
  match s with
  | EmptyString => ""
  | String a t =>
      if (a =? "+")%char then String " " (urldecode t)
      else if (a =? "%")%char then
        match t with
        | String h (String l rest) =>
            match hex_value h, hex_value l with
            | Some x, Some y => String (ascii_of_N (16 * x + y)) (urldecode rest)
            | _, _ => String a (urldecode t)
            end
        | _ => String a (urldecode t)
        end
      else String a (urldecode t)
  end.

(** [s.split(c)], accumulating the current piece in [cur]. *)
Fixpoint split_from (c : ascii) (cur s : string) : list string :=
  match s with
  | EmptyString => [cur]
  | String a s' =>
      if (a =? c)%char then cur :: split_from c "" s'
      else split_from c (cur ++ String a "") s'
  end.

Definition split (c : ascii) (s : string) : list string := split_from c "" s.

(** The part of [s] before the first [c], and the part after it. *)
Fixpoint cut (c : ascii) (s : string) : string * string :=
  match s with
  | EmptyString => ("", "")
  | String a s' =>
      if (a =? c)%char then ("", s')
      else let (x, y) := cut c s' in (String a x, y)
  end.

Definition parse_pair (seq : string) : string * string :=
  let (n, v) := cut "=" seq in (urldecode n, urldecode v).

Definition parse (body : string) : URLSearchParams :=
  map parse_pair (filter (fun seq => negb (seq =? "")) (split "&" body)).

(** The names of the fields of a form-encoded body, in order. *)
Definition field_names (body : string) : list string := map fst (parse body).

(** The value of the first field called [name], if there is one. *)
Definition field (name body : string) : option string :=
  match find (fun nv => fst nv =? name) (parse body) with
  | Some nv => Some (snd nv)
  | None => None
  end.

(** What may follow a value in a serialized list of pairs: the end of the
    body, or the separator before the next pair. *)
Definition boundary (r : string) : Prop :=
  r = "" \/ exists r', r = String "&" r'.

(* ================================================================== *)
(** * Data types ([src/types.ts] and the HTTP client's) *)

(** A JSON value the client passes through without looking inside. *)
Definition Payload := string.

Record TokenResponse := {
  access_token : string;
  token_type : string;
  expires_in : Z;
  refresh_token : option string;
  scope : option string
}.

Record AuthorizationCodeRequest := {
  ac_code : string;
  ac_redirectUri : string
}.

Record ResourceOwnerPasswordRequest := {
  username : string;
  password : string;
  pw_scope : option string
}.

Record ApiResponse := {
  success : bool;
  data : Payload;
  api_message : option string;
  errors : option (list string)
}.

(** The request configuration of the HTTP client, with the [_retry] mark
    the gateway puts on it ([undefined] is [false]). *)
Record RequestConfig := {
  method : string;
  url : string;
  req_data : option Payload;
  params : option Payload;
  headers : list (string * string);
  _retry : bool
}.

Record AxiosResponse := {
  status : Z;
  body : ApiResponse
}.

(** The body of an error response, of which the client reads [message]. *)
Record ErrorBody := {
  eb_message : option string;
  eb_rest : Payload
}.

Record ErrorResponse := {
  er_status : Z;
  er_data : option ErrorBody
}.

(** What a transport reports when an exchange fails: the error's message,
    whether a request was made, and the response if one was received. *)
Record Failure := {
  f_message : string;
  f_request : bool;
  f_response : option ErrorResponse
}.

Record AxiosError := {
  ax_message : string;
  ax_config : RequestConfig;
  ax_request : bool;
  ax_response : option ErrorResponse
}.

Definition mkAxiosError (f : Failure) (cfg : RequestConfig) : AxiosError :=
  {| ax_message := f_message f; ax_config := cfg;
     ax_request := f_request f; ax_response := f_response f |}.

(** [details] is [unknown] in the source: it holds either the body of an
    error response or the [errors] of an envelope. *)
Inductive Details :=
| ResponseData (d : option ErrorBody)
| EnvelopeErrors (l : option (list string)).

Record LearnWorldsError := {
  name : string;
  message : string;
  lw_status : option Z;
  code : option string;
  details : option Details
}.

(** What can be thrown. *)
Inductive Exn :=
| JsError (msg : string)            (* throw new Error(msg) *)
| AxiosFailure (e : AxiosError)     (* a rejection of the HTTP client *)
| ApiFailure (e : LearnWorldsError) (* a LearnWorldsError *)
| Foreign (what : string)           (* thrown by the caller's callback *)
| OutOfFuel.                        (* the model's recursion bound was hit *)

Record LearnWorldsConfig (W : Type) := {
  schoolDomain : string;
  clientId : string;
  clientSecret : string;
  apiHost : string;
  redirectUri : option string;
  cfg_accessToken : option string;
  cfg_refreshToken : option string;
  onTokenRefresh : option (TokenResponse -> W -> option Exn * W)
}.
Arguments schoolDomain {W}. Arguments clientId {W}. Arguments clientSecret {W}.
Arguments apiHost {W}. Arguments redirectUri {W}.
Arguments cfg_accessToken {W}. Arguments cfg_refreshToken {W}.
Arguments onTokenRefresh {W}.

(* ================================================================== *)
(** * Dates (ECMA-262, Date objects) *)

(** The time value of a [Date]: milliseconds since the epoch, or NaN. *)
Inductive Date :=
| TimeValue (t : Z)
| InvalidDate.

Definition msPerSecond : Z := 1000.
Definition msPerMinute : Z := 60000.
Definition msPerHour : Z := 3600000.
Definition msPerDay : Z := 86400000.

(** [floor(t / msPerDay)]; [Z]'s division rounds down, its [mod] has the
    sign of the divisor, as ECMA-262's [modulo]. *)
Definition Day (t : Z) : Z := (t / msPerDay)%Z.
Definition HourFromTime (t : Z) : Z := ((t / msPerHour) mod 24)%Z.
Definition MinFromTime (t : Z) : Z := ((t / msPerMinute) mod 60)%Z.
Definition SecFromTime (t : Z) : Z := ((t / msPerSecond) mod 60)%Z.
Definition msFromTime (t : Z) : Z := (t mod msPerSecond)%Z.

Definition MakeTime (hour min sec ms : Z) : Z :=
  (((hour * msPerHour + min * msPerMinute) + sec * msPerSecond) + ms)%Z.

Definition MakeDate (day time : Z) : Z := (day * msPerDay + time)%Z.

(** A time value beyond 8.64e15 ms on either side of the epoch is NaN. *)
Definition TimeClip (time : Z) : Date :=
  if (Z.abs time >? 8640000000000000)%Z then InvalidDate else TimeValue time.

(** [a >= b - buffer] on the time values of two dates: a comparison with
    NaN is false. *)
Definition reached (now : Z) (expires : Date) (buffer : Z) : bool :=
  match expires with
  | TimeValue t => (now >=? t - buffer)%Z
  | InvalidDate => false
  end.

(** The mutable fields of an [OAuth2Client]. *)
Record OAuth2Client := {
  accessToken : option string;
  refreshToken : option string;
  tokenExpiresAt : option Date
}.

(** The argument of [setTokens] and the result of [getTokens]. *)
Record Tokens := {
  t_accessToken : option string;
  t_refreshToken : option string;
  t_expiresAt : option Date
}.

(** What leaves the client, in order: the ghost log of the wire. *)
Inductive Event :=
| Posted (url body : string)      (* a POST of the OAuth client *)
| Sent (req : RequestConfig)      (* a request handed to the API transport *)
| Notified (r : TokenResponse).   (* a call of onTokenRefresh *)

(** The outside of the client.  [LocalTime] and [UTC] are the conversions
    of ECMA-262 between a time value and the local time of the host's time
    zone; what they are is up to the host. *)
Record Platform (W : Type) := {
  clock : W -> Z * W;                                  (* new Date() *)
  LocalTime : Z -> Z;
  UTC : Z -> Z;
  token_endpoint : string -> W -> (Failure + TokenResponse) * W;
  revoke_endpoint : string -> W -> option Failure * W;
  api_endpoint : RequestConfig -> W -> (Failure + AxiosResponse) * W
}.
Arguments clock {W}. Arguments LocalTime {W}. Arguments UTC {W}.
Arguments token_endpoint {W}.
Arguments revoke_endpoint {W}. Arguments api_endpoint {W}.

Record System (W : Type) := {
  oauth : OAuth2Client;
  world : W;
  wire : list Event
}.
Arguments oauth {W}. Arguments world {W}. Arguments wire {W}.
Arguments Build_System {W}.

(* ================================================================== *)
(** * The monad of asynchronous computations *)

Inductive Outcome (A : Type) :=
| Returned (a : A)
| Thrown (e : Exn).
Arguments Returned {A}. Arguments Thrown {A}.

Definition M (W A : Type) := System W -> Outcome A * System W.

Definition ret {W A} (a : A) : M W A := fun s => (Returned a, s).

Definition throw {W A} (e : Exn) : M W A := fun s => (Thrown e, s).

Definition bind {W A B} (c : M W A) (k : A -> M W B) : M W B :=
  fun s =>
    match c s with
    | (Returned a, s') => k a s'
    | (Thrown e, s') => (Thrown e, s')
    end.

(** [try { x = await c; <k x> } catch (e) { <h e> }] where [k] cannot
    throw into the [catch]. *)
Definition try_catch {W A B} (c : M W A) (k : A -> M W B) (h : Exn -> M W B)
  : M W B :=
  fun s =>
    match c s with
    | (Returned a, s') => k a s'
    | (Thrown e, s') => h e s'
    end.

Declare Scope async_scope.
Delimit Scope async_scope with async.
Notation "x <- c ;; k" := (bind c (fun x => k))
  (at level 61, c at next level, right associativity) : async_scope.
Notation "c ;; k" := (bind c (fun _ => k))
  (at level 61, right associativity) : async_scope.
Local Open Scope async_scope.

Definition get_oauth {W} : M W OAuth2Client := fun s => (Returned (oauth s), s).

Definition put_oauth {W} (o : OAuth2Client) : M W unit :=
  fun s => (Returned tt, {| oauth := o; world := world s; wire := wire s |}).

Definition emit {W} (e : Event) : M W unit :=
  fun s => (Returned tt,
            {| oauth := oauth s; world := world s; wire := (wire s ++ [e])%list |}).

(** An action of the outside world. *)
Definition outside {W A} (f : W -> A * W) : M W A :=
  fun s => let (a, w) := f (world s) in
           (Returned a, {| oauth := oauth s; world := w; wire := wire s |}).

Definition when {W} (b : bool) (c : M W unit) : M W unit :=
  if b then c else ret tt.

(* ================================================================== *)
(** * Request headers *)

Definition Headers := list (string * string).

(** [headers[k] = v]: replaces the value of [k] or adds it at the end. *)
Fixpoint set_header (hs : Headers) (k v : string) : Headers :=
  match hs with
  | [] => [(k, v)]
  | (k', v') :: rest =>
      if k' =? k then (k, v) :: rest else (k', v') :: set_header rest k v
  end.

Fixpoint get_header (hs : Headers) (k : string) : option string :=
  match hs with
  | [] => None
  | (k', v') :: rest => if k' =? k then Some v' else get_header rest k
  end.

(** The instance defaults, overlaid with the headers of the request. *)
Definition merge_headers (defaults hs : Headers) : Headers :=
  fold_left (fun acc kv => set_header acc (fst kv) (snd kv)) hs defaults.

Definition with_headers (cfg : RequestConfig) (hs : Headers) : RequestConfig :=
  {| method := method cfg; url := url cfg; req_data := req_data cfg;
     params := params cfg; headers := hs; _retry := _retry cfg |}.

Definition mark_retry (cfg : RequestConfig) : RequestConfig :=
  {| method := method cfg; url := url cfg; req_data := req_data cfg;
     params := params cfg; headers := headers cfg; _retry := true |}.

(** [config.headers.Authorization = `Bearer ${token}`]; an [undefined]
    token would be spelled out by the template literal. *)
Definition bearer (token : option string) : string :=
  "Bearer " ++ match token with Some t => t | None => "undefined" end.

Definition authorize (cfg : RequestConfig) (token : option string)
  : RequestConfig :=
  with_headers cfg (set_header (headers cfg) "Authorization" (bearer token)).

(* ================================================================== *)
(** * Error normalization ([LearnWorldsClient.handleError]) *)

Definition set_message (e : LearnWorldsError) (m : string) : LearnWorldsError :=
  {| name := name e; message := m; lw_status := lw_status e;
     code := code e; details := details e |}.

Definition set_code (e : LearnWorldsError) (c : string) : LearnWorldsError :=
  {| name := name e; message := message e; lw_status := lw_status e;
     code := Some c; details := details e |}.

Definition set_status (e : LearnWorldsError) (st : Z) : LearnWorldsError :=
  {| name := name e; message := message e; lw_status := Some st;
     code := code e; details := details e |}.

Definition set_details (e : LearnWorldsError) (d : Details) : LearnWorldsError :=
  {| name := name e; message := message e; lw_status := lw_status e;
     code := code e; details := Some d |}.

(** [new Error(m)], renamed when the source renames it. *)
Definition new_Error (m : string) : LearnWorldsError :=
  {| name := "Error"; message := m; lw_status := None;
     code := None; details := None |}.

(** [(data as { message?: string })?.message]. *)
Definition server_message (d : option ErrorBody) : option string :=
  match d with
  | Some b => eb_message b
  | None => None
  end.

Definition handleError (error : AxiosError) : LearnWorldsError :=
  let lwError :=
    {| name := "LearnWorldsError"; message := ""; lw_status := None;
       code := None; details := None |} in
  match ax_response error with
  | Some response =>
      let lwError := set_status lwError (er_status response) in
      let lwError :=
        set_message lwError
          (or_else (or_opt (server_message (er_data response))
                           (Some (ax_message error)))
                   "API Error") in
      let lwError := set_details lwError (ResponseData (er_data response)) in
      match er_status response with
      | 401%Z =>
          set_message (set_code lwError "UNAUTHORIZED")
                      "Invalid API key or authentication failed"
      | 403%Z => set_message (set_code lwError "FORBIDDEN") "Access denied"
      | 404%Z => set_message (set_code lwError "NOT_FOUND") "Resource not found"
      | 422%Z =>
          set_message (set_code lwError "VALIDATION_ERROR") "Validation failed"
      | 429%Z => set_message (set_code lwError "RATE_LIMIT") "Rate limit exceeded"
      | _ => set_code lwError "API_ERROR"
      end
  | None =>
      if ax_request error then
        set_message (set_code lwError "NETWORK_ERROR")
                    "Network error - unable to reach API"
      else
        set_message (set_code lwError "UNKNOWN_ERROR")
                    (or_else (Some (ax_message error)) "Unknown error occurred")
  end.

(* ================================================================== *)
(** * The token authority ([src/oauth.ts]) and the gateway ([src/client.ts]) *)

Section Client.
Context {W : Type}.
Variable platform : Platform W.
Variable config : LearnWorldsConfig W.

(** ** OAuth2Client *)

(** The constructor: the credentials the configuration was seeded with. *)
Definition new_OAuth2Client : OAuth2Client :=
  {| accessToken := cfg_accessToken config;
     refreshToken := cfg_refreshToken config;
     tokenExpiresAt := None |}.

(** [new Date().getTime()]. *)
Definition new_Date : M W Z := outside (clock platform).

Definition post_config (path body : string) : RequestConfig :=
  {| method := "POST"; url := path; req_data := Some body; params := None;
     headers := [("Content-Type", "application/x-www-form-urlencoded")];
     _retry := false |}.

(** [this.http.post<TokenResponse>('/oauth2/token', body)], giving
    [response.data]. *)
Definition post_token (body : string) : M W TokenResponse :=
  emit (Posted "/oauth2/token" body) ;;
  r <- outside (token_endpoint platform body) ;;
  match r with
  | inr response => ret response
  | inl f =>
      throw (AxiosFailure (mkAxiosError f (post_config "/oauth2/token" body)))
  end.

(** [this.http.post('/oauth2/revoke', body)]. *)
Definition post_revoke (body : string) : M W unit :=
  emit (Posted "/oauth2/revoke" body) ;;
  r <- outside (revoke_endpoint platform body) ;;
  match r with
  | None => ret tt
  | Some f =>
      throw (AxiosFailure (mkAxiosError f (post_config "/oauth2/revoke" body)))
  end.

Definition set_accessToken (v : option string) : M W unit :=
  o <- get_oauth ;;
  put_oauth {| accessToken := v; refreshToken := refreshToken o;
               tokenExpiresAt := tokenExpiresAt o |}.

Definition set_refreshToken (v : option string) : M W unit :=
  o <- get_oauth ;;
  put_oauth {| accessToken := accessToken o; refreshToken := v;
               tokenExpiresAt := tokenExpiresAt o |}.

Definition set_tokenExpiresAt (v : option Date) : M W unit :=
  o <- get_oauth ;;
  put_oauth {| accessToken := accessToken o; refreshToken := refreshToken o;
               tokenExpiresAt := v |}.

(** The callback of the configuration, which acts on the outside world
    and may throw; it does not call back into the client. *)
Definition call_onTokenRefresh
    (cb : TokenResponse -> W -> option Exn * W) (response : TokenResponse)
  : M W unit :=
  emit (Notified response) ;;
  r <- outside (cb response) ;;
  match r with
  | None => ret tt
  | Some e => throw e
  end.

(** [d.getSeconds()] for a date [d] of time value [t]: the seconds field
    of the local time. *)
Definition getSeconds (t : Z) : Z := SecFromTime (LocalTime platform t).

(** [d.setSeconds(sec)] for a date [d] of time value [t]
    (Date.prototype.setSeconds): the seconds field of the local time is
    replaced, and the result is converted back and clipped. *)
Definition setSeconds (t sec : Z) : Date :=
  let t := LocalTime platform t in
  let date :=
    MakeDate (Day t)
             (MakeTime (HourFromTime t) (MinFromTime t) sec (msFromTime t)) in
  TimeClip (UTC platform date).

Definition handleTokenResponse (response : TokenResponse) : M W unit :=
  set_accessToken (Some (access_token response)) ;;
  when (truthy (refresh_token response))
       (set_refreshToken (refresh_token response)) ;;
  when (negb (expires_in response =? 0)%Z)
       (expiresAt <- new_Date ;;
        set_tokenExpiresAt
          (Some (setSeconds expiresAt
                   (getSeconds expiresAt + expires_in response)%Z))) ;;
  match onTokenRefresh config with
  | Some cb => call_onTokenRefresh cb response
  | None => ret tt
  end.

Definition authorize_endpoint : string :=
  "https://" ++ schoolDomain config ++ ".learnworlds.com/oauth2/authorize?".

(** [scope] defaults to ['read_user_profile'] when it is [undefined]. *)
Definition getAuthorizationUrl (scope state : option string) : string :=
  let scope := match scope with Some s => s | None => "read_user_profile" end in
  let params : URLSearchParams :=
    [("client_id", clientId config);
     ("redirect_uri", or_else (redirectUri config) "");
     ("response_type", "code");
     ("scope", scope)] in
  let params :=
    match state with
    | Some s => if s =? "" then params else append_param params "state" s
    | None => params
    end in
  authorize_endpoint ++ toString params.

Definition exchangeAuthorizationCode (request : AuthorizationCodeRequest)
  : M W TokenResponse :=
  let params : URLSearchParams :=
    [("grant_type", "authorization_code");
     ("code", ac_code request);
     ("redirect_uri", ac_redirectUri request);
     ("client_id", clientId config);
     ("client_secret", clientSecret config)] in
  response <- post_token (toString params) ;;
  handleTokenResponse response ;;
  ret response.

(** [if (scope) params.append('scope', scope)]. *)
Definition append_scope (params : URLSearchParams) (scope : option string)
  : URLSearchParams :=
  match scope with
  | Some s => if s =? "" then params else append_param params "scope" s
  | None => params
  end.

Definition authenticateWithPassword (request : ResourceOwnerPasswordRequest)
  : M W TokenResponse :=
  let params : URLSearchParams :=
    [("grant_type", "password");
     ("username", username request);
     ("password", password request);
     ("client_id", clientId config);
     ("client_secret", clientSecret config)] in
  let params := append_scope params (pw_scope request) in
  response <- post_token (toString params) ;;
  handleTokenResponse response ;;
  ret response.

Definition authenticateWithClientCredentials (scope : option string)
  : M W TokenResponse :=
  let params : URLSearchParams :=
    [("grant_type", "client_credentials");
     ("client_id", clientId config);
     ("client_secret", clientSecret config)] in
  let params := append_scope params scope in
  response <- post_token (toString params) ;;
  handleTokenResponse response ;;
  ret response.

Definition refreshAccessToken : M W TokenResponse :=
  o <- get_oauth ;;
  match refreshToken o with
  | Some rt =>
      if rt =? "" then throw (JsError "No refresh token available")
      else
        let params : URLSearchParams :=
          [("grant_type", "refresh_token");
           ("refresh_token", rt);
           ("client_id", clientId config);
           ("client_secret", clientSecret config)] in
        response <- post_token (toString params) ;;
        handleTokenResponse response ;;
        ret response
  | None => throw (JsError "No refresh token available")
  end.

Definition revokeToken (token : option string) : M W unit :=
  o <- get_oauth ;;
  match or_opt token (accessToken o) with
  | Some tokenToRevoke =>
      if tokenToRevoke =? "" then throw (JsError "No token to revoke")
      else
        let params : URLSearchParams :=
          [("token", tokenToRevoke);
           ("client_id", clientId config);
           ("client_secret", clientSecret config)] in
        post_revoke (toString params) ;;
        o <- get_oauth ;;
        when (negb (truthy token) || strict_eq token (accessToken o))
             (set_accessToken None ;; set_tokenExpiresAt None)
  | None => throw (JsError "No token to revoke")
  end.

Definition bufferTime : Z := 5 * 60 * 1000.

(** The result is the value of [this.accessToken!]. *)
Definition getAccessToken : M W (option string) :=
  o <- get_oauth ;;
  if negb (truthy (accessToken o)) then
    throw (JsError "No access token available. Please authenticate first.")
  else
    match tokenExpiresAt o with
    | Some expires =>
        when (truthy (refreshToken o))
             (now <- new_Date ;;
              when (reached now expires bufferTime)
                   (refreshAccessToken ;; ret tt))
    | None => ret tt
    end ;;
    o <- get_oauth ;;
    ret (accessToken o).

Definition isAuthenticated : M W bool :=
  o <- get_oauth ;; ret (truthy (accessToken o)).

Definition setTokens (accessToken : string) (refreshToken : option string)
    (expiresAt : option Date) : M W unit :=
  put_oauth {| accessToken := Some accessToken;
               refreshToken := refreshToken;
               tokenExpiresAt := expiresAt |}.

Definition getTokens : M W Tokens :=
  o <- get_oauth ;;
  ret {| t_accessToken := accessToken o;
         t_refreshToken := refreshToken o;
         t_expiresAt := tokenExpiresAt o |}.

(** ** LearnWorldsClient *)

Definition default_headers : Headers :=
  [("Content-Type", "application/json"); ("Accept", "application/json")].

(** The request interceptor. *)
Definition request_interceptor (cfg : RequestConfig) : M W RequestConfig :=
  try_catch getAccessToken
    (fun token => ret (authorize cfg token))
    (fun _ => ret cfg).

(** The transport of the gateway's HTTP instance. *)
Definition dispatch (cfg : RequestConfig) : M W (Failure + AxiosResponse) :=
  emit (Sent cfg) ;; outside (api_endpoint platform cfg).

Definition has_status (error : AxiosError) (st : Z) : bool :=
  match ax_response error with
  | Some r => (er_status r =? st)%Z
  | None => false
  end.

(** The rejection handler of the response interceptor; [resend] is
    [this.http].  [return this.http(originalRequest)] hands the promise
    of the resent request over without awaiting it, so a rejection of it
    does not reach the [catch]. *)
Definition response_error_interceptor
    (resend : RequestConfig -> M W AxiosResponse) (error : AxiosError)
  : M W AxiosResponse :=
  let originalRequest := ax_config error in
  tokens <- getTokens ;;
  if has_status error 401 && negb (_retry originalRequest)
     && truthy (t_refreshToken tokens)
  then
    let originalRequest := mark_retry originalRequest in
    try_catch (refreshAccessToken ;; getAccessToken)
      (fun token => resend (authorize originalRequest token))
      (fun refreshError => throw (ApiFailure (handleError error)))
  else throw (ApiFailure (handleError error)).

(** [this.http.request(cfg)] and [this.http(cfg)]: merge the instance
    defaults, run the request interceptor, hand the request to the
    transport, run the response interceptor.  The handler of a rejection
    may call [this.http] again; [fuel] bounds that recursion. *)
Fixpoint http (fuel : nat) (cfg : RequestConfig) : M W AxiosResponse :=
  match fuel with
  | O => throw OutOfFuel
  | S fuel' =>
      cfg <- request_interceptor
               (with_headers cfg (merge_headers default_headers (headers cfg))) ;;
      r <- dispatch cfg ;;
      match r with
      | inr response => ret response
      | inl f => response_error_interceptor (http fuel') (mkAxiosError f cfg)
      end
  end.

(** The object literal [{ method, url: endpoint, data, params }]. *)
Definition api_request (method endpoint : string)
    (payload query : option Payload) : RequestConfig :=
  {| method := method; url := endpoint; req_data := payload;
     params := query; headers := []; _retry := false |}.

Definition makeRequest (fuel : nat) (method endpoint : string)
    (payload query : option Payload) : M W Payload :=
  response <- http fuel (api_request method endpoint payload query) ;;
  if negb (success (body response)) then
    let error :=
      new_Error (or_else (api_message (body response)) "API request failed") in
    let error := set_code error "API_ERROR" in
    let error := set_details error (EnvelopeErrors (errors (body response))) in
    throw (ApiFailure error)
  else ret (data (body response)).

Definition getAllCourses (fuel : nat) (params : option Payload) : M W Payload :=
  makeRequest fuel "GET" "/courses" None params.

Definition getAllBundles (fuel : nat) (params : option Payload) : M W Payload :=
  makeRequest fuel "GET" "/bundles" None params.

Definition createUser (fuel : nat) (userData : Payload) : M W Payload :=
  makeRequest fuel "POST" "/users" (Some userData) None.

Definition updateUser (fuel : nat) (userId : string) (userData : Payload)
  : M W Payload :=
  makeRequest fuel "PUT" ("/users/" ++ userId) (Some userData) None.

Definition updateUserTags (fuel : nat) (userId : string) (tagData : Payload)
  : M W Payload :=
  makeRequest fuel "PATCH" ("/users/" ++ userId ++ "/tags") (Some tagData) None.

Definition enrollUserToProduct (fuel : nat) (enrollmentData : Payload)
  : M W Payload :=
  makeRequest fuel "POST" "/enrollments" (Some enrollmentData) None.

Definition unenrollUserFromProduct (fuel : nat) (unenrollmentData : Payload)
  : M W unit :=
  makeRequest fuel "DELETE" "/enrollments" (Some unenrollmentData) None ;;
  ret tt.

Definition getUser (fuel : nat) (userId : string) : M W Payload :=
  makeRequest fuel "GET" ("/users/" ++ userId) None None.

Definition getCourse (fuel : nat) (courseId : string) : M W Payload :=
  makeRequest fuel "GET" ("/courses/" ++ courseId) None None.

Definition getBundle (fuel : nat) (bundleId : string) : M W Payload :=
  makeRequest fuel "GET" ("/bundles/" ++ bundleId) None None.

Definition getUserEnrollments (fuel : nat) (userId : string) : M W Payload :=
  makeRequest fuel "GET" ("/users/" ++ userId ++ "/enrollments") None None.

End Client.

(* ================================================================== *)
(** * A scripted outside world, for concrete runs *)

(** The clock stands still and the host keeps UTC; each endpoint answers
    with the next reply of its script, and with a network failure once the
    script is used up. *)
Record Script := {
  time : Z;
  token_replies : list (Failure + TokenResponse);
  revoke_replies : list (option Failure);
  api_replies : list (Failure + AxiosResponse)
}.

Definition network_failure : Failure :=
  {| f_message := "Network Error"; f_request := true; f_response := None |}.

Definition status_failure (st : Z) (d : option ErrorBody) : Failure :=
  {| f_message := "Request failed";
     f_request := true;
     f_response := Some {| er_status := st; er_data := d |} |}.

Definition scripted : Platform Script :=
  {| clock := fun w => (time w, w);
     LocalTime := fun t => t;
     UTC := fun t => t;
     token_endpoint := fun _ w =>
       match token_replies w with
       | r :: rest =>
           (r, {| time := time w; token_replies := rest;
                  revoke_replies := revoke_replies w;
                  api_replies := api_replies w |})
       | [] => (inl network_failure, w)
       end;
     revoke_endpoint := fun _ w =>
       match revoke_replies w with
       | r :: rest =>
           (r, {| time := time w; token_replies := token_replies w;
                  revoke_replies := rest;
                  api_replies := api_replies w |})
       | [] => (Some network_failure, w)
       end;
     api_endpoint := fun _ w =>
       match api_replies w with
       | r :: rest =>
           (r, {| time := time w; token_replies := token_replies w;
                  revoke_replies := revoke_replies w;
                  api_replies := rest |})
       | [] => (inl network_failure, w)
       end |}.

Definition test_config : LearnWorldsConfig Script :=
  {| schoolDomain := "testschool";
     clientId := "test-client-id";
     clientSecret := "test-client-secret";
     apiHost := "api.testschool.learnworlds.com";
     redirectUri := Some "https://app.com/callback";
     cfg_accessToken := None;
     cfg_refreshToken := None;
     onTokenRefresh := None |}.

Definition start (o : OAuth2Client) (w : Script) : System Script :=
  {| oauth := o; world := w; wire := [] |}.

Definition idle : Script :=
  {| time := 1000000; token_replies := []; revoke_replies := [];
     api_replies := [] |}.

Definition token_reply (access : string) (lifetime : Z)
    (refresh : option string) : TokenResponse :=
  {| access_token := access; token_type := "Bearer"; expires_in := lifetime;
     refresh_token := refresh; scope := None |}.

Definition ok_reply (st : Z) (d : Payload) : AxiosResponse :=
  {| status := st;
     body := {| success := true; data := d; api_message := None;
                errors := None |} |}.

(** The requests handed to the API transport, in order. *)
Fixpoint sent_of (l : list Event) : list RequestConfig :=
  match l with
  | [] => []
  | Sent req :: rest => req :: sent_of rest
  | _ :: rest => sent_of rest
  end.

(** The bodies posted to [path] by the OAuth client, in order. *)
Fixpoint posted_to (path : string) (l : list Event) : list string :=
  match l with
  | [] => []
  | Posted u b :: rest =>
      if u =? path then b :: posted_to path rest else posted_to path rest
  | _ :: rest => posted_to path rest
  end.

(** ** The four grants, and the fields each one is specified to send *)

Inductive Grant :=
| AuthorizationCode (request : AuthorizationCodeRequest)
| Password (request : ResourceOwnerPasswordRequest)
| ClientCredentials (scope : option string)
| Refresh.

Definition run_grant {W} (platform : Platform W) (config : LearnWorldsConfig W)
    (g : Grant) : M W TokenResponse :=
  match g with
  | AuthorizationCode request => exchangeAuthorizationCode platform config request
  | Password request => authenticateWithPassword platform config request
  | ClientCredentials scope => authenticateWithClientCredentials platform config scope
  | Refresh => refreshAccessToken platform config
  end.

(** The scope a caller supplied, when it is not empty. *)
Definition supplied (scope : option string) : list (string * string) :=
  match scope with
  | Some s => if s =? "" then [] else [("scope", s)]
  | None => []
  end.

(** The fields of the token request of each grant; the refresh grant
    sends nothing unless a refresh token is held. *)
Definition specified_fields {W} (config : LearnWorldsConfig W) (g : Grant)
    (o : OAuth2Client) : option (list (string * string)) :=
  let client := [("client_id", clientId config);
                 ("client_secret", clientSecret config)] in
  match g with
  | AuthorizationCode request =>
      Some ([("grant_type", "authorization_code");
             ("code", ac_code request);
             ("redirect_uri", ac_redirectUri request)] ++ client)%list
  | Password request =>
      Some ([("grant_type", "password");
             ("username", username request);
             ("password", password request)] ++ client
            ++ supplied (pw_scope request))%list
  | ClientCredentials scope =>
      Some ([("grant_type", "client_credentials")] ++ client
            ++ supplied scope)%list
  | Refresh =>
      if truthy (refreshToken o) then
        Some ([("grant_type", "refresh_token");
               ("refresh_token", or_else (refreshToken o) "")] ++ client)%list
      else None
  end.

(** The scope argument of a grant, for the grants that take one. *)
Definition grant_scope (g : Grant) : option string :=
  match g with
  | Password request => pw_scope request
  | ClientCredentials scope => scope
  | _ => None
  end.

(** ** Observations on runs *)

(** From [s] to [s'] the wire only grew, and by no request to the API. *)
Definition quiet_step {W} (s s' : System W) : Prop :=
  exists d, wire s' = (wire s ++ d)%list /\ sent_of d = [].

(** A computation that never hands a request to the API transport. *)
Definition quiet {W A} (c : M W A) : Prop :=
  forall s, quiet_step s (snd (c s)).

(** The state right after [cfg] was handed to the transport in [s] and the
    world moved to [w]. *)
Definition after_send {W} (s : System W) (cfg : RequestConfig) (w : W)
  : System W :=
  {| oauth := oauth s; world := w; wire := (wire s ++ [Sent cfg])%list |}.

(** What the caller gets for the transport's reply to [cfg] when nothing
    intervenes: the response, or the normalized error. *)
Definition settle (cfg : RequestConfig) (reply : Failure + AxiosResponse)
  : Outcome AxiosResponse :=
  match reply with
  | inr response => Returned response
  | inl f => Thrown (ApiFailure (handleError (mkAxiosError f cfg)))
  end.

(** Events that are all calls of the callback. *)
Definition notes_only (d : list Event) : Prop :=
  forall e, In e d -> exists r, e = Notified r.

(** The shape shared by the four grants: post the fields, install the
    response, return it. *)
Definition token_exchange {W} (platform : Platform W)
    (config : LearnWorldsConfig W) (ps : URLSearchParams) : M W TokenResponse :=
  response <- post_token platform (toString ps) ;;
  handleTokenResponse platform config response ;;
  ret response.

(** A form-encoded body has a field called [name]. *)
Definition has_field (name body : string) : bool :=
  existsb (String.eqb name) (field_names body).

(** The fields of a revocation request for [token]. *)
Definition revocation_fields {W} (config : LearnWorldsConfig W) (token : string)
  : URLSearchParams :=
  [("token", token);
   ("client_id", clientId config);
   ("client_secret", clientSecret config)].

(** The credentials once the access token and its expiry are cleared. *)
Definition cleared (o : OAuth2Client) : OAuth2Client :=
  {| accessToken := None; refreshToken := refreshToken o;
     tokenExpiresAt := None |}.

(** The fields of a refresh request when [o] holds a refresh token. *)
Definition refresh_fields {W} (config : LearnWorldsConfig W) (o : OAuth2Client)
  : URLSearchParams :=
  [("grant_type", "refresh_token");
   ("refresh_token", or_else (refreshToken o) "");
   ("client_id", clientId config);
   ("client_secret", clientSecret config)].

(** The token a call of [revokeToken] puts on the wire, if any. *)
Definition tokenToRevoke (token : option string) (o : OAuth2Client)
  : option string :=
  if truthy (or_opt token (accessToken o)) then or_opt token (accessToken o)
  else None.

(** ** The stages of a request *)

(** The request as the instance sees it: defaults merged in. *)
Definition merged (cfg : RequestConfig) : RequestConfig :=
  with_headers cfg (merge_headers default_headers (headers cfg)).

(** The request as it is handed to the transport, and the state then:
    what the request interceptor makes of the merged request. *)
Definition outgoing {W} (platform : Platform W) (config : LearnWorldsConfig W)
    (cfg : RequestConfig) (s : System W) : RequestConfig * System W :=
  match request_interceptor platform config (merged cfg) s with
  | (Returned c, s1) => (c, s1)
  | (Thrown _, s1) => (merged cfg, s1)
  end.

(** The transport's reply to [cfg] in state [s], settled, and the state
    after it. *)
Definition exchange {W} (platform : Platform W) (cfg : RequestConfig)
    (s : System W) : Outcome AxiosResponse * System W :=
  (settle cfg (fst (api_endpoint platform cfg (world s))),
   after_send s cfg (snd (api_endpoint platform cfg (world s)))).

(** The forced refresh of the retry path. *)
Definition forced_refresh {W} (platform : Platform W)
    (config : LearnWorldsConfig W) : M W (option string) :=
  refreshAccessToken platform config ;; getAccessToken platform config.

(** The gateway answers a failure by a retry. *)
Definition retriable (f : Failure) (cfg : RequestConfig) (o : OAuth2Client)
  : bool :=
  has_status (mkAxiosError f cfg) 401 && negb (_retry cfg)
  && truthy (refreshToken o).

(** ** The table of error codes and messages *)

Definition status_code (st : Z) : string :=
  match st with
  | 401 => "UNAUTHORIZED"
  | 403 => "FORBIDDEN"
  | 404 => "NOT_FOUND"
  | 422 => "VALIDATION_ERROR"
  | 429 => "RATE_LIMIT"
  | _ => "API_ERROR"
  end%Z.

Definition default_message (st : Z) : option string :=
  match st with
  | 401 => Some "Invalid API key or authentication failed"
  | 403 => Some "Access denied"
  | 404 => Some "Resource not found"
  | 422 => Some "Validation failed"
  | 429 => Some "Rate limit exceeded"
  | _ => None
  end%Z.

(** The message of the table read as the specification words it: the
    default of the status, overridden by a message of the server when the
    body of the response has one. *)
Definition overridable_message (response : ErrorResponse) : string :=
  match server_message (er_data response) with
  | Some m => m
  | None =>
      match default_message (er_status response) with
      | Some m => m
      | None => "API Error"
      end
  end.

(** The error [makeRequest] builds for an envelope that reports failure. *)
Definition envelope_error (envelope : ApiResponse) : LearnWorldsError :=
  {| name := "Error";
     message := or_else (api_message envelope) "API request failed";
     lw_status := None;
     code := Some "API_ERROR";
     details := Some (EnvelopeErrors (errors envelope)) |}.

(* ================================================================== *)
(** * Concrete runs *)

Definition held_credentials : OAuth2Client :=
  {| accessToken := Some "access-0"; refreshToken := Some "refresh-0";
     tokenExpiresAt := None |}.

Definition courses_request : RequestConfig :=
  api_request "GET" "/courses" None None.

Definition unauthorized : Failure := status_failure 401 None.

Definition server_error : Failure := status_failure 500 None.

(** The API answers 401 twice; the token endpoint refreshes once. *)
Definition twice_unauthorized : System Script :=
  start held_credentials
    {| time := 1000000;
       token_replies := [inr (token_reply "access-1" 3600 None)];
       revoke_replies := [];
       api_replies := [inl unauthorized; inl unauthorized] |}.

(** The API answers 401; the token endpoint refuses to refresh. *)
Definition refresh_refused : System Script :=
  start held_credentials
    {| time := 1000000;
       token_replies := [inl server_error];
       revoke_replies := [];
       api_replies := [inl unauthorized] |}.

(** The API answers 401 and then accepts; the token endpoint hands out
    tokens that live one minute, twice, and then cannot be reached. *)
Definition short_lived : System Script :=
  start held_credentials
    {| time := 1000000;
       token_replies := [inr (token_reply "access-1" 60 None);
                         inr (token_reply "access-2" 60 None)];
       revoke_replies := [];
       api_replies := [inl unauthorized; inr (ok_reply 200 "[]")] |}.

(** The request of [short_lived] as first sent, and the state then. *)
Definition first_sent : RequestConfig :=
  fst (outgoing scripted test_config courses_request short_lived).

Definition resend_state : System Script :=
  snd (forced_refresh scripted test_config
         (snd (exchange scripted first_sent
                 (snd (outgoing scripted test_config courses_request
                         short_lived))))).

(** The request the retry path hands back to the instance. *)
Definition resend_request : RequestConfig :=
  merged (authorize (mark_retry first_sent) (Some "access-2")).

(** Nobody holds a token and the token endpoint is down. *)
Definition anonymous : System Script :=
  start (new_OAuth2Client test_config) idle.

(** The revocation endpoint accepts. *)
Definition revocable : System Script :=
  start held_credentials
    {| time := 1000000; token_replies := [];
       revoke_replies := [None]; api_replies := [] |}.

(** The revocation endpoint cannot be reached. *)
Definition unrevocable : System Script := start held_credentials idle.

Definition password_request : ResourceOwnerPasswordRequest :=
  {| username := "test@example.com"; password := "test-password";
     pw_scope := Some "read_user_profile" |}.

(** The token endpoint answers a first grant with a refresh token and a
    second one without. *)
Definition two_grants : System Script :=
  start (new_OAuth2Client test_config)
    {| time := 1000000;
       token_replies := [inr (token_reply "access-1" 3600 (Some "refresh-1"));
                         inr (token_reply "access-2" 3600 None)];
       revoke_replies := []; api_replies := [] |}.

Definition after_password : System Script :=
  snd (run_grant scripted test_config (Password password_request) two_grants).

(** Credentials that expired a second ago, and a token endpoint that
    refreshes them. *)
Definition expired : System Script :=
  start {| accessToken := Some "old-token";
           refreshToken := Some "refresh-token";
           tokenExpiresAt := Some (TimeValue 999000) |}
    {| time := 1000000;
       token_replies := [inr (token_reply "new-token" 3600 None)];
       revoke_replies := []; api_replies := [] |}.

(** Credentials that expire in ten minutes. *)
Definition fresh : System Script :=
  start {| accessToken := Some "test-token";
           refreshToken := Some "refresh-token";
           tokenExpiresAt := Some (TimeValue 1600000) |} idle.

(** An envelope that reports failure with an empty message, on HTTP 200. *)
Definition empty_message_envelope : AxiosResponse :=
  {| status := 200;
     body := {| success := false; data := "null"; api_message := Some "";
                errors := Some ["Something went wrong"] |} |}.

Definition failing_envelope : System Script :=
  start held_credentials
    {| time := 1000000; token_replies := []; revoke_replies := [];
       api_replies := [inr empty_message_envelope] |}.

(** A 404 whose body explains itself. *)
Definition course_not_found : ErrorResponse :=
  {| er_status := 404;
     er_data := Some {| eb_message := Some "Course 42 does not exist";
                        eb_rest := "{}" |} |}.

Definition not_found_error : AxiosError :=
  {| ax_message := "Request failed with status code 404";
     ax_config := courses_request;
     ax_request := true;
     ax_response := Some course_not_found |}.

(* ================================================================== *)
(** * Further observations *)

(** The query of the authorization URL, pair by pair. *)
Definition authorization_fields {W} (config : LearnWorldsConfig W)
    (scope state : option string) : URLSearchParams :=
  ([("client_id", clientId config);
    ("redirect_uri", or_else (redirectUri config) "");
    ("response_type", "code");
    ("scope", match scope with Some s => s | None => "read_user_profile" end)]
   ++ match state with
      | Some s => if s =? "" then [] else [("state", s)]
      | None => []
      end)%list.

(** The world in which the callback of a token response runs: after the
    reply of the token endpoint and, when the response has a lifetime,
    after the clock was read. *)
Definition callback_world {W} (platform : Platform W) (body : string)
    (r : TokenResponse) (w : W) : W :=
  let w1 := snd (token_endpoint platform body w) in
  if (expires_in r =? 0)%Z then w1 else snd (clock platform w1).

(** The expiry a token response leaves behind: the date read after the
    reply, with its seconds field moved on by the lifetime. *)
Definition installed_expiry {W} (platform : Platform W) (body : string)
    (r : TokenResponse) (s : System W) : option Date :=
  if (expires_in r =? 0)%Z then tokenExpiresAt (oauth s)
  else
    let now :=
      fst (clock platform (snd (token_endpoint platform body (world s)))) in
    Some (setSeconds platform now (getSeconds platform now + expires_in r)%Z).

(** The codes a normalized error can carry. *)
Definition error_codes : list string :=
  ["UNAUTHORIZED"; "FORBIDDEN"; "NOT_FOUND"; "VALIDATION_ERROR";
   "RATE_LIMIT"; "API_ERROR"; "NETWORK_ERROR"; "UNKNOWN_ERROR"].

(** The request of [makeRequest] as it goes out, with or without a
    credential. *)
Definition wire_request (method endpoint : string)
    (payload query : option Payload) (credential : option string) (mark : bool)
  : RequestConfig :=
  {| method := method; url := endpoint; req_data := payload; params := query;
     headers :=
       (default_headers
        ++ match credential with
           | Some v => [("Authorization", v)]
           | None => []
           end)%list;
     _retry := mark |}.

(** The wire grew from [s] to [s'] by at most [n] POSTs to the token
    endpoint and by none to the revocation endpoint. *)
Definition posts_at_most {W} (n : nat) (s s' : System W) : Prop :=
  exists d, wire s' = (wire s ++ d)%list
            /\ length (posted_to "/oauth2/token" d) <= n
            /\ posted_to "/oauth2/revoke" d = [].

Definition posting {W A} (n : nat) (c : M W A) : Prop :=
  forall s, posts_at_most n s (snd (c s)).

(** The public operations of the gateway. *)
Inductive Operation :=
| GetAllCourses (query : option Payload)
| GetAllBundles (query : option Payload)
| CreateUser (userData : Payload)
| UpdateUser (userId : string) (userData : Payload)
| UpdateUserTags (userId : string) (tagData : Payload)
| EnrollUserToProduct (enrollmentData : Payload)
| UnenrollUserFromProduct (unenrollmentData : Payload)
| GetUser (userId : string)
| GetCourse (courseId : string)
| GetBundle (bundleId : string)
| GetUserEnrollments (userId : string).

(** Running an operation; the result of the one that returns nothing is
    dropped. *)
Definition run_operation {W} (platform : Platform W)
    (config : LearnWorldsConfig W) (fuel : nat) (op : Operation) : M W unit :=
  match op with
  | GetAllCourses q => getAllCourses platform config fuel q ;; ret tt
  | GetAllBundles q => getAllBundles platform config fuel q ;; ret tt
  | CreateUser d => createUser platform config fuel d ;; ret tt
  | UpdateUser u d => updateUser platform config fuel u d ;; ret tt
  | UpdateUserTags u d => updateUserTags platform config fuel u d ;; ret tt
  | EnrollUserToProduct d => enrollUserToProduct platform config fuel d ;; ret tt
  | UnenrollUserFromProduct d => unenrollUserFromProduct platform config fuel d
  | GetUser u => getUser platform config fuel u ;; ret tt
  | GetCourse c => getCourse platform config fuel c ;; ret tt
  | GetBundle b => getBundle platform config fuel b ;; ret tt
  | GetUserEnrollments u => getUserEnrollments platform config fuel u ;; ret tt
  end.

(** The request of each operation: its verb, path, body and query. *)
Definition operation_request (op : Operation) : RequestConfig :=
  match op with
  | GetAllCourses q => api_request "GET" "/courses" None q
  | GetAllBundles q => api_request "GET" "/bundles" None q
  | CreateUser d => api_request "POST" "/users" (Some d) None
  | UpdateUser u d => api_request "PUT" ("/users/" ++ u) (Some d) None
  | UpdateUserTags u d =>
      api_request "PATCH" ("/users/" ++ u ++ "/tags") (Some d) None
  | EnrollUserToProduct d => api_request "POST" "/enrollments" (Some d) None
  | UnenrollUserFromProduct d =>
      api_request "DELETE" "/enrollments" (Some d) None
  | GetUser u => api_request "GET" ("/users/" ++ u) None None
  | GetCourse c => api_request "GET" ("/courses/" ++ c) None None
  | GetBundle b => api_request "GET" ("/bundles/" ++ b) None None
  | GetUserEnrollments u =>
      api_request "GET" ("/users/" ++ u ++ "/enrollments") None None
  end.

(** [makeRequest] for a request given as a whole. *)
Definition request_of {W} (platform : Platform W) (config : LearnWorldsConfig W)
    (fuel : nat) (r : RequestConfig) : M W Payload :=
  makeRequest platform config fuel (method r) (url r) (req_data r) (params r).

(** A request as it goes out, with or without a credential. *)
Definition on_wire (r : RequestConfig) (credential : option string)
    (mark : bool) : RequestConfig :=
  wire_request (method r) (url r) (req_data r) (params r) credential mark.

(** The credential the request hook attaches in [s], if it attaches one. *)
Definition hook_credential {W} (platform : Platform W)
    (config : LearnWorldsConfig W) (s : System W) : option string :=
  match fst (getAccessToken platform config s) with
  | Returned tok => Some (bearer tok)
  | Thrown _ => None
  end.

(** ** More concrete runs *)

(** A callback that cannot write. *)
Definition failing_callback (r : TokenResponse) (w : Script)
  : option Exn * Script :=
  (Some (Foreign "disk full"), w).

Definition persisting_config : LearnWorldsConfig Script :=
  {| schoolDomain := "testschool";
     clientId := "test-client-id";
     clientSecret := "test-client-secret";
     apiHost := "api.testschool.learnworlds.com";
     redirectUri := Some "https://app.com/callback";
     cfg_accessToken := Some "seeded-access";
     cfg_refreshToken := Some "seeded-refresh";
     onTokenRefresh := Some failing_callback |}.

Definition seeded : System Script :=
  start (new_OAuth2Client persisting_config)
    {| time := 1000000;
       token_replies := [inr (token_reply "access-1" 3600 None)];
       revoke_replies := []; api_replies := [] |}.

(** The token endpoint rotates the refresh token, then keeps it. *)
Definition rotating : System Script :=
  start held_credentials
    {| time := 1000000;
       token_replies := [inr (token_reply "access-1" 3600 (Some "refresh-1"));
                         inr (token_reply "access-2" 3600 None)];
       revoke_replies := []; api_replies := [] |}.

(** No credentials are held, and the API answers all the same. *)
Definition public_endpoint : System Script :=
  start (new_OAuth2Client test_config)
    {| time := 1000000; token_replies := []; revoke_replies := [];
       api_replies := [inr (ok_reply 200 "[]")] |}.

(** A host in a zone that leaves daylight saving time at 06:00 UTC on
    2 November 2025: its offset goes from four to five hours behind UTC.
    A local time that occurs twice is taken for its first occurrence
    (ECMA-262, UTC(t)). *)
Definition clocks_go_back : Z := 1762063200000.

Definition eastern : Platform Script :=
  {| clock := clock scripted;
     LocalTime := fun t =>
       (if t <? clocks_go_back then t - 4 * msPerHour
        else t - 5 * msPerHour)%Z;
     UTC := fun t =>
       (if t <? clocks_go_back - 4 * msPerHour then t + 4 * msPerHour
        else t + 5 * msPerHour)%Z;
     token_endpoint := token_endpoint scripted;
     revoke_endpoint := revoke_endpoint scripted;
     api_endpoint := api_endpoint scripted |}.

(** A token that lives one hour, granted half an hour before the clocks
    go back. *)
Definition autumn_grant : System Script :=
  start (new_OAuth2Client test_config)
    {| time := 1762061400000;
       token_replies := [inr (token_reply "access-1" 3600 None)];
       revoke_replies := []; api_replies := [] |}.

(** A token whose lifetime is longer than dates can tell. *)
Definition endless_grant : System Script :=
  start (new_OAuth2Client test_config)
    {| time := 1000000;
       token_replies := [inr (token_reply "access-1" 10000000000000 None)];
       revoke_replies := []; api_replies := [] |}.

(** The token endpoint hands out a token with no lifetime and no text. *)
Definition hollow_grant : System Script :=
  start {| accessToken := Some "access-0"; refreshToken := Some "refresh-0";
           tokenExpiresAt := Some (TimeValue 999000) |}
    {| time := 1000000;
       token_replies := [inr (token_reply "" 0 None)];
       revoke_replies := []; api_replies := [] |}.

(** The API answers 401 and then accepts; the refresh succeeds. *)
Definition retry_succeeds : System Script :=
  start held_credentials
    {| time := 1000000;
       token_replies := [inr (token_reply "access-1" 3600 None)];
       revoke_replies := [];
       api_replies := [inl unauthorized; inr (ok_reply 200 "[]")] |}.

(** Expired credentials, tokens that live one minute, and a 401. *)
Definition thrashing : System Script :=
  start {| accessToken := Some "old-token";
           refreshToken := Some "refresh-token";
           tokenExpiresAt := Some (TimeValue 999000) |}
    {| time := 1000000;
       token_replies := [inr (token_reply "access-1" 60 None);
                         inr (token_reply "access-2" 60 None);
                         inr (token_reply "access-3" 60 None);
                         inr (token_reply "access-4" 60 None)];
       revoke_replies := [];
       api_replies := [inl unauthorized; inr (ok_reply 200 "[]")] |}.

(** A revocation that is accepted, a token endpoint and an API that
    answer. *)
Definition revoke_and_go_on : System Script :=
  start held_credentials
    {| time := 1000000;
       token_replies := [inr (token_reply "access-1" 3600 None)];
       revoke_replies := [None];
       api_replies := [inr (ok_reply 200 "[]")] |}.

(** The API does not know the course. *)
Definition missing_course : System Script :=
  start held_credentials
    {| time := 1000000; token_replies := []; revoke_replies := [];
       api_replies := [inl (status_failure 404 None)] |}.

(* ================================================================== *)
(** * Properties *)

Example toString_sample :
  toString [("grant_type", "password"); ("username", "test@example.com");
            ("password", "a b&c=d")]
  = "grant_type=password&username=test%40example.com&password=a+b%26c%3Dd".
Proof. reflexivity. Qed.

Example parse_sample :
  parse "grant_type=password&username=test%40example.com&password=a+b%26c%3Dd"
  = [("grant_type", "password"); ("username", "test@example.com");
     ("password", "a b&c=d")].
Proof. reflexivity. Qed.

(** ** Strings and form encoding *)

Lemma append_nil_r (s : string) : s ++ "" = s.
Proof. induction s as [|a s IH]; simpl; congruence. Qed.

Lemma append_assoc (a b c : string) : (a ++ b) ++ c = a ++ (b ++ c).
Proof. induction a as [|x a IH]; simpl; congruence. Qed.

Lemma occurs_app c a b : occurs c (a ++ b) = occurs c a || occurs c b.
Proof.
  induction a as [|x a IH]; simpl; [reflexivity|].
  now rewrite IH, orb_assoc.
Qed.

Lemma encode_byte_no_eq a : occurs "=" (encode_byte a) = false.
Proof. destruct a as [[] [] [] [] [] [] [] []]; reflexivity. Qed.

Lemma encode_byte_no_amp a : occurs "&" (encode_byte a) = false.
Proof. destruct a as [[] [] [] [] [] [] [] []]; reflexivity. Qed.

Lemma urlencode_no_eq s : occurs "=" (urlencode s) = false.
Proof.
  induction s as [|a s IH]; simpl; [reflexivity|].
  now rewrite occurs_app, encode_byte_no_eq, IH.
Qed.

Lemma urlencode_no_amp s : occurs "&" (urlencode s) = false.
Proof.
  induction s as [|a s IH]; simpl; [reflexivity|].
  now rewrite occurs_app, encode_byte_no_amp, IH.
Qed.

Lemma urldecode_encode_byte a t :
  urldecode (encode_byte a ++ t) = String a (urldecode t).
Proof. destruct a as [[] [] [] [] [] [] [] []]; reflexivity. Qed.

(** Decoding undoes encoding, also in front of more input. *)
Lemma urldecode_urlencode_app s t :
  urldecode (urlencode s ++ t) = s ++ urldecode t.
Proof.
  induction s as [|a s IH]; simpl; [reflexivity|].
  now rewrite append_assoc, urldecode_encode_byte, IH.
Qed.

Lemma urldecode_urlencode s : urldecode (urlencode s) = s.
Proof.
  rewrite <- (append_nil_r (urlencode s)), urldecode_urlencode_app.
  apply append_nil_r.
Qed.

Lemma occurs_cons_false c a s :
  occurs c (String a s) = false -> (a =? c)%char = false /\ occurs c s = false.
Proof. cbn [occurs]. apply orb_false_elim. Qed.

(** A pattern [k=] matches at the start of [x=r], where neither [k] nor
    [x] holds an [=], exactly when [k] is [x]. *)
Lemma starts_with_field k : forall x r,
  occurs "=" k = false -> occurs "=" x = false ->
  starts_with (k ++ "=") (x ++ String "=" r) = (k =? x).
Proof.
  induction k as [|b k IH]; intros [|a x] r Hk Hx;
    cbn [starts_with append String.eqb].
  - reflexivity.
  - apply occurs_cons_false in Hx as [Ha _].
    rewrite Ascii.eqb_sym, Ha. reflexivity.
  - apply occurs_cons_false in Hk as [Hb _]. now rewrite Hb.
  - apply occurs_cons_false in Hk as [_ Hk].
    apply occurs_cons_false in Hx as [_ Hx].
    rewrite (IH x r Hk Hx).
    reflexivity.
Qed.

(** [k=] does not match inside a value that is followed by a boundary. *)
Lemma starts_with_value v : forall k r,
  occurs "=" k = false -> occurs "&" k = false ->
  occurs "=" v = false -> boundary r ->
  starts_with (k ++ "=") (v ++ r) = false.
Proof.
  induction v as [|a v IH]; intros k r Hk Hk' Hv Hr.
  - destruct Hr as [->|[r' ->]]; destruct k as [|b k];
      cbn [starts_with append]; try reflexivity.
    apply occurs_cons_false in Hk' as [Hb _]. now rewrite Hb.
  - apply occurs_cons_false in Hv as [Ha Hv].
    destruct k as [|b k]; cbn [starts_with append].
    + now rewrite Ascii.eqb_sym, Ha.
    + apply occurs_cons_false in Hk as [_ Hk].
      apply occurs_cons_false in Hk' as [_ Hk'].
      rewrite (IH k r Hk Hk' Hv Hr). apply andb_false_r.
Qed.

Lemma includes_name k x r :
  occurs "=" k = false -> occurs "=" x = false ->
  includes (k ++ "=") (x ++ String "=" r)
  = ends_with k x || includes (k ++ "=") r.
Proof.
  intros Hk. induction x as [|a x IH]; intros Hx.
  - change ("" ++ String "=" r) with (String "=" r).
    cbn [includes ends_with].
    change (String "=" r) with ("" ++ String "=" r) at 1.
    rewrite (starts_with_field k "" r Hk eq_refl).
    now rewrite orb_false_r.
  - pose proof Hx as Hx0.
    apply occurs_cons_false in Hx as [_ Hx].
    change (String a x ++ String "=" r) with (String a (x ++ String "=" r)).
    cbn [includes ends_with].
    change (String a (x ++ String "=" r)) with (String a x ++ String "=" r).
    rewrite (starts_with_field k (String a x) r Hk Hx0), (IH Hx).
    now rewrite orb_assoc.
Qed.

Lemma includes_value k v r :
  occurs "=" k = false -> occurs "&" k = false ->
  occurs "=" v = false -> boundary r ->
  includes (k ++ "=") (v ++ r) = includes (k ++ "=") r.
Proof.
  intros Hk Hk'. induction v as [|a v IH]; intros Hv Hr; [reflexivity|].
  pose proof Hv as Hv0.
  apply occurs_cons_false in Hv as [_ Hv].
  change (String a v ++ r) with (String a (v ++ r)).
  cbn [includes].
  change (String a (v ++ r)) with (String a v ++ r).
  now rewrite (starts_with_value (String a v) k r Hk Hk' Hv0 Hr), (IH Hv Hr).
Qed.

Lemma starts_with_field_nil k : starts_with (k ++ "=") "" = false.
Proof. now destruct k. Qed.

Lemma starts_with_field_amp k r :
  occurs "&" k = false -> starts_with (k ++ "=") (String "&" r) = false.
Proof.
  destruct k as [|b k]; cbn [starts_with append occurs]; [reflexivity|].
  intros H. apply orb_false_elim in H as [Hb _]. now rewrite Hb.
Qed.

Lemma toString_cons nv nv' rest :
  toString (nv :: nv' :: rest)
  = serialize_pair nv ++ String "&" (toString (nv' :: rest)).
Proof. reflexivity. Qed.

Lemma serialize_pair_eq n v r :
  serialize_pair (n, v) ++ r = urlencode n ++ String "=" (urlencode v ++ r).
Proof. unfold serialize_pair. cbn [fst snd]. now rewrite append_assoc. Qed.

Lemma includes_pair k n v r :
  occurs "=" k = false -> occurs "&" k = false -> boundary r ->
  includes (k ++ "=") (serialize_pair (n, v) ++ r)
  = ends_with k (urlencode n) || includes (k ++ "=") r.
Proof.
  intros Hk Hk' Hr.
  rewrite serialize_pair_eq.
  rewrite (includes_name k _ _ Hk (urlencode_no_eq n)).
  now rewrite (includes_value k _ _ Hk Hk' (urlencode_no_eq v) Hr).
Qed.

(** [k=] occurs in a serialized list of pairs exactly when the encoding
    of one of the names ends with [k]. *)
Lemma includes_toString k ps :
  occurs "=" k = false -> occurs "&" k = false ->
  includes (k ++ "=") (toString ps)
  = existsb (fun nv => ends_with k (urlencode (fst nv))) ps.
Proof.
  intros Hk Hk'. induction ps as [|[n v] rest IH].
  - cbn [toString existsb includes]. now rewrite starts_with_field_nil.
  - destruct rest as [|nv' rest'].
    + cbn [toString existsb fst].
      rewrite <- (append_nil_r (serialize_pair (n, v))).
      rewrite (includes_pair k n v "" Hk Hk' (or_introl eq_refl)).
      cbn [includes]. now rewrite starts_with_field_nil.
    + rewrite toString_cons.
      rewrite (includes_pair k n v _ Hk Hk' (or_intror (ex_intro _ _ eq_refl))).
      cbn [includes]. rewrite (starts_with_field_amp k _ Hk'), IH.
      reflexivity.
Qed.

Lemma split_from_app c x : forall cur r,
  occurs c x = false ->
  split_from c cur (x ++ r) = split_from c (cur ++ x) r.
Proof.
  induction x as [|a x IH]; intros cur r Hx.
  - now rewrite append_nil_r.
  - apply occurs_cons_false in Hx as [Ha Hx].
    cbn [append split_from]. rewrite Ha, (IH _ _ Hx), append_assoc.
    reflexivity.
Qed.

Lemma cut_app c x r :
  occurs c x = false -> cut c (x ++ String c r) = (x, r).
Proof.
  induction x as [|a x IH]; intros Hx; cbn [append cut].
  - now rewrite Ascii.eqb_refl.
  - apply occurs_cons_false in Hx as [Ha Hx]. now rewrite Ha, (IH Hx).
Qed.

Lemma serialize_pair_no_amp nv : occurs "&" (serialize_pair nv) = false.
Proof.
  unfold serialize_pair.
  now rewrite !occurs_app, !urlencode_no_amp.
Qed.

Lemma serialize_pair_nonempty nv : (serialize_pair nv =? "") = false.
Proof.
  unfold serialize_pair. now destruct (urlencode (fst nv)).
Qed.

Lemma parse_pair_serialize nv : parse_pair (serialize_pair nv) = nv.
Proof.
  destruct nv as [n v]. unfold parse_pair.
  rewrite <- (append_nil_r (serialize_pair (n, v))), serialize_pair_eq.
  rewrite (cut_app "=" _ _ (urlencode_no_eq n)).
  now rewrite append_nil_r, !urldecode_urlencode.
Qed.

Lemma split_toString_cons nv nv' rest :
  split "&" (toString (nv :: nv' :: rest))
  = serialize_pair nv :: split "&" (toString (nv' :: rest)).
Proof.
  rewrite toString_cons. unfold split.
  now rewrite (split_from_app "&" _ _ _ (serialize_pair_no_amp nv)).
Qed.

(** Round trip: parsing a serialized list of pairs gives the list back. *)
Lemma parse_toString ps : parse (toString ps) = ps.
Proof.
  induction ps as [|nv rest IH]; [reflexivity|].
  destruct rest as [|nv' rest'].
  - unfold parse, split. cbn [toString].
    rewrite <- (append_nil_r (serialize_pair nv)).
    rewrite (split_from_app "&" _ _ _ (serialize_pair_no_amp nv)).
    cbn [append split_from filter].
    rewrite serialize_pair_nonempty. cbn [negb map].
    now rewrite parse_pair_serialize.
  - unfold parse in *. rewrite split_toString_cons.
    cbn [filter]. rewrite serialize_pair_nonempty. cbn [negb map].
    now rewrite parse_pair_serialize, IH.
Qed.

Lemma field_names_toString ps : field_names (toString ps) = map fst ps.
Proof. unfold field_names. now rewrite parse_toString. Qed.

(** ** Runs of the monad *)

Section Runs.
Context {W : Type}.

Lemma sent_of_app (a b : list Event) :
  sent_of (a ++ b) = (sent_of a ++ sent_of b)%list.
Proof.
  induction a as [|e a IH]; [reflexivity|].
  destruct e; cbn [sent_of app]; now rewrite ?IH.
Qed.

Lemma posted_to_app path (a b : list Event) :
  posted_to path (a ++ b) = (posted_to path a ++ posted_to path b)%list.
Proof.
  induction a as [|e a IH]; [reflexivity|].
  destruct e as [u body0| |]; cbn [posted_to app]; rewrite ?IH;
    [|reflexivity..].
  now destruct (u =? path).
Qed.

Lemma quiet_step_refl (s : System W) : quiet_step s s.
Proof. exists []. now rewrite app_nil_r. Qed.

Lemma quiet_step_trans (s1 s2 s3 : System W) :
  quiet_step s1 s2 -> quiet_step s2 s3 -> quiet_step s1 s3.
Proof.
  intros [d1 [E1 Q1]] [d2 [E2 Q2]]. exists (d1 ++ d2)%list. split.
  - now rewrite E2, E1, app_assoc.
  - now rewrite sent_of_app, Q1, Q2.
Qed.

Lemma quiet_ret A (a : A) : quiet (@ret W A a).
Proof. intros s. apply quiet_step_refl. Qed.

Lemma quiet_throw A e : quiet (@throw W A e).
Proof. intros s. apply quiet_step_refl. Qed.

Lemma quiet_bind A B (c : M W A) (k : A -> M W B) :
  quiet c -> (forall a, quiet (k a)) -> quiet (bind c k).
Proof.
  intros Hc Hk s. unfold bind. specialize (Hc s).
  destruct (c s) as [[a|e] s1]; cbn [snd] in *.
  - eapply quiet_step_trans; [exact Hc | apply Hk].
  - exact Hc.
Qed.

Lemma quiet_try_catch A B (c : M W A) (k : A -> M W B) (h : Exn -> M W B) :
  quiet c -> (forall a, quiet (k a)) -> (forall e, quiet (h e)) ->
  quiet (try_catch c k h).
Proof.
  intros Hc Hk Hh s. unfold try_catch. specialize (Hc s).
  destruct (c s) as [[a|e] s1]; cbn [snd] in *;
    (eapply quiet_step_trans; [exact Hc|]); [apply Hk | apply Hh].
Qed.

Lemma quiet_get_oauth : quiet (@get_oauth W).
Proof. intros s. apply quiet_step_refl. Qed.

Lemma quiet_put_oauth o : quiet (@put_oauth W o).
Proof. intros s. exists []. cbn. now rewrite app_nil_r. Qed.

Lemma quiet_outside A (f : W -> A * W) : quiet (outside f).
Proof.
  intros s. unfold outside. destruct (f (world s)) as [a w].
  exists []. cbn. now rewrite app_nil_r.
Qed.

Lemma quiet_emit_posted u b : quiet (@emit W (Posted u b)).
Proof. intros s. exists [Posted u b]. now split. Qed.

Lemma quiet_emit_notified r : quiet (@emit W (Notified r)).
Proof. intros s. exists [Notified r]. now split. Qed.

Lemma quiet_when b (c : M W unit) : quiet c -> quiet (when b c).
Proof. intros Hc. destruct b; [exact Hc | apply quiet_ret]. Qed.

End Runs.

Create HintDb quiet.

#[local] Hint Resolve quiet_ret quiet_throw quiet_get_oauth quiet_put_oauth
  quiet_outside quiet_emit_posted quiet_emit_notified : quiet.

(** ** The token authority *)

Section TokenAuthority.
Context {W : Type}.
Variable platform : Platform W.
Variable config : LearnWorldsConfig W.

Ltac run :=
  unfold handleTokenResponse, call_onTokenRefresh, set_accessToken,
    set_refreshToken, set_tokenExpiresAt, new_Date, post_token, post_revoke,
    when, bind, ret, throw, get_oauth, put_oauth, emit, outside;
  cbn [oauth world wire accessToken refreshToken tokenExpiresAt fst snd].

Ltac quiet_steps :=
  repeat first
    [ solve [auto with quiet]
    | progress cbv zeta
    | apply quiet_bind; [|intros ?]
    | apply quiet_when
    | match goal with |- quiet (match ?x with _ => _ end) => destruct x end
    | match goal with |- quiet (if ?x then _ else _) => destruct x end ].

Lemma quiet_new_Date : quiet (new_Date platform).
Proof. apply quiet_outside. Qed.

Hint Resolve quiet_new_Date : quiet.

Lemma quiet_post_token body : quiet (post_token platform body).
Proof. unfold post_token. quiet_steps. Qed.

Lemma quiet_post_revoke body : quiet (post_revoke platform body).
Proof. unfold post_revoke. quiet_steps. Qed.

Lemma quiet_handleTokenResponse r : quiet (handleTokenResponse platform config r).
Proof.
  unfold handleTokenResponse, call_onTokenRefresh, set_accessToken,
    set_refreshToken, set_tokenExpiresAt, new_Date.
  quiet_steps.
Qed.

Hint Resolve quiet_post_token quiet_post_revoke quiet_handleTokenResponse
  : quiet.

Lemma quiet_refreshAccessToken : quiet (refreshAccessToken platform config).
Proof. unfold refreshAccessToken. quiet_steps. Qed.

Hint Resolve quiet_refreshAccessToken : quiet.

Lemma quiet_getAccessToken : quiet (getAccessToken platform config).
Proof. unfold getAccessToken, new_Date. quiet_steps. Qed.

Lemma quiet_run_grant g : quiet (run_grant platform config g).
Proof.
  destruct g; cbn [run_grant];
    unfold exchangeAuthorizationCode, authenticateWithPassword,
      authenticateWithClientCredentials; quiet_steps.
Qed.

(** *** One POST to the token endpoint *)

Lemma post_token_run body s :
  post_token platform body s
  = let s1 := {| oauth := oauth s;
                 world := snd (token_endpoint platform body (world s));
                 wire := (wire s ++ [Posted "/oauth2/token" body])%list |} in
    match fst (token_endpoint platform body (world s)) with
    | inr r => (Returned r, s1)
    | inl f =>
        (Thrown (AxiosFailure
                   (mkAxiosError f (post_config "/oauth2/token" body))), s1)
    end.
Proof.
  run. destruct (token_endpoint platform body (world s)) as [[f|r] w'];
    reflexivity.
Qed.

Lemma post_revoke_run body s :
  post_revoke platform body s
  = let s1 := {| oauth := oauth s;
                 world := snd (revoke_endpoint platform body (world s));
                 wire := (wire s ++ [Posted "/oauth2/revoke" body])%list |} in
    match fst (revoke_endpoint platform body (world s)) with
    | None => (Returned tt, s1)
    | Some f =>
        (Thrown (AxiosFailure
                   (mkAxiosError f (post_config "/oauth2/revoke" body))), s1)
    end.
Proof.
  run. destruct (revoke_endpoint platform body (world s)) as [[f|] w'];
    reflexivity.
Qed.

(** Installing a token response posts nothing and sends nothing: it
    only notifies the callback. *)
Lemma handleTokenResponse_wire r s :
  exists notes,
    wire (snd (handleTokenResponse platform config r s))
    = (wire s ++ notes)%list /\ notes_only notes.
Proof.
  run.
  destruct (truthy (refresh_token r));
    destruct (expires_in r =? 0)%Z; cbn;
    try destruct (clock platform (world s)) as [now w1]; cbn;
    destruct (onTokenRefresh config) as [cb|]; cbn;
    try (match goal with
         | |- context [cb ?r ?w] => destruct (cb r w) as [[e|] w2]
         end); cbn;
    first [ exists []; split; [now rewrite app_nil_r | intros ? []]
          | exists [Notified r]; split;
            [reflexivity | intros ? [<-|[]]; now exists r] ].
Qed.

Lemma handleTokenResponse_oauth r s :
  let s' := snd (handleTokenResponse platform config r s) in
  accessToken (oauth s') = Some (access_token r)
  /\ refreshToken (oauth s')
     = (if truthy (refresh_token r) then refresh_token r
        else refreshToken (oauth s)).
Proof.
  run.
  destruct (truthy (refresh_token r));
    destruct (expires_in r =? 0)%Z; cbn;
    try destruct (clock platform (world s)) as [now w1]; cbn;
    destruct (onTokenRefresh config) as [cb|]; cbn;
    try (match goal with
         | |- context [cb ?r ?w] => destruct (cb r w) as [[e|] w2]
         end); cbn; auto.
Qed.

Lemma append_scope_supplied ps scope :
  append_scope ps scope = (ps ++ supplied scope)%list.
Proof.
  destruct scope as [sc|]; cbn; [|now rewrite app_nil_r].
  destruct (sc =? ""); [now rewrite app_nil_r | reflexivity].
Qed.

Lemma run_grant_exchange g s ps :
  specified_fields config g (oauth s) = Some ps ->
  run_grant platform config g s = token_exchange platform config ps s.
Proof.
  destruct g as [request|request|scope|]; cbn [run_grant specified_fields].
  - intros [= <-]. reflexivity.
  - intros [= <-].
    unfold authenticateWithPassword. cbv zeta.
    now rewrite append_scope_supplied.
  - intros [= <-].
    unfold authenticateWithClientCredentials. cbv zeta.
    now rewrite append_scope_supplied.
  - unfold refreshAccessToken, bind at 1, get_oauth. cbn [oauth].
    destruct (refreshToken (oauth s)) as [rt|]; cbn [truthy or_else];
      [|discriminate].
    destruct (rt =? ""); cbn [negb]; [discriminate|].
    intros [= <-]. reflexivity.
Qed.

Lemma token_exchange_run ps s :
  token_exchange platform config ps s
  = let s1 := {| oauth := oauth s;
                 world := snd (token_endpoint platform (toString ps) (world s));
                 wire := (wire s ++ [Posted "/oauth2/token" (toString ps)])%list |} in
    match fst (token_endpoint platform (toString ps) (world s)) with
    | inr r =>
        (match fst (handleTokenResponse platform config r s1) with
         | Returned _ => Returned r
         | Thrown e => Thrown e
         end, snd (handleTokenResponse platform config r s1))
    | inl f =>
        (Thrown (AxiosFailure
                   (mkAxiosError f (post_config "/oauth2/token" (toString ps)))),
         s1)
    end.
Proof.
  unfold token_exchange, bind at 1. rewrite post_token_run. cbv zeta.
  destruct (fst (token_endpoint platform (toString ps) (world s))) as [f|r];
    [reflexivity|].
  unfold bind, ret.
  now destruct (handleTokenResponse platform config r _) as [[[]|e] s2].
Qed.

Lemma token_exchange_wire ps s :
  exists notes,
    wire (snd (token_exchange platform config ps s))
    = (wire s ++ Posted "/oauth2/token" (toString ps) :: notes)%list
    /\ notes_only notes.
Proof.
  rewrite token_exchange_run. cbv zeta.
  destruct (fst (token_endpoint platform (toString ps) (world s))) as [f|r].
  - exists []. split; [reflexivity | intros ? []].
  - cbn [snd].
    match goal with
    | |- context [handleTokenResponse platform config r ?s1] =>
        destruct (handleTokenResponse_wire r s1) as [notes [E N]]
    end.
    exists notes. split; [|exact N].
    rewrite E. cbn [wire]. now rewrite <- app_assoc.
Qed.

Lemma token_exchange_oauth ps s r :
  fst (token_endpoint platform (toString ps) (world s)) = inr r ->
  accessToken (oauth (snd (token_exchange platform config ps s))) = Some (access_token r)
  /\ refreshToken (oauth (snd (token_exchange platform config ps s)))
     = (if truthy (refresh_token r) then refresh_token r
        else refreshToken (oauth s)).
Proof.
  intros E. rewrite token_exchange_run. cbv zeta. rewrite E. cbn [snd].
  exact (handleTokenResponse_oauth r _).
Qed.

Lemma token_exchange_failure ps s f :
  fst (token_endpoint platform (toString ps) (world s)) = inl f ->
  oauth (snd (token_exchange platform config ps s)) = oauth s.
Proof.
  intros E. rewrite token_exchange_run. cbv zeta. now rewrite E.
Qed.

(** *** Wire format of the grants *)

Lemma specified_fields_scope g o ps :
  specified_fields config g o = Some ps ->
  existsb (fun nv => ends_with "scope" (urlencode (fst nv))) ps
  = truthy (grant_scope g)
  /\ existsb (String.eqb "scope") (map fst ps) = truthy (grant_scope g)
  /\ find (fun nv => fst nv =? "client_id") ps
     = Some ("client_id", clientId config)
  /\ find (fun nv => fst nv =? "client_secret") ps
     = Some ("client_secret", clientSecret config).
Proof.
  destruct g as [request|request|scope|]; cbn [specified_fields grant_scope].
  - intros [= <-]. now cbn.
  - intros [= <-]. destruct (pw_scope request) as [sc|]; cbn; [|tauto].
    destruct (sc =? ""); cbn; tauto.
  - intros [= <-]. destruct scope as [sc|]; cbn; [|tauto].
    destruct (sc =? ""); cbn; tauto.
  - destruct (truthy (refreshToken o)); [|discriminate].
    intros [= <-]. now cbn.
Qed.

(** C8. Each of the four grants makes one POST to the token endpoint
    whose form-encoded body parses to exactly the fields specified for
    the grant, [client_id] and [client_secret] among them; the body has
    a [scope] field, and contains the text [scope=], exactly when the
    caller supplied a non-empty scope; so client credentials without a
    scope never put [scope=] on the wire. *)
Theorem grant_wire_fields g s ps :
  specified_fields config g (oauth s) = Some ps ->
  exists body notes,
    wire (snd (run_grant platform config g s))
    = (wire s ++ Posted "/oauth2/token" body :: notes)%list
    /\ notes_only notes
    /\ parse body = ps
    /\ field "client_id" body = Some (clientId config)
    /\ field "client_secret" body = Some (clientSecret config)
    /\ has_field "scope" body = truthy (grant_scope g)
    /\ includes "scope=" body = truthy (grant_scope g)
    /\ (g = ClientCredentials None -> includes "scope=" body = false).
Proof.
  intros Hps. rewrite (run_grant_exchange g s ps Hps).
  destruct (token_exchange_wire ps s) as [notes [E N]].
  destruct (specified_fields_scope g (oauth s) ps Hps) as [I [F [Cid Csec]]].
  assert (Inc : includes "scope=" (toString ps) = truthy (grant_scope g)).
  { change "scope=" with ("scope" ++ "=").
    now rewrite (includes_toString "scope" ps eq_refl eq_refl). }
  exists (toString ps), notes.
  unfold field, has_field, field_names. rewrite parse_toString, Cid, Csec.
  repeat split; auto.
  intros ->. exact Inc.
Qed.

(** *** Installing a token response *)

(** C3. Whatever response the token endpoint gives to one of the four
    grant or refresh operations, its access token is stored; the stored
    refresh token changes only to a refresh token the response carries,
    and a response without one leaves it as it was. *)
Theorem token_response_install g s ps r :
  specified_fields config g (oauth s) = Some ps ->
  fst (token_endpoint platform (toString ps) (world s)) = inr r ->
  accessToken (oauth (snd (run_grant platform config g s)))
  = Some (access_token r)
  /\ (refreshToken (oauth (snd (run_grant platform config g s)))
      <> refreshToken (oauth s) ->
      exists rt, refresh_token r = Some rt
                 /\ refreshToken (oauth (snd (run_grant platform config g s)))
                    = Some rt)
  /\ (refresh_token r = None ->
      refreshToken (oauth (snd (run_grant platform config g s)))
      = refreshToken (oauth s)).
Proof.
  intros Hps E. rewrite (run_grant_exchange g s ps Hps).
  destruct (token_exchange_oauth ps s r E) as [A R].
  split; [exact A|]. rewrite R. split.
  - destruct (refresh_token r) as [rt|]; cbn [truthy].
    + destruct (rt =? ""); cbn [negb]; [congruence|].
      intros _. now exists rt.
    + congruence.
  - now intros ->.
Qed.

(** *** getAccessToken *)

Lemma notes_only_posted path notes :
  notes_only notes -> posted_to path notes = [].
Proof.
  induction notes as [|e notes IH]; intros N; [reflexivity|].
  destruct (N e (or_introl eq_refl)) as [r ->]. cbn [posted_to].
  apply IH. intros e' He'. apply N. now right.
Qed.

Lemma notes_only_sent notes : notes_only notes -> sent_of notes = [].
Proof.
  induction notes as [|e notes IH]; intros N; [reflexivity|].
  destruct (N e (or_introl eq_refl)) as [r ->]. cbn [sent_of].
  apply IH. intros e' He'. apply N. now right.
Qed.

Lemma refresh_specified o :
  truthy (refreshToken o) = true ->
  specified_fields config Refresh o = Some (refresh_fields config o).
Proof. intros H. cbn [specified_fields]. now rewrite H. Qed.

Lemma refreshAccessToken_exchange s :
  truthy (refreshToken (oauth s)) = true ->
  refreshAccessToken platform config s
  = token_exchange platform config (refresh_fields config (oauth s)) s.
Proof.
  intros H.
  exact (run_grant_exchange Refresh s _ (refresh_specified _ H)).
Qed.

Lemma token_exchange_returns ps s r :
  fst (token_exchange platform config ps s) = Returned r ->
  accessToken (oauth (snd (token_exchange platform config ps s)))
  = Some (access_token r).
Proof.
  intros H.
  destruct (fst (token_endpoint platform (toString ps) (world s)))
    as [f|r0] eqn:E.
  - rewrite token_exchange_run in H. cbv zeta in H. rewrite E in H.
    discriminate.
  - destruct (token_exchange_oauth ps s r0 E) as [A _]. rewrite A.
    rewrite token_exchange_run in H. cbv zeta in H. rewrite E in H.
    cbn [fst] in H.
    destruct (fst (handleTokenResponse platform config r0 _));
      now inversion H.
Qed.

Lemma getAccessToken_none s :
  truthy (accessToken (oauth s)) = false ->
  getAccessToken platform config s
  = (Thrown (JsError "No access token available. Please authenticate first."),
     s).
Proof.
  intros H. unfold getAccessToken, bind, get_oauth, throw.
  now rewrite H.
Qed.

Lemma getAccessToken_refresh s expires :
  truthy (accessToken (oauth s)) = true ->
  tokenExpiresAt (oauth s) = Some (TimeValue expires) ->
  truthy (refreshToken (oauth s)) = true ->
  (expires - 5 * 60 * 1000 <= fst (clock platform (world s)))%Z ->
  let s1 := {| oauth := oauth s; world := snd (clock platform (world s));
               wire := wire s |} in
  getAccessToken platform config s
  = (match fst (refreshAccessToken platform config s1) with
     | Returned _ =>
         Returned (accessToken
                     (oauth (snd (refreshAccessToken platform config s1))))
     | Thrown e => Thrown e
     end, snd (refreshAccessToken platform config s1)).
Proof.
  intros Ha He Hr Hnow s1.
  unfold getAccessToken, bind at 1, get_oauth at 1.
  rewrite Ha, He, Hr. cbn [negb when].
  unfold new_Date, outside, bind, ret, get_oauth, when.
  destruct (clock platform (world s)) as [now w1] eqn:Ec.
  cbn [fst snd reached] in *. fold s1.
  replace (now >=? expires - bufferTime)%Z with true
    by (symmetry; rewrite Z.geb_leb; apply Z.leb_le;
        unfold bufferTime; lia).
  now destruct (refreshAccessToken platform config s1) as [[r|e] s2].
Qed.

Lemma getAccessToken_stored_run s :
  truthy (accessToken (oauth s)) = true ->
  (tokenExpiresAt (oauth s) = None
   \/ truthy (refreshToken (oauth s)) = false
   \/ tokenExpiresAt (oauth s) = Some InvalidDate
   \/ exists expires, tokenExpiresAt (oauth s) = Some (TimeValue expires)
        /\ (fst (clock platform (world s)) < expires - 5 * 60 * 1000)%Z) ->
  exists w,
    getAccessToken platform config s
    = (Returned (accessToken (oauth s)),
       {| oauth := oauth s; world := w; wire := wire s |}).
Proof.
  intros Ha H.
  unfold getAccessToken, bind at 1, get_oauth at 1. rewrite Ha.
  cbn [negb].
  destruct (tokenExpiresAt (oauth s)) as [expires|].
  - destruct (truthy (refreshToken (oauth s))) eqn:Hr.
    + unfold new_Date, outside, bind, ret, get_oauth, when.
      destruct (clock platform (world s)) as [now w1] eqn:Ec.
      cbn [fst] in H.
      destruct H as [H|[H|[[= ->]|[expires' [[= ->] H]]]]];
        try discriminate; cbn [reached].
      * now exists w1.
      * replace (now >=? expires' - bufferTime)%Z with false
          by (symmetry; rewrite Z.geb_leb; apply Z.leb_gt;
              unfold bufferTime; lia).
        now exists w1.
    + exists (world s). now destruct s.
  - exists (world s). now destruct s.
Qed.

Lemma getAccessToken_stored s :
  truthy (accessToken (oauth s)) = true ->
  (tokenExpiresAt (oauth s) = None
   \/ truthy (refreshToken (oauth s)) = false
   \/ tokenExpiresAt (oauth s) = Some InvalidDate
   \/ exists expires, tokenExpiresAt (oauth s) = Some (TimeValue expires)
        /\ (fst (clock platform (world s)) < expires - 5 * 60 * 1000)%Z) ->
  fst (getAccessToken platform config s) = Returned (accessToken (oauth s))
  /\ oauth (snd (getAccessToken platform config s)) = oauth s
  /\ wire (snd (getAccessToken platform config s)) = wire s.
Proof.
  intros Ha H. destruct (getAccessToken_stored_run s Ha H) as [w ->].
  now cbn.
Qed.

(** C4. [getAccessToken] fails when no access token is held.  When one
    is held together with an expiry and a refresh token, and the clock
    is within five minutes of the expiry or past it, it makes exactly
    one refresh POST and its outcome is that of [refreshAccessToken]
    followed by reading the stored access token, which is then the one
    of the response.  When the expiry is more than five minutes away, or
    there is no expiry or no refresh token, or the expiry is an invalid
    date, it returns the stored token and touches neither the
    credentials nor the wire. *)
Theorem getAccessToken_cases s :
  (truthy (accessToken (oauth s)) = false ->
   getAccessToken platform config s
   = (Thrown (JsError "No access token available. Please authenticate first."),
      s))
  /\ (forall expires,
      truthy (accessToken (oauth s)) = true ->
      tokenExpiresAt (oauth s) = Some (TimeValue expires) ->
      truthy (refreshToken (oauth s)) = true ->
      (expires - 5 * 60 * 1000 <= fst (clock platform (world s)))%Z ->
      let s1 := {| oauth := oauth s; world := snd (clock platform (world s));
                   wire := wire s |} in
      let s2 := snd (refreshAccessToken platform config s1) in
      posted_to "/oauth2/token" (wire (snd (getAccessToken platform config s)))
      = (posted_to "/oauth2/token" (wire s)
         ++ [toString (refresh_fields config (oauth s))])%list
      /\ snd (getAccessToken platform config s) = s2
      /\ match fst (refreshAccessToken platform config s1) with
         | Returned r =>
             fst (getAccessToken platform config s)
             = Returned (Some (access_token r))
             /\ accessToken (oauth s2) = Some (access_token r)
         | Thrown e => fst (getAccessToken platform config s) = Thrown e
         end)
  /\ (truthy (accessToken (oauth s)) = true ->
      (tokenExpiresAt (oauth s) = None
       \/ truthy (refreshToken (oauth s)) = false
       \/ tokenExpiresAt (oauth s) = Some InvalidDate
       \/ exists expires, tokenExpiresAt (oauth s) = Some (TimeValue expires)
            /\ (fst (clock platform (world s)) < expires - 5 * 60 * 1000)%Z) ->
      fst (getAccessToken platform config s) = Returned (accessToken (oauth s))
      /\ oauth (snd (getAccessToken platform config s)) = oauth s
      /\ wire (snd (getAccessToken platform config s)) = wire s).
Proof.
  split; [apply getAccessToken_none|].
  split; [|apply getAccessToken_stored].
  intros expires Ha He Hr Hnow s1 s2.
  rewrite (getAccessToken_refresh s expires Ha He Hr Hnow).
  cbn [fst snd]. fold s1. fold s2.
  assert (Hr1 : truthy (refreshToken (oauth s1)) = true) by exact Hr.
  split; [|split; [reflexivity|]].
  - subst s2. rewrite (refreshAccessToken_exchange s1 Hr1).
    destruct (token_exchange_wire (refresh_fields config (oauth s1)) s1)
      as [notes [E N]].
    rewrite E, posted_to_app. cbn [posted_to wire s1 String.eqb].
    rewrite (notes_only_posted _ notes N).
    reflexivity.
  - subst s2. rewrite (refreshAccessToken_exchange s1 Hr1).
    destruct (fst (token_exchange platform config (refresh_fields config (oauth s1)) s1))
      as [r|e] eqn:E; [|reflexivity].
    now rewrite (token_exchange_returns _ _ _ E).
Qed.

(** *** revokeToken *)

Lemma revokeToken_run token s t :
  tokenToRevoke token (oauth s) = Some t ->
  revokeToken platform config token s
  = let body := toString (revocation_fields config t) in
    let s1 := {| oauth := oauth s;
                 world := snd (revoke_endpoint platform body (world s));
                 wire := (wire s ++ [Posted "/oauth2/revoke" body])%list |} in
    match fst (revoke_endpoint platform body (world s)) with
    | Some f =>
        (Thrown (AxiosFailure
                   (mkAxiosError f (post_config "/oauth2/revoke" body))), s1)
    | None =>
        (Returned tt,
         {| oauth := if negb (truthy token)
                        || strict_eq token (accessToken (oauth s))
                     then cleared (oauth s) else oauth s;
            world := world s1; wire := wire s1 |})
    end.
Proof.
  unfold tokenToRevoke. intros H.
  unfold revokeToken, bind at 1, get_oauth at 1.
  destruct (or_opt token (accessToken (oauth s))) as [t'|]; cbn [truthy] in H;
    [|discriminate].
  destruct (t' =? "") eqn:Et; cbn [negb] in H; [discriminate|].
  injection H as ->. cbv zeta. unfold bind at 1. rewrite post_revoke_run.
  cbv zeta. fold (revocation_fields config t).
  destruct (fst (revoke_endpoint platform _ (world s))) as [f|];
    [reflexivity|].
  unfold bind, get_oauth, when, set_accessToken, set_tokenExpiresAt,
    put_oauth, get_oauth, ret.
  cbn [oauth world wire].
  destruct (negb (truthy token) || strict_eq token (accessToken (oauth s)));
    [reflexivity|].
  now destruct s.
Qed.

Lemma revokeToken_nothing token s :
  tokenToRevoke token (oauth s) = None ->
  revokeToken platform config token s
  = (Thrown (JsError "No token to revoke"), s).
Proof.
  unfold tokenToRevoke. intros H.
  unfold revokeToken, bind at 1, get_oauth at 1.
  destruct (or_opt token (accessToken (oauth s))) as [t'|]; cbn [truthy] in H;
    [|reflexivity].
  destruct (t' =? ""); [reflexivity | discriminate].
Qed.

Lemma strict_eq_neq (a b : option string) : a <> b -> strict_eq a b = false.
Proof.
  destruct a as [x|], b as [y|]; cbn; try congruence.
  intros H. apply String.eqb_neq. congruence.
Qed.

Lemma strict_eq_refl (a : option string) : strict_eq a a = true.
Proof. destruct a; cbn; [apply String.eqb_refl | reflexivity]. Qed.

(** C10. When the POST to the revocation endpoint fails, [revokeToken]
    throws that failure and the access token, the refresh token and the
    expiry are what they were. *)
Theorem revokeToken_failure_keeps_credentials token s t f :
  tokenToRevoke token (oauth s) = Some t ->
  fst (revoke_endpoint platform (toString (revocation_fields config t))
         (world s)) = Some f ->
  fst (revokeToken platform config token s)
  = Thrown (AxiosFailure
              (mkAxiosError f
                 (post_config "/oauth2/revoke"
                    (toString (revocation_fields config t)))))
  /\ oauth (snd (revokeToken platform config token s)) = oauth s
  /\ wire (snd (revokeToken platform config token s))
     = (wire s ++ [Posted "/oauth2/revoke"
                     (toString (revocation_fields config t))])%list.
Proof.
  intros Ht Hf. rewrite (revokeToken_run token s t Ht). cbv zeta.
  rewrite Hf. now cbn.
Qed.

(** C5, as the code has it.  When the revocation POST succeeds:
    [revokeToken] called with no argument, with an empty string, or with
    the held access token clears the access token and its expiry, so
    that [isAuthenticated] is false, and keeps the refresh token; called
    with a non-empty token other than the stored access token it leaves
    the credentials as they were.  It fails with "No token to revoke",
    before any wire call, when the argument is missing or empty and no
    access token is held. *)
Theorem revokeToken_cases token s :
  (forall t,
      tokenToRevoke token (oauth s) = Some t ->
      fst (revoke_endpoint platform (toString (revocation_fields config t))
             (world s)) = None ->
      truthy token = false \/ token = accessToken (oauth s) ->
      fst (revokeToken platform config token s) = Returned tt
      /\ oauth (snd (revokeToken platform config token s))
         = cleared (oauth s)
      /\ refreshToken (oauth (snd (revokeToken platform config token s)))
         = refreshToken (oauth s)
      /\ fst (isAuthenticated (snd (revokeToken platform config token s)))
         = Returned false)
  /\ (forall t,
      tokenToRevoke token (oauth s) = Some t ->
      fst (revoke_endpoint platform (toString (revocation_fields config t))
             (world s)) = None ->
      truthy token = true -> token <> accessToken (oauth s) ->
      fst (revokeToken platform config token s) = Returned tt
      /\ oauth (snd (revokeToken platform config token s)) = oauth s
      /\ fst (isAuthenticated (snd (revokeToken platform config token s)))
         = fst (isAuthenticated s))
  /\ (truthy token = false -> truthy (accessToken (oauth s)) = false ->
      revokeToken platform config token s
      = (Thrown (JsError "No token to revoke"), s)).
Proof.
  split; [|split].
  - intros t Ht Hok Hc. rewrite (revokeToken_run token s t Ht). cbv zeta.
    rewrite Hok.
    replace (negb (truthy token) || strict_eq token (accessToken (oauth s)))
      with true.
    + now cbn.
    + destruct Hc as [->| ->]; [reflexivity|].
      now rewrite strict_eq_refl, orb_true_r.
  - intros t Ht Hok Hg Hne. rewrite (revokeToken_run token s t Ht). cbv zeta.
    rewrite Hok, Hg, (strict_eq_neq _ _ Hne). now cbn.
  - intros Hg Ha. apply revokeToken_nothing.
    unfold tokenToRevoke, or_opt. now rewrite Hg, Ha.
Qed.

End TokenAuthority.

(** ** The gateway *)

Section Gateway.
Context {W : Type}.
Variable platform : Platform W.
Variable config : LearnWorldsConfig W.

Lemma request_interceptor_run cfg s :
  request_interceptor platform config cfg s
  = match fst (getAccessToken platform config s) with
    | Returned token =>
        (Returned (authorize cfg token), snd (getAccessToken platform config s))
    | Thrown _ => (Returned cfg, snd (getAccessToken platform config s))
    end.
Proof.
  unfold request_interceptor, try_catch, ret.
  now destruct (getAccessToken platform config s) as [[token|e] s1].
Qed.

Lemma outgoing_run cfg s :
  outgoing platform config cfg s
  = (match fst (getAccessToken platform config s) with
     | Returned token => authorize (merged cfg) token
     | Thrown _ => merged cfg
     end, snd (getAccessToken platform config s)).
Proof.
  unfold outgoing. rewrite request_interceptor_run.
  now destruct (fst (getAccessToken platform config s)).
Qed.

Lemma request_interceptor_outgoing cfg s :
  request_interceptor platform config (merged cfg) s
  = (Returned (fst (outgoing platform config cfg s)),
     snd (outgoing platform config cfg s)).
Proof.
  rewrite outgoing_run, request_interceptor_run.
  now destruct (fst (getAccessToken platform config s)).
Qed.

Lemma outgoing_retry cfg s :
  _retry (fst (outgoing platform config cfg s)) = _retry cfg.
Proof.
  rewrite outgoing_run. cbn [fst].
  now destruct (fst (getAccessToken platform config s)).
Qed.

Lemma outgoing_quiet cfg s :
  quiet_step s (snd (outgoing platform config cfg s)).
Proof. rewrite outgoing_run. apply quiet_getAccessToken. Qed.

Lemma quiet_forced_refresh : quiet (forced_refresh platform config).
Proof.
  apply quiet_bind; [apply quiet_refreshAccessToken|].
  intros _. apply quiet_getAccessToken.
Qed.

Lemma dispatch_run cfg s :
  dispatch platform cfg s
  = (Returned (fst (api_endpoint platform cfg (world s))),
     after_send s cfg (snd (api_endpoint platform cfg (world s)))).
Proof.
  unfold dispatch, bind, emit, outside, after_send. cbn [world oauth wire].
  now destruct (api_endpoint platform cfg _).
Qed.

(** The rejection handler, case by case. *)
Lemma response_error_interceptor_run resend f cfg s :
  response_error_interceptor platform config resend (mkAxiosError f cfg) s
  = if retriable f cfg (oauth s) then
      match fst (forced_refresh platform config s) with
      | Returned token =>
          resend (authorize (mark_retry cfg) token)
                 (snd (forced_refresh platform config s))
      | Thrown _ =>
          (Thrown (ApiFailure (handleError (mkAxiosError f cfg))),
           snd (forced_refresh platform config s))
      end
    else (Thrown (ApiFailure (handleError (mkAxiosError f cfg))), s).
Proof.
  unfold response_error_interceptor, retriable, bind at 1, getTokens,
    bind at 1, get_oauth, ret.
  cbn [ax_config mkAxiosError t_refreshToken].
  destruct (has_status _ 401 && negb (_retry cfg)
            && truthy (refreshToken (oauth s))); [|reflexivity].
  unfold try_catch, throw. fold (forced_refresh platform config).
  now destruct (forced_refresh platform config s) as [[token|e] s3].
Qed.

(** One pass of the pipeline. *)
Lemma http_step fuel cfg s :
  http platform config (S fuel) cfg s
  = let c1 := fst (outgoing platform config cfg s) in
    let s1 := snd (outgoing platform config cfg s) in
    match fst (api_endpoint platform c1 (world s1)) with
    | inr response => exchange platform c1 s1
    | inl f =>
        response_error_interceptor platform config
          (http platform config fuel) (mkAxiosError f c1)
          (snd (exchange platform c1 s1))
    end.
Proof.
  cbn [http]. fold (merged cfg). unfold bind at 1.
  rewrite request_interceptor_outgoing. unfold bind at 1.
  rewrite dispatch_run. cbv zeta. unfold exchange, ret.
  now destruct (fst (api_endpoint platform _ _)).
Qed.

(** A request that is marked is sent once, whatever comes back. *)
Lemma http_marked fuel cfg s :
  _retry cfg = true ->
  http platform config (S fuel) cfg s
  = exchange platform (fst (outgoing platform config cfg s))
             (snd (outgoing platform config cfg s)).
Proof.
  intros Hr. rewrite http_step. cbv zeta.
  destruct (fst (api_endpoint platform _ _)) as [f|response] eqn:E;
    [|reflexivity].
  rewrite response_error_interceptor_run.
  unfold retriable. rewrite outgoing_retry, Hr, andb_false_r. cbn [andb].
  unfold exchange. now rewrite E.
Qed.

(** A request that is not marked: sent, and resent at most once. *)
Lemma http_unmarked fuel cfg s :
  http platform config (S (S fuel)) cfg s
  = let c1 := fst (outgoing platform config cfg s) in
    let s1 := snd (outgoing platform config cfg s) in
    let s2 := snd (exchange platform c1 s1) in
    match fst (api_endpoint platform c1 (world s1)) with
    | inr response => exchange platform c1 s1
    | inl f =>
        if retriable f c1 (oauth s2) then
          match fst (forced_refresh platform config s2) with
          | Returned token =>
              let c := authorize (mark_retry c1) token in
              let s3 := snd (forced_refresh platform config s2) in
              exchange platform (fst (outgoing platform config c s3))
                       (snd (outgoing platform config c s3))
          | Thrown _ =>
              (Thrown (ApiFailure (handleError (mkAxiosError f c1))),
               snd (forced_refresh platform config s2))
          end
        else (Thrown (ApiFailure (handleError (mkAxiosError f c1))), s2)
    end.
Proof.
  rewrite http_step. cbv zeta.
  destruct (fst (api_endpoint platform _ _)) as [f|response];
    [|reflexivity].
  rewrite response_error_interceptor_run.
  destruct (retriable f _ _); [|reflexivity].
  destruct (fst (forced_refresh platform config _)); [|reflexivity].
  now rewrite http_marked.
Qed.

(** *** At most one retry *)

Lemma exchange_wire cfg s :
  wire (snd (exchange platform cfg s)) = (wire s ++ [Sent cfg])%list.
Proof. reflexivity. Qed.

Lemma exchange_fuelled cfg s :
  fst (exchange platform cfg s) <> Thrown OutOfFuel.
Proof.
  unfold exchange, settle. cbn [fst].
  now destruct (fst (api_endpoint platform cfg (world s))).
Qed.

(** What one whole request puts on the wire: the request, and if it is
    resent the marked request. *)
Lemma http_unmarked_wire fuel cfg s :
  _retry cfg = false ->
  exists d,
    wire (snd (http platform config (S (S fuel)) cfg s)) = (wire s ++ d)%list
    /\ ((exists c1, sent_of d = [c1] /\ _retry c1 = false)
        \/ (exists c1 c2 s3,
               sent_of d = [c1; c2] /\ _retry c1 = false /\ _retry c2 = true
               /\ http platform config (S (S fuel)) cfg s
                  = exchange platform c2 s3)).
Proof.
  intros Hr. rewrite http_unmarked. cbv zeta.
  set (c1 := fst (outgoing platform config cfg s)).
  set (s1 := snd (outgoing platform config cfg s)).
  assert (Hc1 : _retry c1 = false)
    by (subst c1; now rewrite outgoing_retry).
  destruct (outgoing_quiet cfg s) as [d1 [E1 Q1]]. fold s1 in E1.
  assert (One : forall (s' : System W) d',
             wire s' = (wire s1 ++ Sent c1 :: d')%list -> sent_of d' = [] ->
             exists d, wire s' = (wire s ++ d)%list
                       /\ sent_of d = [c1]).
  { intros s' d' E Q. exists (d1 ++ Sent c1 :: d')%list. split.
    - now rewrite E, E1, <- app_assoc.
    - rewrite sent_of_app, Q1. cbn [sent_of app]. now rewrite Q. }
  destruct (fst (api_endpoint platform c1 (world s1))) as [f|response].
  - destruct (retriable f c1 _).
    + set (s2 := snd (exchange platform c1 s1)).
      destruct (quiet_forced_refresh s2) as [d2 [E2 Q2]].
      destruct (fst (forced_refresh platform config s2)) as [token|e].
      * set (s3 := snd (forced_refresh platform config s2)) in *.
        set (c := authorize (mark_retry c1) token).
        destruct (outgoing_quiet c s3) as [d3 [E3 Q3]].
        set (c2 := fst (outgoing platform config c s3)).
        set (s4 := snd (outgoing platform config c s3)) in *.
        exists (d1 ++ Sent c1 :: d2 ++ d3 ++ [Sent c2])%list. split.
        -- rewrite exchange_wire, E3, E2. subst s2.
           rewrite exchange_wire, E1.
           now rewrite <- !app_assoc.
        -- right. exists c1, c2, s4. repeat split; auto.
           ++ rewrite sent_of_app, Q1. cbn [sent_of app].
              now rewrite !sent_of_app, Q2, Q3.
           ++ subst c2. now rewrite outgoing_retry.
      * cbn [snd].
        destruct (One (snd (forced_refresh platform config s2)) d2)
          as [d [E Q]]; auto.
        -- rewrite E2. subst s2. rewrite exchange_wire.
           now rewrite <- app_assoc.
        -- exists d. split; [exact E|]. left. now exists c1.
    + cbn [snd].
      destruct (One (snd (exchange platform c1 s1)) []) as [d [E Q]]; auto.
      exists d. split; [exact E|]. left. now exists c1.
  - destruct (One (snd (exchange platform c1 s1)) []) as [d [E Q]]; auto.
    exists d. split; [exact E|]. left. now exists c1.
Qed.

Lemma http_fuel_irrelevant fuel cfg s :
  http platform config (S (S fuel)) cfg s = http platform config 2 cfg s.
Proof. now rewrite !http_unmarked. Qed.

Lemma http_unmarked_fuelled fuel cfg s :
  fst (http platform config (S (S fuel)) cfg s) <> Thrown OutOfFuel.
Proof.
  rewrite http_unmarked. cbv zeta.
  destruct (fst (api_endpoint platform _ _)) as [f|response];
    [|apply exchange_fuelled].
  destruct (retriable f _ _); [|discriminate].
  destruct (fst (forced_refresh platform config _));
    [apply exchange_fuelled | discriminate].
Qed.

(** C1. A request that is not yet marked is handed to the transport
    once or twice, never more, whatever the fuel; when it is handed over
    a second time that request carries the retry mark, and the outcome
    of the whole request is the settled reply to that second request: a
    response, or the normalized failure, 401 included, with nothing
    sent after it. *)
Theorem at_most_one_retry fuel cfg s :
  2 <= fuel -> _retry cfg = false ->
  fst (http platform config fuel cfg s) <> Thrown OutOfFuel
  /\ http platform config fuel cfg s = http platform config 2 cfg s
  /\ exists d,
       wire (snd (http platform config fuel cfg s)) = (wire s ++ d)%list
       /\ length (sent_of d) <= 2
       /\ ((exists c1, sent_of d = [c1] /\ _retry c1 = false)
           \/ (exists c1 c2 s3,
                  sent_of d = [c1; c2] /\ _retry c1 = false
                  /\ _retry c2 = true
                  /\ http platform config fuel cfg s
                     = exchange platform c2 s3)).
Proof.
  intros Hf Hr.
  destruct fuel as [|[|fuel]]; [lia | lia |].
  split; [apply http_unmarked_fuelled|].
  split; [apply http_fuel_irrelevant|].
  destruct (http_unmarked_wire fuel cfg s Hr) as [d [E H]].
  exists d. split; [exact E|]. split; [|exact H].
  destruct H as [[c1 [-> _]]|[c1 [c2 [s3 [-> _]]]]]; cbn; lia.
Qed.

(** *** A refresh that fails *)

Lemma forced_refresh_fails s e :
  fst (refreshAccessToken platform config s) = Thrown e ->
  forced_refresh platform config s
  = (Thrown e, snd (refreshAccessToken platform config s)).
Proof.
  intros H. unfold forced_refresh, bind.
  destruct (refreshAccessToken platform config s) as [[r|e'] s'];
    cbn [fst snd] in *; congruence.
Qed.

Lemma http_refresh_failure fuel cfg s f e :
  fst (api_endpoint platform (fst (outgoing platform config cfg s))
         (world (snd (outgoing platform config cfg s)))) = inl f ->
  retriable f (fst (outgoing platform config cfg s))
    (oauth (snd (outgoing platform config cfg s))) = true ->
  fst (forced_refresh platform config
         (snd (exchange platform (fst (outgoing platform config cfg s))
                 (snd (outgoing platform config cfg s))))) = Thrown e ->
  http platform config (S fuel) cfg s
  = (Thrown (ApiFailure
               (handleError
                  (mkAxiosError f (fst (outgoing platform config cfg s))))),
     snd (forced_refresh platform config
            (snd (exchange platform (fst (outgoing platform config cfg s))
                    (snd (outgoing platform config cfg s)))))).
Proof.
  intros Hf Hret He. rewrite http_step. cbv zeta. rewrite Hf.
  rewrite response_error_interceptor_run.
  cbn [exchange snd after_send oauth] in *. rewrite Hret.
  now rewrite He.
Qed.

Lemma handleError_401 f cfg :
  has_status (mkAxiosError f cfg) 401 = true ->
  code (handleError (mkAxiosError f cfg)) = Some "UNAUTHORIZED"
  /\ lw_status (handleError (mkAxiosError f cfg)) = Some 401%Z
  /\ message (handleError (mkAxiosError f cfg))
     = "Invalid API key or authentication failed".
Proof.
  unfold has_status, handleError. cbn [ax_response mkAxiosError].
  destruct (f_response f) as [response|]; [|discriminate].
  intros H. apply Z.eqb_eq in H. rewrite H. now cbn.
Qed.

(** C6. A request of [makeRequest] whose first exchange fails with 401
    while a refresh token is held, and whose refresh then fails, throws
    the normalized form of that first failure: code UNAUTHORIZED, status
    401.  The error of the refresh does not appear in the outcome. *)
Theorem refresh_failure_surfaces_original
    fuel method endpoint payload query s f e :
  let cfg := api_request method endpoint payload query in
  let c1 := fst (outgoing platform config cfg s) in
  let s1 := snd (outgoing platform config cfg s) in
  let s2 := snd (exchange platform c1 s1) in
  fst (api_endpoint platform c1 (world s1)) = inl f ->
  has_status (mkAxiosError f c1) 401 = true ->
  truthy (refreshToken (oauth s1)) = true ->
  fst (refreshAccessToken platform config s2) = Thrown e ->
  makeRequest platform config (S fuel) method endpoint payload query s
  = (Thrown (ApiFailure (handleError (mkAxiosError f c1))),
     snd (refreshAccessToken platform config s2))
  /\ code (handleError (mkAxiosError f c1)) = Some "UNAUTHORIZED"
  /\ lw_status (handleError (mkAxiosError f c1)) = Some 401%Z.
Proof.
  intros cfg c1 s1 s2 Hf H401 Hrt He.
  assert (Hfr := forced_refresh_fails s2 e He).
  assert (Hret : retriable f c1 (oauth s1) = true).
  { unfold retriable. rewrite H401, Hrt. subst c1.
    now rewrite outgoing_retry. }
  split; [|destruct (handleError_401 f c1 H401) as [C [S _]]; now split].
  unfold makeRequest, bind. fold cfg.
  rewrite (http_refresh_failure fuel cfg s f e Hf Hret);
    fold c1 s1 s2; rewrite Hfr; reflexivity.
Qed.

(** *** The envelope *)

(** C7, as the code has it.  When the exchange of a request comes back
    with a response, whatever its HTTP status: an envelope whose
    [success] is false makes [makeRequest] throw an error with code
    API_ERROR, the [errors] of the envelope as details, and as message
    the [message] of the envelope when that is a non-empty string and
    "API request failed" otherwise; an envelope whose [success] is true
    makes it return the [data] of the envelope. *)
Theorem envelope_decides fuel method endpoint payload query s response s' :
  http platform config fuel (api_request method endpoint payload query) s
  = (Returned response, s') ->
  makeRequest platform config fuel method endpoint payload query s
  = (if success (body response) then Returned (data (body response))
     else Thrown (ApiFailure (envelope_error (body response))), s')
  /\ code (envelope_error (body response)) = Some "API_ERROR"
  /\ details (envelope_error (body response))
     = Some (EnvelopeErrors (errors (body response)))
  /\ message (envelope_error (body response))
     = match api_message (body response) with
       | Some m => if m =? "" then "API request failed" else m
       | None => "API request failed"
       end.
Proof.
  intros H. unfold makeRequest, bind. rewrite H.
  split; [|now cbn].
  now destruct (success (body response)).
Qed.

(** *** Error normalization *)

(** The [switch] on the status has five cases and a default. *)
Lemma status_switch (st : Z) :
  st = 401%Z \/ st = 403%Z \/ st = 404%Z \/ st = 422%Z \/ st = 429%Z
  \/ forall (A : Type) (a b c d e f : A),
       match st with
       | 401 => a | 403 => b | 404 => c | 422 => d | 429 => e | _ => f
       end%Z = f.
Proof.
  destruct st as [|p|p]; try (now repeat right).
  do 9 (destruct p as [p|p|]; try (now repeat right)); tauto.
Qed.

(** C2, as the code has it.  For a failure that carries a response, the
    normalized error has the status of the response, its body as
    details, the code of the table for the status, and as message the
    fixed text of the table for 401, 403, 404, 422 and 429, whatever the
    server said; for any other status the message is the server's when
    it is a non-empty string, else the transport's when that is
    non-empty, else "API Error". *)
Theorem handleError_with_response error response :
  ax_response error = Some response ->
  name (handleError error) = "LearnWorldsError"
  /\ lw_status (handleError error) = Some (er_status response)
  /\ details (handleError error) = Some (ResponseData (er_data response))
  /\ code (handleError error) = Some (status_code (er_status response))
  /\ message (handleError error)
     = match default_message (er_status response) with
       | Some m => m
       | None =>
           or_else (or_opt (server_message (er_data response))
                           (Some (ax_message error)))
                   "API Error"
       end.
Proof.
  intros H. unfold handleError, status_code, default_message. rewrite H.
  destruct (status_switch (er_status response))
    as [E|[E|[E|[E|[E|E]]]]]; try (rewrite E; now cbn).
  rewrite !E. now cbn.
Qed.

(** *** Attaching the credential *)

Lemma get_header_set_header hs k v :
  get_header (set_header hs k v) k = Some v.
Proof.
  induction hs as [|[k' v'] hs IH]; cbn [set_header get_header].
  - now rewrite String.eqb_refl.
  - destruct (k' =? k) eqn:E; cbn [get_header].
    + now rewrite String.eqb_refl.
    + now rewrite E.
Qed.

Lemma authorize_header cfg token :
  get_header (headers (authorize cfg token)) "Authorization"
  = Some (bearer token).
Proof. apply get_header_set_header. Qed.

(** The wire only grows during a request. *)
Lemma http_grows fuel : forall cfg s,
  exists d, wire (snd (http platform config fuel cfg s)) = (wire s ++ d)%list.
Proof.
  induction fuel as [|fuel IH]; intros cfg s.
  - exists []. cbn. now rewrite app_nil_r.
  - rewrite http_step. cbv zeta.
    destruct (outgoing_quiet cfg s) as [d1 [E1 _]].
    set (c1 := fst (outgoing platform config cfg s)) in *.
    set (s1 := snd (outgoing platform config cfg s)) in *.
    destruct (fst (api_endpoint platform c1 (world s1))) as [f|response].
    + rewrite response_error_interceptor_run.
      set (s2 := snd (exchange platform c1 s1)).
      assert (E2 : wire s2 = (wire s ++ d1 ++ [Sent c1])%list).
      { subst s2. rewrite exchange_wire, E1. now rewrite <- app_assoc. }
      destruct (retriable f c1 (oauth s2)).
      * destruct (quiet_forced_refresh s2) as [d3 [E3 _]].
        destruct (fst (forced_refresh platform config s2)) as [token|e].
        -- destruct (IH (authorize (mark_retry c1) token)
                       (snd (forced_refresh platform config s2)))
             as [d4 E4].
           exists (d1 ++ [Sent c1] ++ d3 ++ d4)%list.
           rewrite E4, E3, E2. now rewrite <- !app_assoc.
        -- exists (d1 ++ [Sent c1] ++ d3)%list. cbn [snd].
           rewrite E3, E2. now rewrite <- !app_assoc.
      * exists (d1 ++ [Sent c1])%list. exact E2.
    + exists (d1 ++ [Sent c1])%list.
      rewrite exchange_wire, E1. now rewrite <- app_assoc.
Qed.

End Gateway.

(* ================================================================== *)
(** * Concrete runs of the properties *)

(** ** The token authority *)

Lemma grant_wire_fields_witness :
  specified_fields test_config (ClientCredentials None) (oauth two_grants)
  = Some [("grant_type", "client_credentials");
          ("client_id", "test-client-id");
          ("client_secret", "test-client-secret")]
  /\ exists body notes,
       wire (snd (run_grant scripted test_config (ClientCredentials None)
                    two_grants))
       = (wire two_grants ++ Posted "/oauth2/token" body :: notes)%list
       /\ parse body = [("grant_type", "client_credentials");
                        ("client_id", "test-client-id");
                        ("client_secret", "test-client-secret")]
       /\ includes "scope=" body = false.
Proof.
  split; [reflexivity|].
  destruct (grant_wire_fields scripted test_config (ClientCredentials None)
              two_grants _ eq_refl)
    as [body [notes [E [_ [P [_ [_ [_ [_ I]]]]]]]]].
  exists body, notes. split; [exact E|]. split; [exact P|].
  exact (I eq_refl).
Defined.

Example password_grant_on_the_wire :
  wire after_password
  = [Posted "/oauth2/token"
       "grant_type=password&username=test%40example.com&password=test-password&client_id=test-client-id&client_secret=test-client-secret&scope=read_user_profile"].
Proof. reflexivity. Qed.

(** Password first, client credentials second: the refresh token of the
    first response survives the second, which has none. *)
Lemma token_response_install_witness :
  specified_fields test_config (ClientCredentials None) (oauth after_password)
  = Some [("grant_type", "client_credentials");
          ("client_id", "test-client-id");
          ("client_secret", "test-client-secret")]
  /\ fst (token_endpoint scripted
            "grant_type=client_credentials&client_id=test-client-id&client_secret=test-client-secret"
            (world after_password))
     = inr (token_reply "access-2" 3600 None)
  /\ refreshToken (oauth after_password) = Some "refresh-1"
  /\ accessToken
       (oauth (snd (run_grant scripted test_config (ClientCredentials None)
                      after_password)))
     = Some "access-2"
  /\ refreshToken
       (oauth (snd (run_grant scripted test_config (ClientCredentials None)
                      after_password)))
     = Some "refresh-1".
Proof.
  split; [reflexivity|]. split; [reflexivity|]. split; [reflexivity|].
  destruct (token_response_install scripted test_config
              (ClientCredentials None) after_password _
              (token_reply "access-2" 3600 None) eq_refl eq_refl)
    as [A [_ R]].
  split; [exact A | exact (R eq_refl)].
Defined.

Lemma getAccessToken_cases_witness :
  (* nothing held *)
  getAccessToken scripted test_config anonymous
  = (Thrown (JsError "No access token available. Please authenticate first."),
     anonymous)
  (* expired, with a refresh token *)
  /\ posted_to "/oauth2/token"
       (wire (snd (getAccessToken scripted test_config expired)))
     = ["grant_type=refresh_token&refresh_token=refresh-token&client_id=test-client-id&client_secret=test-client-secret"]
  /\ fst (getAccessToken scripted test_config expired)
     = Returned (Some "new-token")
  (* ten minutes left *)
  /\ fst (getAccessToken scripted test_config fresh)
     = Returned (Some "test-token")
  /\ wire (snd (getAccessToken scripted test_config fresh)) = [].
Proof.
  split.
  { exact (proj1 (getAccessToken_cases scripted test_config anonymous)
                 eq_refl). }
  destruct (proj1 (proj2 (getAccessToken_cases scripted test_config expired))
              999000%Z eq_refl eq_refl eq_refl)
    as [P [_ R]]; [vm_compute; discriminate|].
  split; [exact P|]. split; [exact (proj1 R)|].
  destruct (proj2 (proj2 (getAccessToken_cases scripted test_config fresh))
              eq_refl)
    as [T [_ Wr]].
  { right. right. right. exists 1600000%Z. split; [reflexivity|].
    vm_compute. reflexivity. }
  split; [exact T | exact Wr].
Defined.

Lemma revokeToken_failure_keeps_credentials_witness :
  tokenToRevoke None (oauth unrevocable) = Some "access-0"
  /\ fst (revoke_endpoint scripted
            (toString (revocation_fields test_config "access-0"))
            (world unrevocable))
     = Some network_failure
  /\ oauth (snd (revokeToken scripted test_config None unrevocable))
     = held_credentials
  /\ wire (snd (revokeToken scripted test_config None unrevocable))
     = [Posted "/oauth2/revoke"
          "token=access-0&client_id=test-client-id&client_secret=test-client-secret"].
Proof.
  split; [reflexivity|]. split; [reflexivity|].
  destruct (revokeToken_failure_keeps_credentials scripted test_config None
              unrevocable "access-0" network_failure eq_refl eq_refl)
    as [_ [O Wr]].
  split; [exact O | exact Wr].
Defined.

(** C5 fails for an empty argument: [""] is an argument, it differs from
    the held access token, and yet the revocation clears the credentials
    (and puts the held token on the wire). *)
Lemma revokeToken_empty_argument_counterexample :
  Some "" <> accessToken (oauth revocable)
  /\ fst (isAuthenticated revocable) = Returned true
  /\ fst (revokeToken scripted test_config (Some "") revocable) = Returned tt
  /\ oauth (snd (revokeToken scripted test_config (Some "") revocable))
     <> oauth revocable
  /\ fst (isAuthenticated
            (snd (revokeToken scripted test_config (Some "") revocable)))
     = Returned false
  /\ wire (snd (revokeToken scripted test_config (Some "") revocable))
     = [Posted "/oauth2/revoke"
          "token=access-0&client_id=test-client-id&client_secret=test-client-secret"].
Proof. repeat split; try reflexivity; discriminate. Qed.

Lemma revokeToken_cases_witness :
  (* no argument *)
  oauth (snd (revokeToken scripted test_config None revocable))
  = {| accessToken := None; refreshToken := Some "refresh-0";
       tokenExpiresAt := None |}
  /\ fst (isAuthenticated (snd (revokeToken scripted test_config None revocable)))
     = Returned false
  (* another token *)
  /\ oauth (snd (revokeToken scripted test_config (Some "other-token") revocable))
     = held_credentials
  /\ fst (isAuthenticated
            (snd (revokeToken scripted test_config (Some "other-token")
                    revocable)))
     = Returned true
  (* nothing to revoke *)
  /\ revokeToken scripted test_config None anonymous
     = (Thrown (JsError "No token to revoke"), anonymous).
Proof.
  destruct (proj1 (revokeToken_cases scripted test_config None revocable)
              "access-0" eq_refl eq_refl (or_introl eq_refl))
    as [_ [O [_ I]]].
  split; [exact O|]. split; [exact I|].
  destruct (proj1 (proj2 (revokeToken_cases scripted test_config
                            (Some "other-token") revocable))
              "other-token" eq_refl eq_refl eq_refl)
    as [_ [O' I']]; [discriminate|].
  split; [exact O'|]. split; [exact I'|].
  exact (proj2 (proj2 (revokeToken_cases scripted test_config None anonymous))
               eq_refl eq_refl).
Defined.

(** ** The gateway *)

(** 401, a refresh that succeeds, 401 again: two requests on the wire, the
    second one marked, and the second failure thrown. *)
Lemma at_most_one_retry_witness :
  2 <= 2
  /\ _retry courses_request = false
  /\ fst (http scripted test_config 2 courses_request twice_unauthorized)
     <> Thrown OutOfFuel
  /\ (exists d,
         wire (snd (http scripted test_config 2 courses_request
                      twice_unauthorized))
         = (wire twice_unauthorized ++ d)%list
         /\ length (sent_of d) <= 2)
  /\ map _retry
       (sent_of (wire (snd (http scripted test_config 2 courses_request
                              twice_unauthorized))))
     = [false; true]
  /\ fst (http scripted test_config 2 courses_request twice_unauthorized)
     = Thrown (ApiFailure
                 {| name := "LearnWorldsError";
                    message := "Invalid API key or authentication failed";
                    lw_status := Some 401%Z;
                    code := Some "UNAUTHORIZED";
                    details := Some (ResponseData None) |}).
Proof.
  destruct (at_most_one_retry scripted test_config 2 courses_request
              twice_unauthorized (le_n 2) eq_refl)
    as [F [_ [d [E [L _]]]]].
  split; [exact (le_n 2)|]. split; [reflexivity|]. split; [exact F|].
  split; [exists d; split; [exact E | exact L]|].
  split; reflexivity.
Defined.

Lemma refresh_failure_surfaces_original_witness :
  fst (api_endpoint scripted
         (fst (outgoing scripted test_config courses_request refresh_refused))
         (world (snd (outgoing scripted test_config courses_request
                        refresh_refused))))
  = inl unauthorized
  /\ truthy (refreshToken (oauth refresh_refused)) = true
  /\ fst (refreshAccessToken scripted test_config
            (snd (exchange scripted
                    (fst (outgoing scripted test_config courses_request
                            refresh_refused))
                    (snd (outgoing scripted test_config courses_request
                            refresh_refused)))))
     = Thrown (AxiosFailure
                 (mkAxiosError server_error
                    (post_config "/oauth2/token"
                       "grant_type=refresh_token&refresh_token=refresh-0&client_id=test-client-id&client_secret=test-client-secret")))
  /\ fst (makeRequest scripted test_config 1 "GET" "/courses" None None
            refresh_refused)
     = Thrown (ApiFailure
                 {| name := "LearnWorldsError";
                    message := "Invalid API key or authentication failed";
                    lw_status := Some 401%Z;
                    code := Some "UNAUTHORIZED";
                    details := Some (ResponseData None) |}).
Proof.
  split; [reflexivity|]. split; [reflexivity|]. split; [reflexivity|].
  destruct (refresh_failure_surfaces_original scripted test_config 0
              "GET" "/courses" None None refresh_refused unauthorized
              _ eq_refl eq_refl eq_refl eq_refl)
    as [R _].
  rewrite R. reflexivity.
Defined.

(** C7 fails for an empty message: the envelope has a message, the empty
    string, and the error carries the fallback instead. *)
Lemma envelope_empty_message_counterexample :
  status empty_message_envelope = 200%Z
  /\ success (body empty_message_envelope) = false
  /\ api_message (body empty_message_envelope) = Some ""
  /\ exists e s',
       makeRequest scripted test_config 2 "GET" "/courses" None None
         failing_envelope
       = (Thrown (ApiFailure e), s')
       /\ message e = "API request failed"
       /\ Some (message e) <> api_message (body empty_message_envelope).
Proof.
  repeat split.
  eexists _, _. split; [reflexivity|]. split; [reflexivity | discriminate].
Qed.

Lemma envelope_decides_witness :
  http scripted test_config 2 courses_request failing_envelope
  = (Returned empty_message_envelope,
     snd (http scripted test_config 2 courses_request failing_envelope))
  /\ makeRequest scripted test_config 2 "GET" "/courses" None None
       failing_envelope
     = (Thrown (ApiFailure
                  {| name := "Error";
                     message := "API request failed";
                     lw_status := None;
                     code := Some "API_ERROR";
                     details :=
                       Some (EnvelopeErrors (Some ["Something went wrong"])) |}),
        snd (http scripted test_config 2 courses_request failing_envelope)).
Proof.
  split; [reflexivity|].
  exact (proj1 (envelope_decides scripted test_config 2 "GET" "/courses"
                  None None failing_envelope empty_message_envelope _
                  eq_refl)).
Defined.

(** C2 fails for a 404 whose body has a message: the error carries the
    fixed text of the status, not the message of the server. *)
Lemma handleError_server_message_counterexample :
  ax_response not_found_error = Some course_not_found
  /\ server_message (er_data course_not_found)
     = Some "Course 42 does not exist"
  /\ overridable_message course_not_found = "Course 42 does not exist"
  /\ message (handleError not_found_error) = "Resource not found"
  /\ message (handleError not_found_error)
     <> overridable_message course_not_found.
Proof. repeat split; discriminate. Qed.

Lemma handleError_with_response_witness :
  ax_response not_found_error = Some course_not_found
  /\ code (handleError not_found_error) = Some "NOT_FOUND"
  /\ message (handleError not_found_error) = "Resource not found"
  /\ lw_status (handleError not_found_error) = Some 404%Z.
Proof.
  destruct (handleError_with_response not_found_error course_not_found
              eq_refl)
    as [_ [S [_ [C M]]]].
  split; [reflexivity|]. split; [exact C|]. split; [exact M | exact S].
Defined.

(** C9 fails for the resend of [short_lived]: the hook's call of
    [getAccessToken] fails, because the refresh it triggers cannot reach
    the token endpoint, and the request still goes out with the
    Authorization header the retry path had put on it. *)
Lemma resend_keeps_authorization_counterexample :
  (exists e s',
      getAccessToken scripted test_config resend_state = (Thrown e, s')
      /\ request_interceptor scripted test_config resend_request resend_state
         = (Returned resend_request, s'))
  /\ get_header (headers resend_request) "Authorization"
     = Some "Bearer access-2"
  /\ makeRequest scripted test_config 2 "GET" "/courses" None None short_lived
     = (Returned "[]",
        snd (makeRequest scripted test_config 2 "GET" "/courses" None None
               short_lived))
  /\ sent_of (wire (snd (makeRequest scripted test_config 2 "GET" "/courses"
                           None None short_lived)))
     = [first_sent; resend_request]
  /\ length (posted_to "/oauth2/token"
               (wire (snd (makeRequest scripted test_config 2 "GET" "/courses"
                             None None short_lived))))
     = 3.
Proof.
  split; [eexists _, _; split; reflexivity|].
  repeat split.
Qed.


(* ================================================================== *)
(** * More of the token authority *)

Section TokenLifecycle.
Context {W : Type}.
Variable platform : Platform W.
Variable config : LearnWorldsConfig W.

(** What installing a token response does, in full. *)
Lemma handleTokenResponse_run r s :
  handleTokenResponse platform config r s
  = let o1 :=
      {| accessToken := Some (access_token r);
         refreshToken := if truthy (refresh_token r) then refresh_token r
                         else refreshToken (oauth s);
         tokenExpiresAt :=
           if (expires_in r =? 0)%Z then tokenExpiresAt (oauth s)
           else
             let now := fst (clock platform (world s)) in
             Some (setSeconds platform now
                     (getSeconds platform now + expires_in r)%Z) |} in
    let w1 := if (expires_in r =? 0)%Z then world s
              else snd (clock platform (world s)) in
    match onTokenRefresh config with
    | None => (Returned tt, {| oauth := o1; world := w1; wire := wire s |})
    | Some cb =>
        (match fst (cb r w1) with
         | None => Returned tt
         | Some e => Thrown e
         end,
         {| oauth := o1; world := snd (cb r w1);
            wire := (wire s ++ [Notified r])%list |})
    end.
Proof.
  unfold handleTokenResponse, call_onTokenRefresh, set_accessToken,
    set_refreshToken, set_tokenExpiresAt, new_Date, when, bind, ret, throw,
    get_oauth, put_oauth, emit, outside.
  cbn [oauth world wire accessToken refreshToken tokenExpiresAt fst snd].
  destruct (truthy (refresh_token r));
    destruct (expires_in r =? 0)%Z; cbn;
    try destruct (clock platform (world s)) as [now w1]; cbn;
    destruct (onTokenRefresh config) as [cb|]; cbn;
    try (match goal with
         | |- context [cb ?r ?w] => destruct (cb r w) as [[e|] w2]
         end); reflexivity.
Qed.

(** A grant whose POST is answered, in full. *)
Lemma token_exchange_answered ps s r :
  fst (token_endpoint platform (toString ps) (world s)) = inr r ->
  token_exchange platform config ps s
  = let o1 :=
      {| accessToken := Some (access_token r);
         refreshToken := if truthy (refresh_token r) then refresh_token r
                         else refreshToken (oauth s);
         tokenExpiresAt := installed_expiry platform (toString ps) r s |} in
    let w1 := callback_world platform (toString ps) r (world s) in
    let posted := (wire s ++ [Posted "/oauth2/token" (toString ps)])%list in
    match onTokenRefresh config with
    | None => (Returned r, {| oauth := o1; world := w1; wire := posted |})
    | Some cb =>
        (match fst (cb r w1) with
         | None => Returned r
         | Some e => Thrown e
         end,
         {| oauth := o1; world := snd (cb r w1);
            wire := (posted ++ [Notified r])%list |})
    end.
Proof.
  intros E. rewrite token_exchange_run. cbv zeta. rewrite E.
  rewrite handleTokenResponse_run. cbv zeta.
  unfold installed_expiry, callback_world.
  cbn [oauth world wire].
  destruct (onTokenRefresh config) as [cb|]; [|reflexivity].
  cbn [fst snd].
  now destruct (fst (cb r _)).
Qed.

Lemma run_grant_unspecified g s :
  specified_fields config g (oauth s) = None ->
  run_grant platform config g s
  = (Thrown (JsError "No refresh token available"), s).
Proof.
  destruct g as [request|request|scope|]; cbn [specified_fields];
    try discriminate.
  cbn [run_grant]. unfold refreshAccessToken, bind, get_oauth, throw.
  destruct (refreshToken (oauth s)) as [rt|]; cbn [truthy]; [|reflexivity].
  destruct (rt =? ""); cbn [negb]; [reflexivity | discriminate].
Qed.

(** X1. The authorization URL is the authorize endpoint of the school
    followed by a query that parses to the client id, the configured
    redirect URI (empty when there is none), [response_type=code] and
    the scope, which is ['read_user_profile'] only when no scope was
    given: an empty scope is sent as it is.  A [state] field, and the
    text [state=], are there exactly when a non-empty state was given,
    and the client secret never is. *)
Theorem getAuthorizationUrl_query scope state :
  exists query,
    getAuthorizationUrl config scope state
    = "https://" ++ schoolDomain config
      ++ ".learnworlds.com/oauth2/authorize?" ++ query
    /\ parse query = authorization_fields config scope state
    /\ field "scope" query
       = Some (match scope with Some s => s | None => "read_user_profile" end)
    /\ has_field "state" query = truthy state
    /\ includes "state=" query = truthy state
    /\ has_field "client_secret" query = false.
Proof.
  exists (toString (authorization_fields config scope state)).
  assert (E : getAuthorizationUrl config scope state
              = authorize_endpoint config
                ++ toString (authorization_fields config scope state)).
  { unfold getAuthorizationUrl, authorization_fields, append_param.
    destruct state as [st|]; [|reflexivity].
    now destruct (st =? ""). }
  split.
  { rewrite E. unfold authorize_endpoint. now rewrite !append_assoc. }
  unfold field, has_field, field_names. rewrite parse_toString.
  split; [reflexivity|]. split; [reflexivity|].
  change "state=" with ("state" ++ "=").
  rewrite (includes_toString "state" _ eq_refl eq_refl).
  unfold authorization_fields.
  destruct state as [st|]; cbn; [|tauto].
  destruct (st =? ""); cbn; tauto.
Qed.

(** Taking a local time apart into day, hour, minute, second and
    millisecond and putting it together again with the seconds moved on
    by [n] moves the local time on by [n] seconds. *)
Lemma setSeconds_getSeconds t n :
  setSeconds platform t (getSeconds platform t + n)
  = TimeClip (UTC platform (LocalTime platform t + 1000 * n)).
Proof.
  unfold setSeconds, getSeconds. cbv zeta. f_equal. f_equal.
  generalize (LocalTime platform t). intros l.
  unfold MakeDate, MakeTime, Day, HourFromTime, MinFromTime, SecFromTime,
    msFromTime, msPerDay, msPerHour, msPerMinute, msPerSecond.
  Z.div_mod_to_equations. lia.
Qed.

(** X2. When a token POST is answered with a lifetime other than zero,
    the expiry is computed on the local calendar of the host: the local
    time of the clock reading, [expires_in] seconds later, converted
    back to a time value.  It is the clock reading plus [expires_in]
    seconds when the conversion back gives that instant and it lies
    within 8.64e15 ms of the epoch; it is an invalid date when the
    converted value lies further out.  A response whose lifetime is
    zero leaves the previous expiry, if any, in place. *)
Theorem grant_sets_expiry g s ps r :
  specified_fields config g (oauth s) = Some ps ->
  fst (token_endpoint platform (toString ps) (world s)) = inr r ->
  let now :=
    fst (clock platform
           (snd (token_endpoint platform (toString ps) (world s)))) in
  let later := UTC platform (LocalTime platform now + 1000 * expires_in r) in
  let expiry := tokenExpiresAt (oauth (snd (run_grant platform config g s))) in
  (expires_in r <> 0 -> expiry = Some (TimeClip later))%Z
  /\ (expires_in r <> 0 ->
      later = now + 1000 * expires_in r ->
      Z.abs later <= 8640000000000000 ->
      expiry = Some (TimeValue (now + 1000 * expires_in r)))%Z
  /\ (expires_in r <> 0 ->
      8640000000000000 < Z.abs later ->
      expiry = Some InvalidDate)%Z
  /\ (expires_in r = 0%Z -> expiry = tokenExpiresAt (oauth s)).
Proof.
  intros Hps E now later expiry. subst expiry.
  rewrite (run_grant_exchange platform config g s ps Hps).
  rewrite (token_exchange_answered ps s r E). cbv zeta.
  unfold installed_expiry. cbv zeta. rewrite setSeconds_getSeconds.
  fold now. fold later.
  destruct (Z.eqb_spec (expires_in r) 0) as [Z0|NZ];
    destruct (onTokenRefresh config) as [cb|];
    cbn [snd oauth tokenExpiresAt];
    (split; [intros H; now try reflexivity|]);
    (split; [|split]); try (intros H; now try reflexivity);
    unfold TimeClip.
  all: try (intros _ L B;
            replace (Z.abs later >? 8640000000000000)%Z with false
              by (symmetry; rewrite Z.gtb_ltb; apply Z.ltb_ge; exact B);
            now rewrite L).
  all: intros _ B;
    replace (Z.abs later >? 8640000000000000)%Z with true
      by (symmetry; rewrite Z.gtb_ltb; apply Z.ltb_lt; exact B);
    reflexivity.
Qed.

(** X3. With a callback configured, an answered token POST is followed
    by exactly one call of the callback, with the response as it came,
    once the credentials are installed; the grant returns the response
    if the callback returns and throws what the callback throws, and in
    both cases the new access token stays installed.  Without a
    callback the grant returns the response and only the POST is on
    the wire. *)
Theorem callback_after_install g s ps r :
  specified_fields config g (oauth s) = Some ps ->
  fst (token_endpoint platform (toString ps) (world s)) = inr r ->
  (forall cb,
      onTokenRefresh config = Some cb ->
      wire (snd (run_grant platform config g s))
      = (wire s ++ [Posted "/oauth2/token" (toString ps); Notified r])%list
      /\ fst (run_grant platform config g s)
         = match fst (cb r (callback_world platform (toString ps) r (world s)))
           with
           | None => Returned r
           | Some e => Thrown e
           end
      /\ world (snd (run_grant platform config g s))
         = snd (cb r (callback_world platform (toString ps) r (world s)))
      /\ accessToken (oauth (snd (run_grant platform config g s)))
         = Some (access_token r))
  /\ (onTokenRefresh config = None ->
      wire (snd (run_grant platform config g s))
      = (wire s ++ [Posted "/oauth2/token" (toString ps)])%list
      /\ fst (run_grant platform config g s) = Returned r).
Proof.
  intros Hps E. rewrite (run_grant_exchange platform config g s ps Hps).
  rewrite (token_exchange_answered ps s r E). cbv zeta.
  split.
  - intros cb ->. cbn [fst snd wire world oauth accessToken].
    now rewrite <- app_assoc.
  - now intros ->.
Qed.

(** X4. When the token endpoint rejects the POST of a grant, the grant
    throws that failure, the credentials are what they were and the
    callback is not called. *)
Theorem token_post_failure g s ps f :
  specified_fields config g (oauth s) = Some ps ->
  fst (token_endpoint platform (toString ps) (world s)) = inl f ->
  run_grant platform config g s
  = (Thrown (AxiosFailure
               (mkAxiosError f (post_config "/oauth2/token" (toString ps)))),
     {| oauth := oauth s;
        world := snd (token_endpoint platform (toString ps) (world s));
        wire := (wire s ++ [Posted "/oauth2/token" (toString ps)])%list |}).
Proof.
  intros Hps E. rewrite (run_grant_exchange platform config g s ps Hps).
  rewrite token_exchange_run. cbv zeta. now rewrite E.
Qed.

(** X5. After a grant or refresh that returned a response, [getTokens]
    shows the access token of the response, and [isAuthenticated] is
    true exactly when that token is not the empty string. *)
Theorem grant_then_authenticated g s r s' :
  run_grant platform config g s = (Returned r, s') ->
  (exists tokens,
      fst (getTokens s') = Returned tokens
      /\ t_accessToken tokens = Some (access_token r))
  /\ fst (isAuthenticated s') = Returned (negb (access_token r =? "")).
Proof.
  intros H.
  destruct (specified_fields config g (oauth s)) as [ps|] eqn:Hps.
  - rewrite (run_grant_exchange platform config g s ps Hps) in H.
    pose proof (token_exchange_returns platform config ps s r) as A.
    rewrite H in A. cbn [fst snd] in A. specialize (A eq_refl).
    unfold getTokens, isAuthenticated, bind, get_oauth, ret.
    cbn [fst t_accessToken]. rewrite A.
    split; [eexists; split; reflexivity | reflexivity].
  - rewrite (run_grant_unspecified g s Hps) in H. discriminate.
Qed.

(** X6. Without a refresh token, or with an empty one,
    [refreshAccessToken] fails with "No refresh token available" before
    anything reaches the wire, and nothing changes. *)
Theorem refresh_requires_token s :
  truthy (refreshToken (oauth s)) = false ->
  refreshAccessToken platform config s
  = (Thrown (JsError "No refresh token available"), s).
Proof.
  intros H. apply (run_grant_unspecified Refresh s).
  cbn [specified_fields]. now rewrite H.
Qed.

(** X7. Refresh tokens rotate: after an answered refresh, the next
    refresh posts the refresh token of that response when it carried a
    non-empty one, and the same refresh token as before otherwise. *)
Theorem refresh_rotation s r :
  truthy (refreshToken (oauth s)) = true ->
  fst (token_endpoint platform (toString (refresh_fields config (oauth s)))
         (world s)) = inr r ->
  let s' := snd (refreshAccessToken platform config s) in
  let next := or_else (refresh_token r) (or_else (refreshToken (oauth s)) "") in
  truthy (refreshToken (oauth s')) = true
  /\ posted_to "/oauth2/token"
       (wire (snd (refreshAccessToken platform config s')))
     = (posted_to "/oauth2/token" (wire s)
        ++ [toString (refresh_fields config (oauth s));
            toString [("grant_type", "refresh_token");
                      ("refresh_token", next);
                      ("client_id", clientId config);
                      ("client_secret", clientSecret config)]])%list.
Proof.
  intros Hr E s' next.
  assert (Facts :
            (refreshToken (oauth s')
             = if truthy (refresh_token r) then refresh_token r
               else refreshToken (oauth s))
            /\ exists n1,
                wire s'
                = (wire s ++ Posted "/oauth2/token"
                               (toString (refresh_fields config (oauth s)))
                          :: n1)%list
                /\ notes_only n1).
  { subst s'. rewrite (refreshAccessToken_exchange platform config s Hr).
    split.
    - now destruct (token_exchange_oauth platform config _ s r E).
    - apply token_exchange_wire. }
  clearbody s'. destruct Facts as [R [n1 [E1 N1]]].
  assert (Hr' : truthy (refreshToken (oauth s')) = true).
  { rewrite R. now destruct (truthy (refresh_token r)) eqn:T. }
  assert (F : refresh_fields config (oauth s')
              = [("grant_type", "refresh_token"); ("refresh_token", next);
                 ("client_id", clientId config);
                 ("client_secret", clientSecret config)]).
  { unfold refresh_fields, next. rewrite R.
    destruct (refresh_token r) as [rt|]; cbn [truthy or_else]; [|reflexivity].
    destruct (rt =? "") eqn:Ert; cbn [negb or_else]; now rewrite ?Ert. }
  split; [exact Hr'|].
  rewrite (refreshAccessToken_exchange platform config s' Hr').
  destruct (token_exchange_wire platform config
              (refresh_fields config (oauth s')) s') as [n2 [E2 N2]].
  rewrite E2, E1, F.
  rewrite !posted_to_app. cbn [posted_to String.eqb].
  rewrite (notes_only_posted _ n1 N1), (notes_only_posted _ n2 N2).
  cbn [app]. now rewrite <- app_assoc.
Qed.

(** X8. A revocation makes one POST to the revocation endpoint, whose
    body parses to the token, the client id and the client secret; the
    token on the wire is the argument when that is a non-empty string
    and the held access token otherwise, and it is never empty. *)
Theorem revokeToken_wire token s t :
  tokenToRevoke token (oauth s) = Some t ->
  wire (snd (revokeToken platform config token s))
  = (wire s ++ [Posted "/oauth2/revoke"
                  (toString (revocation_fields config t))])%list
  /\ parse (toString (revocation_fields config t))
     = [("token", t); ("client_id", clientId config);
        ("client_secret", clientSecret config)]
  /\ t <> ""
  /\ (truthy token = true -> token = Some t)
  /\ (truthy token = false -> accessToken (oauth s) = Some t).
Proof.
  intros Ht. split.
  { rewrite (revokeToken_run platform config token s t Ht). cbv zeta.
    now destruct (fst (revoke_endpoint platform _ _)). }
  split; [apply parse_toString|].
  unfold tokenToRevoke, or_opt in Ht.
  destruct (truthy token) eqn:Tk; cbv iota in Ht.
  - rewrite Tk in Ht. subst token. repeat split; try congruence.
    cbn [truthy] in Tk. intros ->. discriminate.
  - destruct (truthy (accessToken (oauth s))) eqn:Ta; [|discriminate].
    repeat split; try congruence.
    rewrite Ht in Ta. cbn [truthy] in Ta. intros ->. discriminate.
Qed.

(** X9. [setTokens] overwrites the three credentials at once, erasing a
    refresh token and an expiry that are not given, and touches neither
    the wire nor the world; [getTokens] then reads back what was set,
    and [getAccessToken] hands out a token set without a refresh token
    whatever its expiry, also one that is past, without any POST. *)
Theorem setTokens_round_trip a r e s :
  bind (setTokens a r e) (fun _ => getTokens) s
  = (Returned {| t_accessToken := Some a; t_refreshToken := r;
                 t_expiresAt := e |},
     {| oauth := {| accessToken := Some a; refreshToken := r;
                    tokenExpiresAt := e |};
        world := world s; wire := wire s |})
  /\ (a <> "" ->
      exists w,
        getAccessToken platform config (snd (setTokens a None e s))
        = (Returned (Some a),
           {| oauth := {| accessToken := Some a; refreshToken := None;
                          tokenExpiresAt := e |};
              world := w; wire := wire s |})).
Proof.
  split; [reflexivity|].
  intros Ha.
  destruct (getAccessToken_stored_run platform config
              (snd (setTokens a None e s))) as [w Hw].
  - cbn. apply negb_true_iff. now apply String.eqb_neq.
  - right. now left.
  - exists w. exact Hw.
Qed.

(** X10. Whenever [getAccessToken] returns, it returns a token that is
    there, and it is the access token held afterwards. *)
Theorem getAccessToken_returns_held s tok s' :
  getAccessToken platform config s = (Returned tok, s') ->
  exists t, tok = Some t /\ accessToken (oauth s') = Some t.
Proof.
  intros H.
  destruct (truthy (accessToken (oauth s))) eqn:Ha;
    [|rewrite (getAccessToken_none platform config s Ha) in H; discriminate].
  assert (Held : exists t, accessToken (oauth s) = Some t).
  { destruct (accessToken (oauth s)) as [t|]; [now exists t | discriminate]. }
  assert (Stored :
            (tokenExpiresAt (oauth s) = None
             \/ truthy (refreshToken (oauth s)) = false
             \/ tokenExpiresAt (oauth s) = Some InvalidDate
             \/ exists expires,
                  tokenExpiresAt (oauth s) = Some (TimeValue expires)
                  /\ (fst (clock platform (world s))
                      < expires - 5 * 60 * 1000)%Z) ->
            exists t, tok = Some t /\ accessToken (oauth s') = Some t).
  { intros C.
    destruct (getAccessToken_stored_run platform config s Ha C) as [w Hw].
    rewrite Hw in H. injection H as <- <-.
    destruct Held as [t Et]. exists t. now split. }
  destruct (tokenExpiresAt (oauth s)) as [[expires|]|] eqn:He;
    [|apply Stored; right; right; now left|apply Stored; now left].
  destruct (truthy (refreshToken (oauth s))) eqn:Hr;
    [|apply Stored; right; now left].
  destruct (Z.le_gt_cases (expires - 5 * 60 * 1000)
              (fst (clock platform (world s)))) as [In|Out].
  - rewrite (getAccessToken_refresh platform config s expires Ha He Hr In)
      in H.
    cbv zeta in H.
    set (s1 := {| oauth := oauth s; world := snd (clock platform (world s));
                  wire := wire s |}) in *.
    assert (Hr1 : truthy (refreshToken (oauth s1)) = true) by exact Hr.
    rewrite (refreshAccessToken_exchange platform config s1 Hr1) in H.
    destruct (fst (token_exchange platform config
                     (refresh_fields config (oauth s1)) s1))
      as [r|x] eqn:E; [|discriminate].
    pose proof (token_exchange_returns platform config _ _ _ E) as A.
    injection H as <- <-. exists (access_token r). now split.
  - apply Stored. right. right. right. exists expires.
    split; [reflexivity | lia].
Qed.

(** X11. A client that was only seeded from its configuration has no
    expiry, so [getAccessToken] hands out the configured access token
    as it is, without reading the clock or posting anything, whether a
    refresh token was configured or not; and it fails when no access
    token was configured. *)
Theorem seeded_token_is_not_refreshed s :
  oauth s = new_OAuth2Client config ->
  (truthy (cfg_accessToken config) = true ->
   getAccessToken platform config s = (Returned (cfg_accessToken config), s))
  /\ (truthy (cfg_accessToken config) = false ->
      getAccessToken platform config s
      = (Thrown
           (JsError "No access token available. Please authenticate first."),
         s)).
Proof.
  intros Ho. split; intros Ha.
  - unfold getAccessToken, bind, get_oauth, ret. rewrite Ho.
    cbn [new_OAuth2Client accessToken tokenExpiresAt]. rewrite Ha.
    cbn [negb]. now rewrite Ho.
  - apply getAccessToken_none. rewrite Ho. exact Ha.
Qed.

(** X12. After a revocation that cleared the access token,
    [getAccessToken] fails although the refresh token is still held;
    the way back is an explicit [refreshAccessToken], which posts the
    refresh token that was kept. *)
Theorem revoked_then_refresh token s t :
  tokenToRevoke token (oauth s) = Some t ->
  fst (revoke_endpoint platform (toString (revocation_fields config t))
         (world s)) = None ->
  truthy token = false \/ token = accessToken (oauth s) ->
  let s' := snd (revokeToken platform config token s) in
  getAccessToken platform config s'
  = (Thrown (JsError "No access token available. Please authenticate first."),
     s')
  /\ (truthy (refreshToken (oauth s)) = true ->
      posted_to "/oauth2/token"
        (wire (snd (refreshAccessToken platform config s')))
      = (posted_to "/oauth2/token" (wire s)
         ++ [toString (refresh_fields config (oauth s))])%list).
Proof.
  intros Ht Hok Hc s'.
  assert (Facts : oauth s' = cleared (oauth s)
                  /\ wire s'
                     = (wire s ++ [Posted "/oauth2/revoke"
                                     (toString (revocation_fields config t))])%list).
  { subst s'. rewrite (revokeToken_run platform config token s t Ht).
    cbv zeta. rewrite Hok.
    replace (negb (truthy token) || strict_eq token (accessToken (oauth s)))
      with true; [now cbn|].
    destruct Hc as [->| ->]; [reflexivity|].
    now rewrite strict_eq_refl, orb_true_r. }
  clearbody s'. destruct Facts as [O Wr].
  split.
  - apply getAccessToken_none. now rewrite O.
  - intros Hr.
    assert (Hr' : truthy (refreshToken (oauth s')) = true)
      by (now rewrite O).
    rewrite (refreshAccessToken_exchange platform config s' Hr').
    destruct (token_exchange_wire platform config
                (refresh_fields config (oauth s')) s') as [n [E N]].
    rewrite E, Wr, !posted_to_app. cbn [posted_to String.eqb].
    rewrite (notes_only_posted _ n N), O.
    cbn [app]. now rewrite app_nil_r.
Qed.

End TokenLifecycle.

(* ================================================================== *)
(** * More of the gateway *)

Section GatewayRuns.
Context {W : Type}.
Variable platform : Platform W.
Variable config : LearnWorldsConfig W.

(** The credential the hook attaches in [s], if it attaches one. *)
Lemma outgoing_api_request method endpoint payload query s :
  fst (outgoing platform config
         (api_request method endpoint payload query) s)
  = wire_request method endpoint payload query
      (hook_credential platform config s) false.
Proof.
  rewrite outgoing_run. unfold hook_credential. cbn [fst].
  now destruct (fst (getAccessToken platform config s)).
Qed.

Lemma outgoing_resend method endpoint payload query cred token s :
  fst (outgoing platform config
         (authorize (mark_retry (wire_request method endpoint payload query
                                   cred false)) token) s)
  = wire_request method endpoint payload query
      (Some (bearer match fst (getAccessToken platform config s) with
                    | Returned tok => tok
                    | Thrown _ => token
                    end)) true.
Proof.
  rewrite outgoing_run. cbn [fst].
  destruct cred; now destruct (fst (getAccessToken platform config s)).
Qed.

(** What a request of [makeRequest] puts on the wire, request by
    request. *)
Lemma api_request_wire fuel method endpoint payload query s :
  exists d,
    wire (snd (http platform config (S (S fuel))
                 (api_request method endpoint payload query) s))
    = (wire s ++ d)%list
    /\ (sent_of d
        = [wire_request method endpoint payload query
             (hook_credential platform config s) false]
        \/ (exists tok,
               sent_of d
               = [wire_request method endpoint payload query
                    (hook_credential platform config s) false;
                  wire_request method endpoint payload query
                    (Some (bearer tok)) true])).
Proof.
  rewrite http_unmarked. cbv zeta.
  set (cfg := api_request method endpoint payload query).
  destruct (outgoing_quiet platform config cfg s) as [d1 [E1 Q1]].
  pose proof (outgoing_api_request method endpoint payload query s) as C1.
  fold cfg in C1.
  set (cred := hook_credential platform config s) in *.
  set (c1 := fst (outgoing platform config cfg s)) in *.
  set (s1 := snd (outgoing platform config cfg s)) in *.
  assert (One : forall (s' : System W) d',
             wire s' = (wire s1 ++ Sent c1 :: d')%list -> sent_of d' = [] ->
             exists d, wire s' = (wire s ++ d)%list
                       /\ sent_of d = [c1]).
  { intros s' d' E Q. exists (d1 ++ Sent c1 :: d')%list. split.
    - now rewrite E, E1, <- app_assoc.
    - rewrite sent_of_app, Q1. cbn [sent_of app]. now rewrite Q. }
  assert (Single : forall (s' : System W) d',
             wire s' = (wire s1 ++ Sent c1 :: d')%list -> sent_of d' = [] ->
             exists d, wire s' = (wire s ++ d)%list
               /\ (sent_of d
                   = [wire_request method endpoint payload query cred false]
                   \/ (exists tok,
                          sent_of d
                          = [wire_request method endpoint payload query cred
                               false;
                             wire_request method endpoint payload query
                               (Some (bearer tok)) true]))).
  { intros s' d' E Q. destruct (One s' d' E Q) as [d [Ed Sd]].
    exists d. split; [exact Ed|]. left. now rewrite Sd, C1. }
  destruct (fst (api_endpoint platform c1 (world s1))) as [f|response].
  - destruct (retriable f c1 _).
    + set (s2 := snd (exchange platform c1 s1)).
      destruct (quiet_forced_refresh platform config s2) as [d2 [E2 Q2]].
      destruct (fst (forced_refresh platform config s2)) as [token|e].
      * set (s3 := snd (forced_refresh platform config s2)) in *.
        set (c := authorize (mark_retry c1) token).
        destruct (outgoing_quiet platform config c s3) as [d3 [E3 Q3]].
        pose proof (outgoing_resend method endpoint payload query cred
                      token s3) as C2.
        rewrite <- C1 in C2. fold c in C2.
        set (c2 := fst (outgoing platform config c s3)) in *.
        exists (d1 ++ Sent c1 :: d2 ++ d3 ++ [Sent c2])%list. split.
        -- rewrite exchange_wire, E3, E2. subst s2.
           rewrite exchange_wire, E1.
           now rewrite <- !app_assoc.
        -- right. eexists.
           rewrite sent_of_app, Q1. cbn [sent_of app].
           rewrite !sent_of_app, Q2, Q3. cbn [sent_of app].
           now rewrite C1, C2.
      * cbn [snd]. apply (Single _ d2); [|exact Q2].
        rewrite E2. subst s2. rewrite exchange_wire.
        now rewrite <- app_assoc.
    + cbn [snd]. apply (Single _ []); [|reflexivity].
      now rewrite exchange_wire.
  - apply (Single _ []); [|reflexivity]. now rewrite exchange_wire.
Qed.


(** X14. A failure that is not a 401, or that comes back for a request
    already marked, or while no refresh token is held, is thrown in its
    normalized form at once: the state is the one right after the send,
    so nothing is posted and nothing is sent again. *)
Theorem failure_without_retry fuel cfg s f :
  let c1 := fst (outgoing platform config cfg s) in
  let s1 := snd (outgoing platform config cfg s) in
  fst (api_endpoint platform c1 (world s1)) = inl f ->
  has_status (mkAxiosError f c1) 401 = false
  \/ _retry cfg = true
  \/ truthy (refreshToken (oauth s1)) = false ->
  http platform config (S fuel) cfg s
  = (Thrown (ApiFailure (handleError (mkAxiosError f c1))),
     after_send s1 c1 (snd (api_endpoint platform c1 (world s1)))).
Proof.
  intros c1 s1 Hf Hc. rewrite http_step. cbv zeta. fold c1 s1.
  rewrite Hf, response_error_interceptor_run.
  replace (retriable f c1 (oauth (snd (exchange platform c1 s1))))
    with false; [reflexivity|].
  unfold retriable. cbn [exchange snd after_send oauth].
  destruct Hc as [H|[H|H]].
  - now rewrite H.
  - subst c1. now rewrite outgoing_retry, H, andb_false_r.
  - now rewrite H, andb_false_r.
Qed.

(** X15. A request of [makeRequest] that fails with 401 while a refresh
    token is held, whose forced refresh succeeds and whose second
    exchange is answered, ends as that answer decides: the data of the
    envelope if it reports success, the envelope's error otherwise. *)
Theorem retry_returns_second_answer
    fuel method endpoint payload query s f token response :
  let cfg := api_request method endpoint payload query in
  let c1 := fst (outgoing platform config cfg s) in
  let s1 := snd (outgoing platform config cfg s) in
  let s3 := snd (forced_refresh platform config
                   (snd (exchange platform c1 s1))) in
  let c := authorize (mark_retry c1) token in
  let c2 := fst (outgoing platform config c s3) in
  let s4 := snd (outgoing platform config c s3) in
  fst (api_endpoint platform c1 (world s1)) = inl f ->
  has_status (mkAxiosError f c1) 401 = true ->
  truthy (refreshToken (oauth s1)) = true ->
  fst (forced_refresh platform config (snd (exchange platform c1 s1)))
  = Returned token ->
  fst (api_endpoint platform c2 (world s4)) = inr response ->
  makeRequest platform config (S (S fuel)) method endpoint payload query s
  = (if success (body response) then Returned (data (body response))
     else Thrown (ApiFailure (envelope_error (body response))),
     after_send s4 c2 (snd (api_endpoint platform c2 (world s4)))).
Proof.
  intros cfg c1 s1 s3 c c2 s4 Hf H401 Hrt Hfr H2.
  unfold makeRequest, bind. fold cfg.
  rewrite http_unmarked. cbv zeta. fold c1 s1. rewrite Hf.
  replace (retriable f c1 (oauth (snd (exchange platform c1 s1))))
    with true.
  - rewrite Hfr. fold s3 c c2 s4. unfold exchange, settle.
    rewrite H2. now destruct (success (body response)).
  - unfold retriable. cbn [exchange snd after_send oauth].
    rewrite H401, Hrt. subst c1. now rewrite outgoing_retry.
Qed.

(** *** The shape of a normalized error *)

Lemma or_else_nonempty a b : b <> "" -> or_else a b <> "".
Proof.
  intros Hb. destruct a as [x|]; cbn [or_else]; [|exact Hb].
  destruct (x =? "") eqn:E; [exact Hb|]. now apply String.eqb_neq.
Qed.

(** X16. Every normalized error is named [LearnWorldsError], has one of
    the eight codes and a message that is not empty, and has a status
    and details exactly when a response was received.  Without a
    response the code is NETWORK_ERROR when a request was made, with a
    fixed message, and UNKNOWN_ERROR otherwise, with the message of the
    underlying error or "Unknown error occurred" when that is empty. *)
Theorem handleError_shape error :
  name (handleError error) = "LearnWorldsError"
  /\ (exists c, code (handleError error) = Some c /\ In c error_codes)
  /\ message (handleError error) <> ""
  /\ lw_status (handleError error)
     = match ax_response error with
       | Some response => Some (er_status response)
       | None => None
       end
  /\ details (handleError error)
     = match ax_response error with
       | Some response => Some (ResponseData (er_data response))
       | None => None
       end
  /\ (ax_response error = None ->
      code (handleError error)
         = Some (if ax_request error then "NETWORK_ERROR"
                 else "UNKNOWN_ERROR")
      /\ message (handleError error)
         = if ax_request error then "Network error - unable to reach API"
           else if ax_message error =? "" then "Unknown error occurred"
                else ax_message error).
Proof.
  unfold handleError.
  destruct (ax_response error) as [response|].
  - destruct (status_switch (er_status response))
      as [E|[E|[E|[E|[E|E]]]]];
      try (rewrite E; cbn; repeat split; try discriminate;
           eexists; split; [reflexivity | cbn; tauto]).
    rewrite !E. cbn. repeat split; try discriminate.
    + eexists; split; [reflexivity | cbn; tauto].
    + now apply or_else_nonempty.
  - destruct (ax_request error); cbn.
    + repeat split; try discriminate.
      eexists; split; [reflexivity | cbn; tauto].
    + repeat split; try discriminate.
      * eexists; split; [reflexivity | cbn; tauto].
      * destruct (ax_message error =? "") eqn:E; [discriminate|].
        now apply String.eqb_neq.
Qed.

Lemma handleError_surfaced error :
  exists c, code (handleError error) = Some c /\ In c error_codes
            /\ message (handleError error) <> "".
Proof.
  unfold handleError.
  destruct (ax_response error) as [response|].
  - destruct (status_switch (er_status response))
      as [E|[E|[E|[E|[E|E]]]]];
      try (rewrite E; cbn; eexists; split; [reflexivity|];
           split; [tauto | discriminate]).
    rewrite !E. cbn. eexists. split; [reflexivity|].
    split; [tauto | now apply or_else_nonempty].
  - destruct (ax_request error); cbn; eexists; (split; [reflexivity|]);
      (split; [tauto|]); [discriminate|].
    destruct (ax_message error =? "") eqn:E; [discriminate|].
    now apply String.eqb_neq.
Qed.

(** X17. With fuel for the one retry, whatever [makeRequest] throws is a
    [LearnWorldsError] with one of the eight codes and a message that
    is not empty: failures of the token authority met on the way, and
    what the callback throws, never reach the caller. *)
Theorem makeRequest_throws_normalized
    fuel method endpoint payload query s e :
  2 <= fuel ->
  fst (makeRequest platform config fuel method endpoint payload query s)
  = Thrown e ->
  exists lw c,
    e = ApiFailure lw /\ code lw = Some c /\ In c error_codes
    /\ message lw <> "".
Proof.
  intros Hf. destruct fuel as [|[|fuel]]; [lia | lia |].
  assert (Ex : forall c0 s0 x,
             fst (exchange platform c0 s0) = Thrown x ->
             exists lw c,
               x = ApiFailure lw /\ code lw = Some c /\ In c error_codes
               /\ message lw <> "").
  { intros c0 s0 x. unfold exchange, settle. cbn [fst].
    destruct (fst (api_endpoint platform c0 (world s0))) as [f|r];
      [|discriminate].
    intros [= <-].
    destruct (handleError_surfaced (mkAxiosError f c0)) as [c [C [I M]]].
    now exists (handleError (mkAxiosError f c0)), c. }
  assert (He : forall f c0 x,
             @Thrown AxiosResponse
               (ApiFailure (handleError (mkAxiosError f c0))) = Thrown x ->
             exists lw c,
               x = ApiFailure lw /\ code lw = Some c /\ In c error_codes
               /\ message lw <> "").
  { intros f c0 x [= <-].
    destruct (handleError_surfaced (mkAxiosError f c0)) as [c [C [I M]]].
    now exists (handleError (mkAxiosError f c0)), c. }
  unfold makeRequest, bind.
  destruct (http platform config (S (S fuel)) _ s) as [[response|x] s']
    eqn:H.
  - destruct (success (body response)); cbn [negb fst]; [discriminate|].
    intros [= <-].
    exists (envelope_error (body response)), "API_ERROR".
    repeat split; [cbn; tauto|].
    now apply or_else_nonempty.
  - cbn [fst]. intros [= <-].
    assert (Hx : fst (http platform config (S (S fuel))
                        (api_request method endpoint payload query) s)
                 = Thrown x) by now rewrite H.
    clear H. rewrite http_unmarked in Hx. cbv zeta in Hx.
    destruct (fst (api_endpoint platform _ _)) as [f|r];
      [|now apply Ex in Hx].
    destruct (retriable f _ _); [|now apply He in Hx].
    destruct (fst (forced_refresh platform config _));
      [now apply Ex in Hx | now apply He in Hx].
Qed.

(** *** Counting the POSTs of a request *)

Lemma posts_same n (s s' : System W) :
  wire s' = wire s -> posts_at_most n s s'.
Proof.
  intros E. exists []. rewrite E, app_nil_r. cbn. repeat split. lia.
Qed.

Lemma posts_trans n m (s1 s2 s3 : System W) :
  posts_at_most n s1 s2 -> posts_at_most m s2 s3 ->
  posts_at_most (n + m) s1 s3.
Proof.
  intros [d1 [E1 [L1 R1]]] [d2 [E2 [L2 R2]]].
  exists (d1 ++ d2)%list. split; [now rewrite E2, E1, app_assoc|].
  rewrite !posted_to_app, R1, R2, length_app. split; [lia | reflexivity].
Qed.

Lemma posts_weaken n m (s s' : System W) :
  n <= m -> posts_at_most n s s' -> posts_at_most m s s'.
Proof.
  intros Hnm [d [E [L R]]]. exists d. repeat split; auto. lia.
Qed.

Lemma posts_sent (s : System W) cfg w :
  posts_at_most 0 s (after_send s cfg w).
Proof. exists [Sent cfg]. cbn. repeat split. lia. Qed.

Lemma posting_bind A B n m (c : M W A) (k : A -> M W B) :
  posting n c -> (forall a, posting m (k a)) -> posting (n + m) (bind c k).
Proof.
  intros Hc Hk s. unfold bind. specialize (Hc s).
  destruct (c s) as [[a|e] s1]; cbn [snd] in *.
  - eapply posts_trans; [exact Hc | apply Hk].
  - eapply posts_weaken; [|exact Hc]. lia.
Qed.

Lemma posting_token_exchange ps :
  posting 1 (token_exchange platform config ps).
Proof.
  intros s.
  destruct (token_exchange_wire platform config ps s) as [notes [E N]].
  exists (Posted "/oauth2/token" (toString ps) :: notes). split; [exact E|].
  cbn [posted_to String.eqb].
  rewrite !(notes_only_posted _ notes N). cbn. split; [lia | reflexivity].
Qed.

Lemma posting_refreshAccessToken :
  posting 1 (refreshAccessToken platform config).
Proof.
  intros s. destruct (truthy (refreshToken (oauth s))) eqn:Hr.
  - rewrite (refreshAccessToken_exchange platform config s Hr).
    apply posting_token_exchange.
  - assert (E : refreshAccessToken platform config s
                = (Thrown (JsError "No refresh token available"), s)).
    { apply (run_grant_unspecified platform config Refresh s).
      cbn [specified_fields]. now rewrite Hr. }
    rewrite E. now apply posts_same.
Qed.

Lemma posting_getAccessToken : posting 1 (getAccessToken platform config).
Proof.
  intros s.
  destruct (truthy (accessToken (oauth s))) eqn:Ha;
    [|rewrite (getAccessToken_none platform config s Ha);
      now apply posts_same].
  assert (Stored :
            (tokenExpiresAt (oauth s) = None
             \/ truthy (refreshToken (oauth s)) = false
             \/ tokenExpiresAt (oauth s) = Some InvalidDate
             \/ exists expires,
                  tokenExpiresAt (oauth s) = Some (TimeValue expires)
                  /\ (fst (clock platform (world s))
                      < expires - 5 * 60 * 1000)%Z) ->
            posts_at_most 1 s (snd (getAccessToken platform config s))).
  { intros C.
    destruct (getAccessToken_stored_run platform config s Ha C) as [w ->].
    now apply posts_same. }
  destruct (tokenExpiresAt (oauth s)) as [[expires|]|] eqn:He;
    [|apply Stored; right; right; now left|apply Stored; now left].
  destruct (truthy (refreshToken (oauth s))) eqn:Hr;
    [|apply Stored; right; now left].
  destruct (Z.le_gt_cases (expires - 5 * 60 * 1000)
              (fst (clock platform (world s)))) as [In|Out].
  - rewrite (getAccessToken_refresh platform config s expires Ha He Hr In).
    cbv zeta. cbn [snd].
    apply (posts_trans 0 1 s
             {| oauth := oauth s; world := snd (clock platform (world s));
                wire := wire s |}).
    + now apply posts_same.
    + apply posting_refreshAccessToken.
  - apply Stored. right. right. right. exists expires.
    split; [reflexivity | lia].
Qed.

Lemma posting_forced_refresh : posting 2 (forced_refresh platform config).
Proof.
  apply (posting_bind _ _ 1 1); [apply posting_refreshAccessToken|].
  intros _. apply posting_getAccessToken.
Qed.

Lemma posts_outgoing cfg s :
  posts_at_most 1 s (snd (outgoing platform config cfg s)).
Proof. rewrite outgoing_run. apply posting_getAccessToken. Qed.

Lemma posts_exchange cfg s :
  posts_at_most 0 s (snd (exchange platform cfg s)).
Proof. apply posts_sent. Qed.

(** X18. One request of the gateway causes at most four POSTs to the
    token endpoint (one by the hook, two by the forced refresh of the
    retry, one by the hook of the resend) and never a POST to the
    revocation endpoint. *)
Theorem at_most_four_token_posts fuel cfg s :
  2 <= fuel ->
  posts_at_most 4 s (snd (http platform config fuel cfg s)).
Proof.
  intros Hf. destruct fuel as [|[|fuel]]; [lia | lia |].
  rewrite http_unmarked. cbv zeta.
  set (c1 := fst (outgoing platform config cfg s)).
  set (s1 := snd (outgoing platform config cfg s)).
  pose proof (posts_outgoing cfg s) as P1. fold s1 in P1.
  pose proof (posts_exchange c1 s1) as P2.
  set (s2 := snd (exchange platform c1 s1)) in *.
  assert (P12 : posts_at_most 1 s s2)
    by (apply (posts_trans 1 0 s s1 s2); assumption).
  destruct (fst (api_endpoint platform c1 (world s1))) as [f|response];
    [|eapply posts_weaken; [|exact P12]; lia].
  destruct (retriable f c1 (oauth s2));
    [|eapply posts_weaken; [|exact P12]; lia].
  pose proof (posting_forced_refresh s2) as P3.
  set (s3 := snd (forced_refresh platform config s2)) in *.
  assert (P123 : posts_at_most 3 s s3)
    by (apply (posts_trans 1 2 s s2 s3); assumption).
  destruct (fst (forced_refresh platform config s2)) as [token|e];
    [|eapply posts_weaken; [|exact P123]; lia].
  set (c := authorize (mark_retry c1) token).
  pose proof (posts_outgoing c s3) as P4.
  pose proof (posts_exchange (fst (outgoing platform config c s3))
                (snd (outgoing platform config c s3))) as P5.
  apply (posts_trans 3 1 s s3); [exact P123|].
  eapply (posts_trans 1 0); [exact P4 | exact P5].
Qed.

(** *** The public operations *)

Lemma run_operation_makeRequest fuel op s :
  snd (run_operation platform config fuel op s)
  = snd (request_of platform config fuel (operation_request op) s)
  /\ (forall e,
         fst (run_operation platform config fuel op s) = Thrown e
         <-> fst (request_of platform config fuel (operation_request op) s)
             = Thrown e).
Proof.
  unfold request_of.
  destruct op;
    cbn [run_operation operation_request api_request method url req_data
         params];
    unfold getAllCourses, getAllBundles, createUser, updateUser,
      updateUserTags, enrollUserToProduct, unenrollUserFromProduct, getUser,
      getCourse, getBundle, getUserEnrollments, bind, ret;
    match goal with
    | |- context [makeRequest platform config fuel ?m ?e ?p ?q s] =>
        destruct (makeRequest platform config fuel m e p q s) as [[x|x] s']
    end; cbn [fst snd]; (split; [reflexivity|]); intros e0;
    split; intros H; try discriminate; try exact H;
    injection H as <-; reflexivity.
Qed.

(** X19. Each public operation is one request of [makeRequest] with the
    verb, path, body and query of its row: lists and lookups are [GET]s
    without a body, identifiers are spliced into the path as they are,
    and the operation that unenrolls is a [DELETE] on [/enrollments]
    whose identifiers travel in the body.  The first request on the
    wire is that request, at most one more follows, and an operation
    fails exactly when its request does. *)
Theorem operation_on_wire fuel op s :
  2 <= fuel ->
  exists d rest,
    wire (snd (run_operation platform config fuel op s)) = (wire s ++ d)%list
    /\ sent_of d
       = on_wire (operation_request op) (hook_credential platform config s)
           false :: rest
    /\ length rest <= 1
    /\ forall e,
         fst (run_operation platform config fuel op s) = Thrown e
         <-> fst (request_of platform config fuel (operation_request op) s)
             = Thrown e.
Proof.
  intros Hf. destruct fuel as [|[|fuel]]; [lia | lia |].
  destruct (run_operation_makeRequest (S (S fuel)) op s) as [Es Ee].
  rewrite Es. unfold request_of, on_wire.
  set (r := operation_request op) in *.
  destruct (api_request_wire fuel (method r) (url r) (req_data r) (params r)
              s)
    as [d [E H]].
  assert (Em : wire (snd (makeRequest platform config (S (S fuel))
                            (method r) (url r) (req_data r) (params r) s))
               = (wire s ++ d)%list).
  { unfold makeRequest, bind.
    destruct (http platform config (S (S fuel)) _ s) as [[response|e] s'];
      cbn [snd] in *; [|exact E].
    now destruct (success (body response)). }
  exists d. destruct H as [H|[tok H]].
  - exists []. rewrite H. repeat split; auto.
    + apply (proj1 (Ee e)).
    + apply (proj2 (Ee e)).
  - eexists [_]. rewrite H. repeat split; auto.
    + apply (proj1 (Ee e)).
    + apply (proj2 (Ee e)).
Qed.

(** X20. After a revocation that cleared the access token, the next
    request of the gateway goes out without an Authorization header:
    the revoked token is not presented again. *)
Theorem revoked_token_not_sent
    fuel token s t method endpoint payload query :
  tokenToRevoke token (oauth s) = Some t ->
  fst (revoke_endpoint platform (toString (revocation_fields config t))
         (world s)) = None ->
  truthy token = false \/ token = accessToken (oauth s) ->
  let s' := snd (revokeToken platform config token s) in
  exists d rest,
    wire (snd (makeRequest platform config (S (S fuel)) method endpoint
                 payload query s'))
    = (wire s' ++ d)%list
    /\ sent_of d
       = wire_request method endpoint payload query None false :: rest
    /\ get_header
         (headers (wire_request method endpoint payload query None false))
         "Authorization" = None.
Proof.
  intros Ht Hok Hc s'.
  assert (O : accessToken (oauth s') = None).
  { subst s'. rewrite (revokeToken_run platform config token s t Ht).
    cbv zeta. rewrite Hok.
    replace (negb (truthy token) || strict_eq token (accessToken (oauth s)))
      with true; [now cbn|].
    destruct Hc as [->| ->]; [reflexivity|].
    now rewrite strict_eq_refl, orb_true_r. }
  clearbody s'.
  assert (Hk : hook_credential platform config s' = None).
  { unfold hook_credential.
    rewrite (getAccessToken_none platform config s'); [reflexivity|].
    now rewrite O. }
  destruct (api_request_wire fuel method endpoint payload query s')
    as [d [E H]].
  rewrite Hk in H.
  exists d.
  assert (Em : wire (snd (makeRequest platform config (S (S fuel)) method
                            endpoint payload query s'))
               = (wire s' ++ d)%list).
  { unfold makeRequest, bind.
    destruct (http platform config (S (S fuel)) _ s') as [[response|e] s''];
      cbn [snd] in *; [|exact E].
    now destruct (success (body response)). }
  destruct H as [H|[tok H]]; eexists; rewrite H; repeat split; exact Em.
Qed.

End GatewayRuns.

(* ================================================================== *)
(** * Concrete runs of the further properties *)

Example getAuthorizationUrl_sample :
  getAuthorizationUrl test_config (Some "read_user_profile") (Some "test-state")
  = "https://testschool.learnworlds.com/oauth2/authorize?client_id=test-client-id&redirect_uri=https%3A%2F%2Fapp.com%2Fcallback&response_type=code&scope=read_user_profile&state=test-state".
Proof. reflexivity. Qed.

Lemma grant_sets_expiry_witness :
  (* a host on UTC: one hour from 1000000 *)
  tokenExpiresAt
    (oauth (snd (run_grant scripted test_config (ClientCredentials None)
                   two_grants)))
  = Some (TimeValue 4600000)
  (* a host whose clocks go back half an hour after the grant: the hour
     of the lifetime is counted on the local clock, two hours pass *)
  /\ time (world autumn_grant) = 1762061400000%Z
  /\ tokenExpiresAt
       (oauth (snd (run_grant eastern test_config (ClientCredentials None)
                      autumn_grant)))
     = Some (TimeValue 1762068600000)
  (* a lifetime beyond the range of dates *)
  /\ tokenExpiresAt
       (oauth (snd (run_grant scripted test_config (ClientCredentials None)
                      endless_grant)))
     = Some InvalidDate
  (* a lifetime of zero keeps the expiry that was there *)
  /\ tokenExpiresAt (oauth hollow_grant) = Some (TimeValue 999000)
  /\ tokenExpiresAt
       (oauth (snd (run_grant scripted test_config Refresh hollow_grant)))
     = Some (TimeValue 999000).
Proof.
  split.
  - apply (proj1 (proj2 (grant_sets_expiry scripted test_config
                           (ClientCredentials None) two_grants _
                           (token_reply "access-1" 3600 (Some "refresh-1"))
                           eq_refl eq_refl)));
      [discriminate | reflexivity | vm_compute; discriminate].
  - split; [reflexivity|]. split.
    + apply (proj1 (grant_sets_expiry eastern test_config
                      (ClientCredentials None) autumn_grant _
                      (token_reply "access-1" 3600 None)
                      eq_refl eq_refl)).
      discriminate.
    + split.
      * apply (proj1 (proj2 (proj2 (grant_sets_expiry scripted test_config
                                      (ClientCredentials None) endless_grant _
                                      (token_reply "access-1" 10000000000000
                                         None)
                                      eq_refl eq_refl))));
          [discriminate | reflexivity].
      * split; [reflexivity|].
        exact (proj2 (proj2 (proj2
                 (grant_sets_expiry scripted test_config Refresh hollow_grant
                    _ (token_reply "" 0 None) eq_refl eq_refl)))
                 eq_refl).
Defined.

Lemma callback_after_install_witness :
  fst (run_grant scripted persisting_config (ClientCredentials None) seeded)
  = Thrown (Foreign "disk full")
  /\ accessToken
       (oauth (snd (run_grant scripted persisting_config
                      (ClientCredentials None) seeded)))
     = Some "access-1"
  /\ wire (snd (run_grant scripted persisting_config (ClientCredentials None)
                  seeded))
     = [Posted "/oauth2/token"
          "grant_type=client_credentials&client_id=test-client-id&client_secret=test-client-secret";
        Notified (token_reply "access-1" 3600 None)]
  /\ fst (run_grant scripted test_config (ClientCredentials None) two_grants)
     = Returned (token_reply "access-1" 3600 (Some "refresh-1")).
Proof.
  destruct (proj1 (callback_after_install scripted persisting_config
                     (ClientCredentials None) seeded _
                     (token_reply "access-1" 3600 None) eq_refl eq_refl)
              failing_callback eq_refl)
    as [Wr [R [_ A]]].
  split; [exact R|]. split; [exact A|]. split; [exact Wr|].
  exact (proj2 (proj2 (callback_after_install scripted test_config
                         (ClientCredentials None) two_grants _
                         (token_reply "access-1" 3600 (Some "refresh-1"))
                         eq_refl eq_refl)
                      eq_refl)).
Defined.

Lemma token_post_failure_witness :
  fst (run_grant scripted test_config (Password password_request) unrevocable)
  = Thrown (AxiosFailure
              (mkAxiosError network_failure
                 (post_config "/oauth2/token"
                    "grant_type=password&username=test%40example.com&password=test-password&client_id=test-client-id&client_secret=test-client-secret&scope=read_user_profile")))
  /\ oauth (snd (run_grant scripted test_config (Password password_request)
                   unrevocable))
     = held_credentials.
Proof.
  rewrite (token_post_failure scripted test_config (Password password_request)
             unrevocable _ network_failure eq_refl eq_refl).
  split; reflexivity.
Defined.

Lemma grant_then_authenticated_witness :
  (* a token: authenticated *)
  fst (isAuthenticated after_password) = Returned true
  (* an empty token: the grant returns and the client is not authenticated *)
  /\ fst (run_grant scripted test_config Refresh hollow_grant)
     = Returned (token_reply "" 0 None)
  /\ fst (isAuthenticated (snd (run_grant scripted test_config Refresh
                                  hollow_grant)))
     = Returned false.
Proof.
  split.
  - exact (proj2 (grant_then_authenticated scripted test_config
                    (Password password_request) two_grants
                    (token_reply "access-1" 3600 (Some "refresh-1"))
                    after_password eq_refl)).
  - split; [reflexivity|].
    exact (proj2 (grant_then_authenticated scripted test_config Refresh
                    hollow_grant (token_reply "" 0 None) _ eq_refl)).
Defined.

Lemma refresh_requires_token_witness :
  truthy (refreshToken (oauth anonymous)) = false
  /\ refreshAccessToken scripted test_config anonymous
     = (Thrown (JsError "No refresh token available"), anonymous).
Proof.
  split; [reflexivity|].
  exact (refresh_requires_token scripted test_config anonymous eq_refl).
Defined.

Lemma refresh_rotation_witness :
  posted_to "/oauth2/token"
    (wire (snd (refreshAccessToken scripted test_config
                  (snd (refreshAccessToken scripted test_config rotating)))))
  = ["grant_type=refresh_token&refresh_token=refresh-0&client_id=test-client-id&client_secret=test-client-secret";
     "grant_type=refresh_token&refresh_token=refresh-1&client_id=test-client-id&client_secret=test-client-secret"].
Proof.
  exact (proj2 (refresh_rotation scripted test_config rotating
                  (token_reply "access-1" 3600 (Some "refresh-1"))
                  eq_refl eq_refl)).
Defined.

Lemma revokeToken_wire_witness :
  tokenToRevoke (Some "other-token") (oauth revocable) = Some "other-token"
  /\ wire (snd (revokeToken scripted test_config (Some "other-token")
                  revocable))
     = [Posted "/oauth2/revoke"
          "token=other-token&client_id=test-client-id&client_secret=test-client-secret"].
Proof.
  split; [reflexivity|].
  exact (proj1 (revokeToken_wire scripted test_config (Some "other-token")
                  revocable "other-token" eq_refl)).
Defined.

Lemma setTokens_round_trip_witness :
  fst (bind (setTokens "test-token" None None) (fun _ => getTokens) rotating)
  = Returned {| t_accessToken := Some "test-token"; t_refreshToken := None;
                t_expiresAt := None |}
  (* expired a second ago, no refresh token: handed out all the same *)
  /\ exists w,
       getAccessToken scripted test_config
         (snd (setTokens "test-token" None (Some (TimeValue 999000)) rotating))
       = (Returned (Some "test-token"),
          {| oauth := {| accessToken := Some "test-token";
                         refreshToken := None;
                         tokenExpiresAt := Some (TimeValue 999000) |};
             world := w; wire := [] |}).
Proof.
  split.
  - now rewrite (proj1 (setTokens_round_trip scripted test_config "test-token"
                          None None rotating)).
  - apply (proj2 (setTokens_round_trip scripted test_config "test-token" None
                    (Some (TimeValue 999000)) rotating)).
    discriminate.
Defined.

Lemma getAccessToken_returns_held_witness :
  exists t,
    Some "new-token" = Some t
    /\ accessToken (oauth (snd (getAccessToken scripted test_config expired)))
       = Some t.
Proof.
  exact (getAccessToken_returns_held scripted test_config expired
           (Some "new-token") _ eq_refl).
Defined.

Lemma seeded_token_is_not_refreshed_witness :
  oauth seeded = new_OAuth2Client persisting_config
  /\ getAccessToken scripted persisting_config seeded
     = (Returned (Some "seeded-access"), seeded)
  /\ getAccessToken scripted test_config anonymous
     = (Thrown (JsError "No access token available. Please authenticate first."),
        anonymous).
Proof.
  split; [reflexivity|]. split.
  - exact (proj1 (seeded_token_is_not_refreshed scripted persisting_config
                    seeded eq_refl) eq_refl).
  - exact (proj2 (seeded_token_is_not_refreshed scripted test_config
                    anonymous eq_refl) eq_refl).
Defined.

Lemma revoked_then_refresh_witness :
  fst (getAccessToken scripted test_config
         (snd (revokeToken scripted test_config None revoke_and_go_on)))
  = Thrown (JsError "No access token available. Please authenticate first.")
  /\ posted_to "/oauth2/token"
       (wire (snd (refreshAccessToken scripted test_config
                     (snd (revokeToken scripted test_config None
                             revoke_and_go_on)))))
     = ["grant_type=refresh_token&refresh_token=refresh-0&client_id=test-client-id&client_secret=test-client-secret"].
Proof.
  destruct (revoked_then_refresh scripted test_config None revoke_and_go_on
              "access-0" eq_refl eq_refl (or_introl eq_refl))
    as [G R].
  split; [now rewrite G | exact (R eq_refl)].
Defined.


Lemma failure_without_retry_witness :
  (* a 404 while a refresh token is held: no refresh, no second request *)
  http scripted test_config 1 courses_request missing_course
  = (Thrown (ApiFailure
               {| name := "LearnWorldsError"; message := "Resource not found";
                  lw_status := Some 404%Z; code := Some "NOT_FOUND";
                  details := Some (ResponseData None) |}),
     snd (http scripted test_config 1 courses_request missing_course))
  /\ wire (snd (http scripted test_config 1 courses_request missing_course))
     = [Sent (wire_request "GET" "/courses" None None
                (Some "Bearer access-0") false)].
Proof.
  rewrite (failure_without_retry scripted test_config 0 courses_request
             missing_course (status_failure 404 None) eq_refl
             (or_introl eq_refl)).
  split; reflexivity.
Defined.

Lemma retry_returns_second_answer_witness :
  makeRequest scripted test_config 2 "GET" "/courses" None None retry_succeeds
  = (Returned "[]",
     snd (makeRequest scripted test_config 2 "GET" "/courses" None None
            retry_succeeds))
  /\ sent_of (wire (snd (makeRequest scripted test_config 2 "GET" "/courses"
                           None None retry_succeeds)))
     = [wire_request "GET" "/courses" None None (Some "Bearer access-0") false;
        wire_request "GET" "/courses" None None (Some "Bearer access-1") true].
Proof.
  rewrite (retry_returns_second_answer scripted test_config 0 "GET" "/courses"
             None None retry_succeeds unauthorized (Some "access-1")
             (ok_reply 200 "[]") eq_refl eq_refl eq_refl eq_refl eq_refl).
  split; reflexivity.
Defined.

Lemma handleError_shape_witness :
  code (handleError (mkAxiosError network_failure courses_request))
  = Some "NETWORK_ERROR"
  /\ message (handleError (mkAxiosError network_failure courses_request))
     = "Network error - unable to reach API"
  /\ lw_status (handleError (mkAxiosError network_failure courses_request))
     = None
  /\ details (handleError (mkAxiosError network_failure courses_request))
     = None.
Proof.
  destruct (handleError_shape (mkAxiosError network_failure courses_request))
    as [_ [_ [_ [S [D N]]]]].
  destruct (N eq_refl) as [C M].
  split; [exact C|]. split; [exact M|]. split; [exact S | exact D].
Defined.

Lemma makeRequest_throws_normalized_witness :
  2 <= 2
  /\ exists e,
       fst (makeRequest scripted test_config 2 "GET" "/courses" None None
              refresh_refused)
       = Thrown e
       /\ exists lw c,
            e = ApiFailure lw /\ code lw = Some c /\ In c error_codes
            /\ message lw <> "".
Proof.
  split; [exact (le_n 2)|].
  eexists. split; [reflexivity|].
  exact (makeRequest_throws_normalized scripted test_config 2 "GET" "/courses"
           None None refresh_refused _ (le_n 2) eq_refl).
Defined.

(** The bound is reached: expired credentials, tokens that live a minute,
    and a 401 make four refresh POSTs for one request. *)
Lemma at_most_four_token_posts_witness :
  2 <= 2
  /\ length (posted_to "/oauth2/token"
               (wire (snd (http scripted test_config 2 courses_request
                             thrashing))))
     = 4
  /\ posts_at_most 4 thrashing
       (snd (http scripted test_config 2 courses_request thrashing)).
Proof.
  split; [exact (le_n 2)|]. split; [reflexivity|].
  exact (at_most_four_token_posts scripted test_config 2 courses_request
           thrashing (le_n 2)).
Defined.

Lemma operation_on_wire_witness :
  2 <= 2
  /\ operation_request (UpdateUserTags "user-1" "{}")
     = api_request "PATCH" "/users/user-1/tags" (Some "{}") None
  /\ sent_of (wire (snd (run_operation scripted test_config 2
                           (UpdateUserTags "user-1" "{}") missing_course)))
     = [wire_request "PATCH" "/users/user-1/tags" (Some "{}") None
          (Some "Bearer access-0") false]
  /\ exists d rest,
       wire (snd (run_operation scripted test_config 2
                    (UpdateUserTags "user-1" "{}") missing_course))
       = (wire missing_course ++ d)%list
       /\ sent_of d
          = on_wire (operation_request (UpdateUserTags "user-1" "{}"))
              (hook_credential scripted test_config missing_course) false
            :: rest.
Proof.
  split; [exact (le_n 2)|]. split; [reflexivity|]. split; [reflexivity|].
  destruct (operation_on_wire scripted test_config 2
              (UpdateUserTags "user-1" "{}") missing_course (le_n 2))
    as [d [rest [E [S _]]]].
  exists d, rest. split; [exact E | exact S].
Defined.

Lemma revoked_token_not_sent_witness :
  sent_of (wire (snd (makeRequest scripted test_config 2 "GET" "/courses" None
                        None
                        (snd (revokeToken scripted test_config None
                                revoke_and_go_on)))))
  = [wire_request "GET" "/courses" None None None false]
  /\ exists d rest,
       wire (snd (makeRequest scripted test_config 2 "GET" "/courses" None None
                    (snd (revokeToken scripted test_config None
                            revoke_and_go_on))))
       = (wire (snd (revokeToken scripted test_config None revoke_and_go_on))
          ++ d)%list
       /\ sent_of d
          = wire_request "GET" "/courses" None None None false :: rest.
Proof.
  split; [reflexivity|].
  destruct (revoked_token_not_sent scripted test_config 0 None
              revoke_and_go_on "access-0" "GET" "/courses" None None
              eq_refl eq_refl (or_introl eq_refl))
    as [d [rest [E [S _]]]].
  exists d, rest. split; [exact E | exact S].
Defined.

(* ================================================================== *)
(** * What the gateway swallows *)

Section Swallowing.
Context {W : Type}.
Variable platform : Platform W.
Variable config : LearnWorldsConfig W.

(** A request is handed to the transport right after its hook ran. *)
Lemma http_sends_after_hook fuel cfg s :
  exists d,
    wire (snd (http platform config (S fuel) cfg s))
    = (wire (snd (outgoing platform config cfg s))
       ++ Sent (fst (outgoing platform config cfg s)) :: d)%list.
Proof.
  rewrite http_step. cbv zeta.
  set (c1 := fst (outgoing platform config cfg s)).
  set (s1 := snd (outgoing platform config cfg s)).
  destruct (fst (api_endpoint platform c1 (world s1))) as [f|response].
  - rewrite response_error_interceptor_run.
    set (s2 := snd (exchange platform c1 s1)).
    destruct (retriable f c1 (oauth s2)).
    + destruct (quiet_forced_refresh platform config s2) as [d3 [E3 _]].
      destruct (fst (forced_refresh platform config s2)) as [token|e'].
      * destruct (http_grows platform config fuel
                    (authorize (mark_retry c1) token)
                    (snd (forced_refresh platform config s2)))
          as [d4 E4].
        exists (d3 ++ d4)%list. rewrite E4, E3. subst s2.
        rewrite exchange_wire. now rewrite <- !app_assoc.
      * exists d3. cbn [snd]. rewrite E3. subst s2.
        rewrite exchange_wire. now rewrite <- !app_assoc.
    + exists []. reflexivity.
  - exists []. reflexivity.
Qed.

(** C9, as the code has it.  Before a request is handed to the
    transport the gateway asks for the access token.  If that succeeds,
    the request carries [Authorization: Bearer <token>].  If it fails,
    the hook returns the request with the headers it had and the
    request is sent next: a request of [makeRequest] then has no
    Authorization header, its resend by the 401 retry has the one the
    retry put on it.  The failure reaches nobody: the outcome of the
    request is a function of what the transport and the forced refresh
    do afterwards.  Every other failure reaches the caller.  A request
    whose first exchange fails throws the normalized error of that
    failure, unless the failure is a 401 the gateway retries; then a
    failing forced refresh throws the normalized error of the 401, and
    a failing second exchange throws its own normalized error.  So a
    request returns a response only if the transport answered it, at
    once or after a retry whose forced refresh succeeded.  A response
    whose envelope reports failure makes [makeRequest] throw.  A grant
    whose POST fails or whose callback throws, a revocation whose POST
    fails, and a call of [getAccessToken] whose refresh fails, throw
    what failed. *)
Theorem credential_attachment fuel cfg s :
  let hook := getAccessToken platform config s in
  let c1 := fst (outgoing platform config cfg s) in
  let s1 := snd (outgoing platform config cfg s) in
  let reply1 := api_endpoint platform c1 (world s1) in
  let s2 := after_send s1 c1 (snd reply1) in
  let refresh := forced_refresh platform config s2 in
  let again token := authorize (mark_retry c1) token in
  let c2 token :=
    fst (outgoing platform config (again token) (snd refresh)) in
  let s4 token :=
    snd (outgoing platform config (again token) (snd refresh)) in
  let reply2 token := api_endpoint platform (c2 token) (world (s4 token)) in
  (* the hook runs first, and the request is sent next *)
  (s1 = snd hook
   /\ exists d,
       wire (snd (http platform config (S fuel) cfg s))
       = (wire (snd hook) ++ Sent c1 :: d)%list)
  (* it attaches the token it gets *)
  /\ (forall token,
      fst hook = Returned token ->
      request_interceptor platform config cfg s
      = (Returned (authorize cfg token), snd hook)
      /\ get_header (headers (authorize cfg token)) "Authorization"
         = Some (bearer token)
      /\ c1 = authorize (merged cfg) token)
  (* and lets the request pass when it gets none *)
  /\ (forall e,
      fst hook = Thrown e ->
      request_interceptor platform config cfg s = (Returned cfg, snd hook)
      /\ c1 = merged cfg)
  (* the headers a request of makeRequest then has, sent and resent *)
  /\ (forall method endpoint payload query,
      get_header
        (headers (merged (api_request method endpoint payload query)))
        "Authorization" = None
      /\ forall s' token,
          get_header
            (headers
               (merged
                  (authorize
                     (mark_retry
                        (fst (outgoing platform config
                                (api_request method endpoint payload query)
                                s')))
                     token)))
            "Authorization" = Some (bearer token))
  (* the outcome of the request: every other failure *)
  /\ http platform config (S (S fuel)) cfg s
     = match fst reply1 with
       | inr response => (Returned response, s2)
       | inl f =>
           if retriable f c1 (oauth s2) then
             match fst refresh with
             | Returned token =>
                 (match fst (reply2 token) with
                  | inr response => Returned response
                  | inl f2 =>
                      Thrown (ApiFailure
                                (handleError (mkAxiosError f2 (c2 token))))
                  end,
                  after_send (s4 token) (c2 token) (snd (reply2 token)))
             | Thrown _ =>
                 (Thrown (ApiFailure (handleError (mkAxiosError f c1))),
                  snd refresh)
             end
           else (Thrown (ApiFailure (handleError (mkAxiosError f c1))), s2)
       end
  /\ (forall response,
      fst (http platform config (S (S fuel)) cfg s) = Returned response ->
      fst reply1 = inr response
      \/ exists f token,
          fst reply1 = inl f
          /\ retriable f c1 (oauth s2) = true
          /\ fst refresh = Returned token
          /\ fst (reply2 token) = inr response)
  /\ (forall method endpoint payload query,
      fst (makeRequest platform config (S (S fuel)) method endpoint payload
             query s)
      = match fst (http platform config (S (S fuel))
                     (api_request method endpoint payload query) s) with
        | Returned response =>
            if success (body response) then Returned (data (body response))
            else Thrown (ApiFailure (envelope_error (body response)))
        | Thrown e => Thrown e
        end)
  (* the token authority swallows nothing *)
  /\ (forall g ps,
      specified_fields config g (oauth s) = Some ps ->
      (forall f,
          fst (token_endpoint platform (toString ps) (world s)) = inl f ->
          fst (run_grant platform config g s)
          = Thrown (AxiosFailure
                      (mkAxiosError f
                         (post_config "/oauth2/token" (toString ps)))))
      /\ (forall r cb e,
          fst (token_endpoint platform (toString ps) (world s)) = inr r ->
          onTokenRefresh config = Some cb ->
          fst (cb r (callback_world platform (toString ps) r (world s)))
          = Some e ->
          fst (run_grant platform config g s) = Thrown e))
  /\ (forall token t f,
      tokenToRevoke token (oauth s) = Some t ->
      fst (revoke_endpoint platform (toString (revocation_fields config t))
             (world s)) = Some f ->
      fst (revokeToken platform config token s)
      = Thrown (AxiosFailure
                  (mkAxiosError f
                     (post_config "/oauth2/revoke"
                        (toString (revocation_fields config t))))))
  /\ (forall expires e,
      truthy (accessToken (oauth s)) = true ->
      tokenExpiresAt (oauth s) = Some (TimeValue expires) ->
      truthy (refreshToken (oauth s)) = true ->
      (expires - 5 * 60 * 1000 <= fst (clock platform (world s)))%Z ->
      fst (refreshAccessToken platform config
             {| oauth := oauth s; world := snd (clock platform (world s));
                wire := wire s |}) = Thrown e ->
      fst hook = Thrown e).
Proof.
  intros hook c1 s1 reply1 s2 refresh again c2 s4 reply2.
  assert (Run :
            http platform config (S (S fuel)) cfg s
            = match fst reply1 with
              | inr response => (Returned response, s2)
              | inl f =>
                  if retriable f c1 (oauth s2) then
                    match fst refresh with
                    | Returned token =>
                        (match fst (reply2 token) with
                         | inr response => Returned response
                         | inl f2 =>
                             Thrown (ApiFailure
                                       (handleError
                                          (mkAxiosError f2 (c2 token))))
                         end,
                         after_send (s4 token) (c2 token)
                           (snd (reply2 token)))
                    | Thrown _ =>
                        (Thrown (ApiFailure
                                   (handleError (mkAxiosError f c1))),
                         snd refresh)
                    end
                  else
                    (Thrown (ApiFailure (handleError (mkAxiosError f c1))),
                     s2)
              end).
  { rewrite http_unmarked. cbv zeta. unfold exchange, settle. cbn [snd].
    subst reply2 s4 c2 again refresh s2 reply1. cbv beta. fold c1 s1.
    destruct (fst (api_endpoint platform c1 (world s1))) as [f|response];
      [|reflexivity].
    destruct (retriable f c1 _); [|reflexivity].
    destruct (fst (forced_refresh platform config _)) as [token|e];
      [|reflexivity].
    now destruct (fst (api_endpoint platform _ _)). }
  assert (Hc : (c1, s1)
               = (match fst hook with
                  | Returned token => authorize (merged cfg) token
                  | Thrown _ => merged cfg
                  end, snd hook)).
  { subst c1 s1 hook. rewrite outgoing_run. reflexivity. }
  injection Hc as Hc1 Hs1.
  split; [|split; [|split; [|split; [|split; [|split; [|split; [|split;
    [|split]]]]]]]].
  - split; [exact Hs1|].
    destruct (http_sends_after_hook fuel cfg s) as [d E].
    exists d. fold c1 s1 in E. now rewrite <- Hs1.
  - intros token H. subst hook. rewrite request_interceptor_run, H.
    split; [reflexivity|]. split; [apply authorize_header|].
    now rewrite Hc1, H.
  - intros e H. subst hook. rewrite request_interceptor_run, H.
    split; [reflexivity|]. now rewrite Hc1, H.
  - intros method endpoint payload query. split; [reflexivity|].
    intros s' token. rewrite outgoing_api_request.
    now destruct (hook_credential platform config s').
  - exact Run.
  - intros response. rewrite Run.
    destruct (fst reply1) as [f|response1] eqn:E1.
    + destruct (retriable f c1 (oauth s2)) eqn:R; [|discriminate].
      destruct (fst refresh) as [token|e] eqn:F; [|discriminate].
      cbn [fst]. intros H. right. exists f, token.
      do 3 (split; [first [assumption | reflexivity]|]).
      revert H. destruct (fst (reply2 token)); congruence.
    + cbn [fst]. intros [= ->]. now left.
  - intros method endpoint payload query. unfold makeRequest, bind.
    destruct (http platform config (S (S fuel))
                (api_request method endpoint payload query) s)
      as [[response|e] s']; [|reflexivity].
    cbn [fst]. now destruct (success (body response)).
  - intros g ps Hps. rewrite (run_grant_exchange platform config g s ps Hps).
    split.
    + intros f E. rewrite token_exchange_run. cbv zeta. now rewrite E.
    + intros r cb e E Hcb He.
      rewrite (token_exchange_answered platform config ps s r E). cbv zeta.
      rewrite Hcb. cbn [fst]. now rewrite He.
  - intros token t f Ht E.
    rewrite (revokeToken_run platform config token s t Ht). cbv zeta.
    now rewrite E.
  - intros expires e Ha He Hr In E. subst hook.
    rewrite (getAccessToken_refresh platform config s expires Ha He Hr In).
    cbv zeta. cbn [fst]. now rewrite E.
Qed.

End Swallowing.

Lemma credential_attachment_witness :
  (* a token is held: it is attached *)
  fst (request_interceptor scripted test_config (merged courses_request)
         failing_envelope)
  = Returned (authorize (merged courses_request) (Some "access-0"))
  /\ get_header
       (headers (authorize (merged courses_request) (Some "access-0")))
       "Authorization"
     = Some "Bearer access-0"
  (* no token is held: the request goes out as it is, and is answered *)
  /\ fst (getAccessToken scripted test_config public_endpoint)
     = Thrown (JsError "No access token available. Please authenticate first.")
  /\ request_interceptor scripted test_config courses_request public_endpoint
     = (Returned courses_request, public_endpoint)
  /\ sent_of (wire (snd (http scripted test_config 2 courses_request
                           public_endpoint)))
     = [merged courses_request]
  /\ get_header (headers (merged courses_request)) "Authorization" = None
  /\ fst (makeRequest scripted test_config 2 "GET" "/courses" None None
            public_endpoint)
     = Returned "[]"
  (* the forced refresh of the retry fails: the request fails *)
  /\ fst (http scripted test_config 2 courses_request refresh_refused)
     = Thrown (ApiFailure
                 (handleError
                    (mkAxiosError unauthorized
                       (authorize (merged courses_request)
                          (Some "access-0")))))
  (* a grant that cannot reach the token endpoint, a callback that throws,
     a revocation that cannot reach its endpoint *)
  /\ fst (run_grant scripted test_config (ClientCredentials None) anonymous)
     = Thrown (AxiosFailure
                 (mkAxiosError network_failure
                    (post_config "/oauth2/token"
                       "grant_type=client_credentials&client_id=test-client-id&client_secret=test-client-secret")))
  /\ fst (run_grant scripted persisting_config (ClientCredentials None) seeded)
     = Thrown (Foreign "disk full")
  /\ fst (revokeToken scripted test_config None unrevocable)
     = Thrown (AxiosFailure
                 (mkAxiosError network_failure
                    (post_config "/oauth2/revoke"
                       "token=access-0&client_id=test-client-id&client_secret=test-client-secret")))
  (* called by hand with credentials that are due and cannot be renewed *)
  /\ fst (getAccessToken scripted test_config resend_state)
     = Thrown (AxiosFailure
                 (mkAxiosError network_failure
                    (post_config "/oauth2/token"
                       "grant_type=refresh_token&refresh_token=refresh-0&client_id=test-client-id&client_secret=test-client-secret"))).
Proof.
  pose proof (credential_attachment scripted test_config 0
                (merged courses_request) failing_envelope) as Held.
  cbv zeta in Held.
  destruct Held as [_ [Attach _]].
  destruct (Attach (Some "access-0") eq_refl) as [A [H _]].
  split; [now rewrite A|]. split; [exact H|].
  pose proof (credential_attachment scripted test_config 0 courses_request
                public_endpoint) as Open.
  cbv zeta in Open.
  destruct Open as [_ [_ [Pass [Plain [_ [Answered [Envelope _]]]]]]].
  destruct (Pass _ eq_refl) as [B _].
  split; [reflexivity|]. split; [exact B|]. split; [reflexivity|].
  split; [exact (proj1 (Plain "GET" "/courses" None None))|].
  split; [now rewrite (Envelope "GET" "/courses" None None)|].
  pose proof (credential_attachment scripted test_config 0 courses_request
                refresh_refused) as Refused.
  cbv zeta in Refused.
  destruct Refused as [_ [_ [_ [_ [Run _]]]]].
  split; [now rewrite Run|].
  pose proof (credential_attachment scripted test_config 0 courses_request
                anonymous) as Unreachable.
  cbv zeta in Unreachable.
  destruct Unreachable as [_ [_ [_ [_ [_ [_ [_ [Grant _]]]]]]]].
  split;
    [exact (proj1 (Grant (ClientCredentials None) _ eq_refl) network_failure
              eq_refl)|].
  pose proof (credential_attachment scripted persisting_config 0
                courses_request seeded) as Disk.
  cbv zeta in Disk.
  destruct Disk as [_ [_ [_ [_ [_ [_ [_ [Callback _]]]]]]]].
  split;
    [exact (proj2 (Callback (ClientCredentials None) _ eq_refl)
              (token_reply "access-1" 3600 None) failing_callback
              (Foreign "disk full") eq_refl eq_refl eq_refl)|].
  pose proof (credential_attachment scripted test_config 0 courses_request
                unrevocable) as Revoke.
  cbv zeta in Revoke.
  destruct Revoke as [_ [_ [_ [_ [_ [_ [_ [_ [Revoke _]]]]]]]]].
  split; [exact (Revoke None "access-0" network_failure eq_refl eq_refl)|].
  pose proof (credential_attachment scripted test_config 0 courses_request
                resend_state) as Due.
  cbv zeta in Due.
  destruct Due as [_ [_ [_ [_ [_ [_ [_ [_ [_ Due]]]]]]]]].
  apply (Due 1060000%Z); try reflexivity.
  vm_compute. discriminate.
Defined.
